(** * The Kudu client access layer: retry driver, alter-table builder,
      write session, scanner and resettable heartbeater.

    A shallow embedding of [src/client/client.cc] and of the heartbeater
    test, followed by the properties proved about it.

    Part I holds the model, one module per C++ class; Part II the facts. *)

From Stdlib Require Import ZArith Lia.
From stdpp Require Import base option list gmap sets strings.

(* ===================================================================== *)
(** * Part I: the model                                                    *)
(* ===================================================================== *)

(** ** [util/status.h] (not part of the sources): a status, as the code
    builds it, is a code and up to two message parts. *)

Inductive StatusCode :=
  | kOk | kNotFound | kInvalidArgument | kIllegalState | kTimedOut
  | kRemoteError | kNetworkError.

Record Status := mkStatus {
  code : StatusCode;
  message : string;
  detail : string;
}.

Definition StatusCode_eqb (a b : StatusCode) : bool :=
  match a, b with
  | kOk, kOk | kNotFound, kNotFound | kInvalidArgument, kInvalidArgument
  | kIllegalState, kIllegalState | kTimedOut, kTimedOut
  | kRemoteError, kRemoteError | kNetworkError, kNetworkError => true
  | _, _ => false
  end.

Module St.
Definition OK : Status := mkStatus kOk "" "".
Definition NotFound (m : string) : Status := mkStatus kNotFound m "".
Definition InvalidArgument (m : string) : Status := mkStatus kInvalidArgument m "".
Definition InvalidArgument2 (m d : string) : Status := mkStatus kInvalidArgument m d.
Definition IllegalState (m : string) : Status := mkStatus kIllegalState m "".
Definition IllegalState2 (m d : string) : Status := mkStatus kIllegalState m d.
Definition TimedOut (m : string) : Status := mkStatus kTimedOut m "".
Definition ok (s : Status) : bool := StatusCode_eqb (code s) kOk.
End St.

(** ** [util/monotime.h] (not part of the sources): a point on the
    monotonic clock is taken as its distance from the clock's origin in
    nanoseconds, the unit [ToNanoseconds] reports; a delta likewise. *)

Definition MonoTime := Z.
Definition MonoDelta := Z.

Module Mono.
Definition ComesBefore (a b : MonoTime) : bool := (a <? b)%Z.
Definition GetDeltaSince (a b : MonoTime) : MonoDelta := (a - b)%Z.
Definition ToNanoseconds (d : MonoDelta) : Z := d.
Definition FromMilliseconds (ms : Z) : MonoDelta := (ms * 1000000)%Z.
Definition AddDelta (t : MonoTime) (d : MonoDelta) : MonoTime := (t + d)%Z.
End Mono.

(** [int64_t] arithmetic: the value is reduced to the signed 64-bit range. *)
Definition wrap64 (z : Z) : Z := ((z + 2 ^ 63) mod 2 ^ 64 - 2 ^ 63)%Z.

(** ** The master's wire messages used by the admin calls
    ([master.proto] is not part of the sources): the fields the code reads
    and writes, an optional field as an [option]. *)

Record ColumnSchemaPB := mkColumnSchemaPB {
  col_name : string;
  col_type : Z;
  col_is_nullable : bool;
  col_default : option Z;
}.

Inductive StepPB :=
  | ADD_COLUMN (schema : ColumnSchemaPB)
  | DROP_COLUMN (name : string)
  | RENAME_COLUMN (old_name new_name : string).

Record AlterTableRequestPB := mkAlterTableRequestPB {
  table : option string;              (* table().table_name() *)
  alter_schema_steps : list StepPB;
  new_table_name : option string;     (* has_new_table_name / new_table_name *)
}.

Record AlterTableResponsePB := mkAlterTableResponsePB {
  alter_error : option Status;        (* has_error / error().status() *)
}.

Record IsAlterTableDoneRequestPB := mkIsAlterTableDoneRequestPB {
  done_table_name : string;
}.

Record IsAlterTableDoneResponsePB := mkIsAlterTableDoneResponsePB {
  done_error : option Status;
  done : bool;
}.

(** The remote calls the admin code issues to the master. *)
Inductive MasterRpc :=
  | RpcAlterTable (req : AlterTableRequestPB) (timeout : MonoDelta)
  | RpcIsAlterTableDone (req : IsAlterTableDoneRequestPB) (timeout : MonoDelta).

(** What a run of the admin code does, in order. *)
Inductive Event :=
  | EvRpc (r : MasterRpc)
  | EvCall (s : Status) (retry : bool)   (* one invocation of the retried function *)
  | EvSleep (usec : Z).                  (* one [usleep] *)

(** ** The outside world of the admin code.

    [W] is the state of everything outside the client: the clock and the
    master.  Reading the clock, sleeping and calling the master all move it. *)

Class World (W : Type) := {
  MonoTime_Now : W -> MonoTime * W;
  usleep : Z -> W -> W;
  master_AlterTable :
    AlterTableRequestPB -> MonoDelta -> W -> Status * AlterTableResponsePB * W;
  master_IsAlterTableDone :
    IsAlterTableDoneRequestPB -> MonoDelta -> W -> Status * IsAlterTableDoneResponsePB * W;
}.

(** The retried function: [Status f(const MonoTime& deadline, bool* retry)].
    It receives the initial value of the flag and returns the final one,
    with the master calls it made. *)
Definition RetryBody (W : Type) : Type :=
  MonoTime -> bool -> W -> Status * bool * W * list MasterRpc.

Module Retry.
Section WithWorld.
Context {W : Type} `{World W}.

Local Open Scope Z_scope.

(** The [while (1)] loop of [RetryFunc]; [now] and [wait_time] are its
    two locals that live across iterations.  [fuel] bounds the number of
    iterations; [None] means the bound was reached. *)
Fixpoint RetryLoop (fuel : nat) (deadline : MonoTime) (timeout_msg : string)
    (func : RetryBody W) (now : MonoTime) (wait_time : Z) (w : W)
    : option (Status * W * list Event) :=
  match fuel with
  | O => None
  | S fuel' =>
    let stime := now in
    let '(s, retry, w1, rpcs) := func deadline true w in
    let called := (EvRpc <$> rpcs) ++ [EvCall s retry] in
    if negb retry then Some (s, w1, called)
    else
      let '(now1, w2) := MonoTime_Now w1 in
      if negb (Mono.ComesBefore now1 deadline)
      then Some (St.TimedOut timeout_msg, w2, called)
      else
        let timeout_usec :=
          wrap64 (Mono.ToNanoseconds (Mono.GetDeltaSince deadline now1) -
                  Mono.ToNanoseconds (Mono.GetDeltaSince now1 stime)) in
        if 0 <? timeout_usec then
          let wait_time' := Z.min (wrap64 (wait_time * 5) ÷ 4) timeout_usec in
          let w3 := usleep wait_time' w2 in
          let '(now2, w4) := MonoTime_Now w3 in
          match RetryLoop fuel' deadline timeout_msg func now2 wait_time' w4 with
          | Some (r, w', tr) => Some (r, w', called ++ EvSleep wait_time' :: tr)
          | None => None
          end
        else
          match RetryLoop fuel' deadline timeout_msg func now1 wait_time w2 with
          | Some (r, w', tr) => Some (r, w', called ++ tr)
          | None => None
          end
  end.

Definition RetryFunc (fuel : nat) (deadline : MonoTime)
    (retry_msg timeout_msg : string) (func : RetryBody W) (w : W)
    : option (Status * W * list Event) :=
  let '(now, w0) := MonoTime_Now w in
  if negb (Mono.ComesBefore now deadline)
  then Some (St.TimedOut timeout_msg, w0, [])
  else RetryLoop fuel deadline timeout_msg func now 1000 w0.

End WithWorld.
End Retry.

(** ** [AlterTableBuilder]: the accumulated alter request. *)

Module AlterTableBuilder.

Record t := mk { alter_steps_ : AlterTableRequestPB }.

(** The constructor: [alter_steps_(new AlterTableRequestPB)]. *)
Definition new : t := mk (mkAlterTableRequestPB None [] None).

Definition clear_alter_schema_steps (r : AlterTableRequestPB) : AlterTableRequestPB :=
  mkAlterTableRequestPB (table r) [] (new_table_name r).

Definition set_new_table_name (n : string) (r : AlterTableRequestPB) : AlterTableRequestPB :=
  mkAlterTableRequestPB (table r) (alter_schema_steps r) (Some n).

Definition add_alter_schema_steps (s : StepPB) (r : AlterTableRequestPB) : AlterTableRequestPB :=
  mkAlterTableRequestPB (table r) (alter_schema_steps r ++ [s]) (new_table_name r).

Definition has_new_table_name (r : AlterTableRequestPB) : bool :=
  bool_decide (is_Some (new_table_name r)).

Definition alter_schema_steps_size (r : AlterTableRequestPB) : Z :=
  Z.of_nat (length (alter_schema_steps r)).

Definition Reset (b : t) : t :=
  mk (clear_alter_schema_steps (alter_steps_ b)).

Definition has_changes (b : t) : bool :=
  has_new_table_name (alter_steps_ b) ||
  (0 <? alter_schema_steps_size (alter_steps_ b))%Z.

Definition RenameTable (new_name : string) (b : t) : Status * t :=
  (St.OK, mk (set_new_table_name new_name (alter_steps_ b))).

Definition AddColumn (name : string) (type : Z) (default_value : option Z) (b : t)
    : Status * t :=
  match default_value with
  | None =>
    (St.InvalidArgument2 "A new column must have a default value"
       "Use AddNullableColumn() to add a NULLABLE column", b)
  | Some d =>
    (St.OK, mk (add_alter_schema_steps
                  (ADD_COLUMN (mkColumnSchemaPB name type false (Some d)))
                  (alter_steps_ b)))
  end.

Definition AddNullableColumn (name : string) (type : Z) (b : t) : Status * t :=
  (St.OK, mk (add_alter_schema_steps
                (ADD_COLUMN (mkColumnSchemaPB name type true None))
                (alter_steps_ b))).

Definition DropColumn (name : string) (b : t) : Status * t :=
  (St.OK, mk (add_alter_schema_steps (DROP_COLUMN name) (alter_steps_ b))).

Definition RenameColumn (old_name new_name : string) (b : t) : Status * t :=
  (St.OK, mk (add_alter_schema_steps (RENAME_COLUMN old_name new_name)
                (alter_steps_ b))).

End AlterTableBuilder.

(** ** [KuduClient]: the alter-table admin call and its completion probe. *)

Module KuduClient.
Section WithWorld.
Context {W : Type} `{World W}.

Local Open Scope Z_scope.

Record KuduClientOptions := mkOptions {
  default_admin_operation_timeout : MonoDelta;
}.

(** [KuduClientOptions::KuduClientOptions()]. *)
Definition default_options : KuduClientOptions :=
  mkOptions (Mono.FromMilliseconds (5 * 1000)).

(** [IsAlterTableInProgress(table_name, deadline, alter_in_progress)]:
    the flag is left as it was on every failing path. *)
Definition IsAlterTableInProgress (table_name : string) : RetryBody W :=
  fun deadline alter_in_progress w =>
    let req := mkIsAlterTableDoneRequestPB table_name in
    let '(now, w1) := MonoTime_Now w in
    let timeout := Mono.GetDeltaSince deadline now in
    let '(st, resp, w2) := master_IsAlterTableDone req timeout w1 in
    let rpcs := [RpcIsAlterTableDone req timeout] in
    if negb (St.ok st) then (st, alter_in_progress, w2, rpcs)
    else
      match done_error resp with
      | Some e => (e, alter_in_progress, w2, rpcs)
      | None => (St.OK, negb (done resp), w2, rpcs)
      end.

Definition AlterTable (fuel : nat) (options_ : KuduClientOptions)
    (table_name : string) (alter : AlterTableBuilder.t) (w : W)
    : option (Status * W * list Event) :=
  if negb (AlterTableBuilder.has_changes alter)
  then Some (St.InvalidArgument "No alter steps provided", w, [])
  else
    let '(now, w1) := MonoTime_Now w in
    let deadline := Mono.AddDelta now (Mono.FromMilliseconds (60 * 1000)) in
    let steps := AlterTableBuilder.alter_steps_ alter in
    let req := mkAlterTableRequestPB (Some table_name)
                 (alter_schema_steps steps) (new_table_name steps) in
    let timeout := default_admin_operation_timeout options_ in
    let '(st, resp, w2) := master_AlterTable req timeout w1 in
    let sent := [EvRpc (RpcAlterTable req timeout)] in
    if negb (St.ok st) then Some (st, w2, sent)
    else
      match alter_error resp with
      | Some e => Some (e, w2, sent)
      | None =>
        let alter_name :=
          if AlterTableBuilder.has_new_table_name req
          then default "" (new_table_name req)
          else table_name in
        match Retry.RetryFunc fuel deadline
                "Waiting on Alter Table to be completed"
                "Timeout out waiting for AlterTable"
                (IsAlterTableInProgress alter_name) w2 with
        | None => None
        | Some (s, w3, tr) =>
          if negb (St.ok s) then Some (s, w3, sent ++ tr)
          else Some (St.OK, w3, sent ++ tr)
        end
      end.

End WithWorld.
End KuduClient.

(** ** Calls on an object that may abort.

    A call on an object of state [S] returns a value, the object afterwards
    and what it did (events [E], in program order); or a [CHECK] fails and
    the process aborts; or it spins for ever on a lock that is already
    held. *)

Inductive Outcome (S E A : Type) :=
  | Returns (a : A) (s : S) (tr : list E)
  | Aborts (check : string)
  | Hangs.
Arguments Returns {S E A} a s tr.
Arguments Aborts {S E A} check.
Arguments Hangs {S E A}.

Definition Prog (S E A : Type) : Type := S -> Outcome S E A.

Module Prog.
Section WithState.
Context {S E : Type}.

Definition ret {A} (a : A) : Prog S E A := fun s => Returns a s [].

Definition bind {A B} (m : Prog S E A) (f : A -> Prog S E B) : Prog S E B :=
  fun s =>
    match m s with
    | Returns a s1 tr1 =>
      match f a s1 with
      | Returns b s2 tr2 => Returns b s2 (tr1 ++ tr2)
      | Aborts c => Aborts c
      | Hangs => Hangs
      end
    | Aborts c => Aborts c
    | Hangs => Hangs
    end.

Definition get : Prog S E S := fun s => Returns s s [].
Definition modify (f : S -> S) : Prog S E unit := fun s => Returns tt (f s) [].
Definition emit (e : E) : Prog S E unit := fun s => Returns tt s [e].
Definition abort {A} (what : string) : Prog S E A := fun _ => Aborts what.
Definition hang {A} : Prog S E A := fun _ => Hangs.
Definition CHECK (c : bool) (what : string) : Prog S E unit :=
  fun s => if c then Returns tt s [] else Aborts what.

End WithState.
End Prog.

#[global] Instance Prog_ret {S E} : MRet (Prog S E) := @Prog.ret S E.
#[global] Instance Prog_bind {S E} : MBind (Prog S E) :=
  fun A B f m => Prog.bind m f.

(** ** Mutations. *)

(** Modelled from the spec: the row of a mutation ([common/row.h] is not
    part of the sources).  A row knows how many leading columns form the
    key and which columns have been set; the key is set when every key
    column is. *)
Record PartialRow := mkRow {
  num_key_columns : nat;
  isset : list bool;
}.

Definition IsKeySet (r : PartialRow) : bool :=
  forallb (fun i => bool_decide (isset r !! i = Some true))
          (seq 0 (num_key_columns r)).

(** An [Insert]: the table it targets, its row and its printed form. *)
Record Insert := mkInsert {
  table_ : string;
  row : PartialRow;
  ToString : string;
}.

(** A [StatusCallback]: either the one-shot synchronizer of [Flush] or a
    callback of the user. *)
Inductive StatusCallback :=
  | SynchronizerCb
  | UserCb (id : nat).

(** ** The batcher, as the session sees it. *)

(** Modelled from the spec: the Batcher ([client/batcher.h] is not part of
    the sources), an accumulator that groups mutations for a single
    asynchronous flush.  Operations stay pending from [Add] until the flush
    completes; they count as buffered only until the flush starts. *)
Module Batcher.

Record t := mk {
  ops_ : list Insert;
  flushing_ : bool;
  timeout_ms : Z;
  callback_ : option StatusCallback;
}.

Definition new : t := mk [] false 0 None.

Definition SetTimeoutMillis (ms : Z) (b : t) : t :=
  mk (ops_ b) (flushing_ b) ms (callback_ b).

Definition Add (i : Insert) (b : t) : t :=
  mk (ops_ b ++ [i]) (flushing_ b) (timeout_ms b) (callback_ b).

Definition HasPendingOperations (b : t) : bool :=
  negb (bool_decide (ops_ b = [])).

Definition CountBufferedOperations (b : t) : Z :=
  if flushing_ b then 0%Z else Z.of_nat (length (ops_ b)).

Definition FlushAsync (cb : StatusCallback) (b : t) : t :=
  mk (ops_ b) true (timeout_ms b) (Some cb).

Definition Abort (b : t) : t :=
  mk [] (flushing_ b) (timeout_ms b) (callback_ b).

(** The flush is over: nothing is pending any more. *)
Definition Finish (b : t) : t :=
  mk [] (flushing_ b) (timeout_ms b) (callback_ b).

End Batcher.

(** ** [KuduSession]. *)

Module KuduSession.

Local Open Scope Z_scope.

(** Modelled from the spec: [enum FlushMode] ([client/client.h] is not
    part of the sources), its values numbered in the order the spec lists
    them. *)
Definition FlushMode := Z.
Definition AUTO_FLUSH_SYNC : FlushMode := 0.
Definition AUTO_FLUSH_BACKGROUND : FlushMode := 1.
Definition MANUAL_FLUSH : FlushMode := 2.

(** [MAKE_ENUM_LIMITS(FlushMode, AUTO_FLUSH_SYNC, MANUAL_FLUSH)] and
    [tight_enum_test<FlushMode>]. *)
Definition tight_enum_test (m : FlushMode) : bool :=
  (AUTO_FLUSH_SYNC <=? m) && (m <=? MANUAL_FLUSH).

(** A [Batcher*]: the address of a batcher object. *)
Abbreviation BatcherId := nat (only parsing).

(** The session's fields, together with the batcher objects it points to:
    [batcher_] and the members of [flushed_batchers_] are addresses into
    [batchers], so that a batcher reached in two ways is one object. *)
Record t := mk {
  flush_mode_ : FlushMode;
  timeout_ms_ : Z;
  batcher_ : option BatcherId;            (* NULL until [Init] *)
  flushed_batchers_ : gset BatcherId;
  lock_ : bool;                           (* [simple_spinlock] held? *)
  batchers : gmap BatcherId Batcher.t;
}.

Definition set_flush_mode (m : FlushMode) (s : t) : t :=
  mk m (timeout_ms_ s) (batcher_ s) (flushed_batchers_ s) (lock_ s) (batchers s).
Definition set_timeout_ms (ms : Z) (s : t) : t :=
  mk (flush_mode_ s) ms (batcher_ s) (flushed_batchers_ s) (lock_ s) (batchers s).
Definition set_batcher (b : option BatcherId) (s : t) : t :=
  mk (flush_mode_ s) (timeout_ms_ s) b (flushed_batchers_ s) (lock_ s) (batchers s).
Definition set_flushed (f : gset BatcherId) (s : t) : t :=
  mk (flush_mode_ s) (timeout_ms_ s) (batcher_ s) f (lock_ s) (batchers s).
Definition set_lock (l : bool) (s : t) : t :=
  mk (flush_mode_ s) (timeout_ms_ s) (batcher_ s) (flushed_batchers_ s) l (batchers s).
Definition set_batchers (h : gmap BatcherId Batcher.t) (s : t) : t :=
  mk (flush_mode_ s) (timeout_ms_ s) (batcher_ s) (flushed_batchers_ s) (lock_ s) h.

(** What a session does that others can see, in program order. *)
Inductive SEvent :=
  | EvLock | EvUnlock
  | EvRotate (fresh_b : BatcherId) (previous : option BatcherId)
  | EvInFlightInsert (b : BatcherId)
  | EvInFlightErase (b : BatcherId)
  | EvBatcherAdd (b : BatcherId) (i : Insert)
  | EvBatcherFlushAsync (b : BatcherId) (cb : StatusCallback)
  | EvCallback (cb : StatusCallback) (st : Status).

Abbreviation M := (Prog t SEvent).
Import Prog.

(** [boost::lock_guard<simple_spinlock> l(lock_)] around [body]. *)
Definition lock_guard {A} (body : M A) : M A :=
  s ← get;
  if lock_ s then hang
  else
    modify (set_lock true) ;; emit EvLock ;;
    a ← body;
    modify (set_lock false) ;; emit EvUnlock ;;
    ret a.

(** Following a [Batcher*]; a null or dangling pointer kills the process. *)
Definition deref (p : option BatcherId) : M Batcher.t :=
  s ← get;
  match p with
  | Some b =>
    match batchers s !! b with
    | Some o => ret o
    | None => abort "dangling Batcher pointer"
    end
  | None => abort "null Batcher pointer"
  end.

Definition update_batcher (b : BatcherId) (f : Batcher.t -> Batcher.t) : M unit :=
  o ← deref (Some b);
  modify (fun s => set_batchers (<[b := f o]> (batchers s)) s).

(** The constructor: flush mode [AUTO_FLUSH_SYNC], timeout 0, no batcher. *)
Definition new : t := mk AUTO_FLUSH_SYNC 0 None ∅ false ∅.

(** [NewBatcher(old_batcher)]: returns the batcher that was current. *)
Definition NewBatcher : M (option BatcherId) :=
  s ← get;
  CHECK (lock_ s) "DCHECK(lock_.is_locked())" ;;
  let b := fresh (dom (batchers s)) in   (* [new Batcher(...)] *)
  let o := Batcher.SetTimeoutMillis (timeout_ms_ s) Batcher.new in
  modify (fun s => set_batcher (Some b) (set_batchers (<[b := o]> (batchers s)) s)) ;;
  emit (EvRotate b (batcher_ s)) ;;
  ret (batcher_ s).

Definition Init : M unit :=
  lock_guard (
    s ← get;
    CHECK (bool_decide (batcher_ s = None)) "CHECK(!batcher_)" ;;
    NewBatcher ;; ret tt).

Definition SetFlushMode (m : FlushMode) : M Status :=
  s ← get;
  b ← deref (batcher_ s);
  if Batcher.HasPendingOperations b then
    ret (St.IllegalState "Cannot change flush mode when writes are buffered")
  else if negb (tight_enum_test m) then
    ret (St.InvalidArgument "Bad flush mode")
  else
    modify (set_flush_mode m) ;; ret St.OK.

Definition SetTimeoutMillis (millis : Z) : M unit :=
  CHECK (0 <=? millis) "CHECK_GE(millis, 0)" ;;
  modify (set_timeout_ms millis) ;;
  s ← get;
  match batcher_ s with
  | Some p => update_batcher p (Batcher.SetTimeoutMillis millis)
  | None => abort "null Batcher pointer"
  end.

Definition InsertOrDie (b : BatcherId) : M unit :=
  s ← get;
  CHECK (bool_decide (b ∉ flushed_batchers_ s)) "InsertOrDie: duplicate key" ;;
  modify (set_flushed ({[b]} ∪ flushed_batchers_ s)) ;;
  emit (EvInFlightInsert b).

Definition FlushAsync (user_callback : StatusCallback) : M unit :=
  s ← get;
  CHECK (flush_mode_ s =? MANUAL_FLUSH) "CHECK_EQ(flush_mode_, MANUAL_FLUSH)" ;;
  old_batcher ← lock_guard (
    old ← NewBatcher;
    match old with
    | Some b => InsertOrDie b ;; ret old
    | None => abort "null Batcher pointer"
    end);
  match old_batcher with
  | Some b =>
    update_batcher b (Batcher.FlushAsync user_callback) ;;
    emit (EvBatcherFlushAsync b user_callback)
  | None => abort "null Batcher pointer"
  end.

Definition FlushFinished (batcher : BatcherId) : M unit :=
  lock_guard (
    s ← get;
    CHECK (bool_decide (batcher ∈ flushed_batchers_ s))
          "CHECK_EQ(flushed_batchers_.erase(batcher), 1)" ;;
    modify (set_flushed (flushed_batchers_ s ∖ {[batcher]})) ;;
    emit (EvInFlightErase batcher)).

(** The [BOOST_FOREACH] of [HasPendingOperations]. *)
Fixpoint any_pending (l : list BatcherId) : M bool :=
  match l with
  | [] => ret false
  | b :: l' =>
    o ← deref (Some b);
    if Batcher.HasPendingOperations o then ret true else any_pending l'
  end.

Definition HasPendingOperations : M bool :=
  lock_guard (
    s ← get;
    b ← deref (batcher_ s);
    if Batcher.HasPendingOperations b then ret true
    else any_pending (elements (flushed_batchers_ s))).

Definition CountBufferedOperations : M Z :=
  lock_guard (
    s ← get;
    CHECK (flush_mode_ s =? MANUAL_FLUSH) "CHECK_EQ(flush_mode_, MANUAL_FLUSH)" ;;
    b ← deref (batcher_ s);
    ret (Batcher.CountBufferedOperations b)).

(** Modelled from the spec: the end of a batcher's flush (the Batcher is
    not part of the sources).  The batcher drains, tells its session
    through [FlushFinished], and its callback fires with the flush's
    status. *)
Definition BatcherCompletes (b : BatcherId) (st : Status) : M unit :=
  o ← deref (Some b);
  update_batcher b Batcher.Finish ;;
  FlushFinished b ;;
  match Batcher.callback_ o with
  | Some cb => emit (EvCallback cb st)
  | None => ret tt
  end.

(** Does in-flight batcher [b] hold the synchronizer's callback? *)
Definition holds_synchronizer (s : t) (b : BatcherId) : bool :=
  match batchers s !! b with
  | Some o =>
    match Batcher.callback_ o with
    | Some SynchronizerCb => true
    | _ => false
    end
  | None => false
  end.

(** Modelled from the spec: [Synchronizer::Wait] ([util/async_util.h] is
    not part of the sources), a one-shot latch paired with a status.  The
    wait ends when the in-flight batcher that holds the synchronizer's
    callback completes, with status [completion]; with no such batcher it
    never ends. *)
Definition Synchronizer_Wait (completion : Status) : M Status :=
  s ← get;
  match List.filter (holds_synchronizer s) (elements (flushed_batchers_ s)) with
  | b :: _ => BatcherCompletes b completion ;; ret completion
  | [] => hang
  end.

Definition Flush (completion : Status) : M Status :=
  FlushAsync SynchronizerCb ;;
  Synchronizer_Wait completion.

(** [Apply(insert)]; [completion] is the status the flush, if any,
    completes with. *)
Definition Apply (insert : Insert) (completion : Status) : M Status :=
  if negb (IsKeySet (row insert)) then
    ret (St.IllegalState2 "Key not specified" (ToString insert))
  else
    s ← get;
    match batcher_ s with
    | Some p =>
      update_batcher p (Batcher.Add insert) ;; emit (EvBatcherAdd p insert)
    | None => abort "null Batcher pointer"
    end ;;
    if flush_mode_ s =? AUTO_FLUSH_SYNC then
      st ← Flush completion;
      if negb (St.ok st) then ret st else ret St.OK
    else ret St.OK.

(** [KuduClient::NewSession]: construct, then [Init]. *)
Definition NewSession : Outcome t SEvent unit := Init new.

(** What [Init] establishes and every call below keeps: the lock is free
    between calls, the current batcher exists and is not in flight, and
    every in-flight batcher exists. *)
Definition wf (s : t) : Prop :=
  lock_ s = false /\
  (exists b, (batcher_ s = Some b) /\ is_Some (batchers s !! b) /\
             (b ∉ flushed_batchers_ s) /\
             (forall f, f ∈ flushed_batchers_ s -> is_Some (batchers s !! f))).

(** Two mutations on table [t] with one key column: the key is set in the
    first and not in the second. *)
Definition keyed_insert : Insert := mkInsert "t" (mkRow 1 [true; false]) "INSERT t".
Definition keyless_insert : Insert := mkInsert "t" (mkRow 1 [false; true]) "INSERT t".

(** The flush-mode scenario of the spec: a new session is put in
    [MANUAL_FLUSH], one mutation is applied, then the mode is set to
    [MANUAL_FLUSH] again and to [AUTO_FLUSH_SYNC]. *)
Definition flush_mode_scenario : M (Status * Status * Status * Status) :=
  Init ;;
  (a ← SetFlushMode MANUAL_FLUSH;
   b ← Apply keyed_insert St.OK;
   c ← SetFlushMode MANUAL_FLUSH;
   d ← SetFlushMode AUTO_FLUSH_SYNC;
   ret (a, b, c, d)).

(** The session [KuduClient::NewSession] hands out: one empty batcher, at
    address 0. *)
Definition fresh_session : t :=
  mk AUTO_FLUSH_SYNC 0 (Some 0%nat) ∅ false {[0%nat := Batcher.new]}.

(** A session in [MANUAL_FLUSH] mode with one mutation buffered. *)
Definition manual_session : t :=
  mk MANUAL_FLUSH 0 (Some 0%nat) ∅ false
     {[0%nat := Batcher.Add keyed_insert Batcher.new]}.

(** The address [new Batcher] returns: one no batcher lives at. *)
Definition fresh_batcher (s : t) : BatcherId := fresh (dom (batchers s)).

(** The session once [NewBatcher] has run. *)
Definition rotated (s : t) : t :=
  set_batcher (Some (fresh_batcher s))
    (set_batchers (<[fresh_batcher s :=
                      Batcher.SetTimeoutMillis (timeout_ms_ s) Batcher.new]> (batchers s)) s).

(** The session once [FlushAsync(cb)] has run, [old] being the batcher
    that was current and [o] its contents. *)
Definition flushed_state (cb : StatusCallback) (old : BatcherId) (o : Batcher.t) (s : t) : t :=
  mk (flush_mode_ s) (timeout_ms_ s) (Some (fresh_batcher s))
     ({[old]} ∪ flushed_batchers_ s) false
     (<[old := Batcher.FlushAsync cb o]>
        (<[fresh_batcher s :=
             Batcher.SetTimeoutMillis (timeout_ms_ s) Batcher.new]> (batchers s))).

(** Does the batcher at [b] have pending operations? *)
Definition pending_at (s : t) (b : BatcherId) : bool :=
  match batchers s !! b with
  | Some o => Batcher.HasPendingOperations o
  | None => false
  end.

End KuduSession.

(** ** [KuduScanner]. *)

Module KuduScanner.

Import Prog.
Local Open Scope Z_scope.

Record NewScanRequestPB := mkNewScan {
  tablet_id : option string;
  projected_columns : list string;
  range_predicates : list string;
}.

Record ScanRequestPB := mkScanRequest {
  new_scan_request : option NewScanRequestPB;
  scanner_id : option string;
  batch_size_bytes : option Z;
  close_scanner : option bool;
}.

Record ScanResponsePB := mkScanResponse {
  error : option Status;
  resp_scanner_id : option string;
  has_more_results : bool;
  data : option (list string);       (* the row block, one string a row *)
}.

(** A freshly constructed (or [Clear]ed) message. *)
Definition empty_request : ScanRequestPB := mkScanRequest None None None None.
Definition empty_response : ScanResponsePB := mkScanResponse None None false None.
Definition empty_new_scan : NewScanRequestPB := mkNewScan None [] [].

(** Accessors of the generated message classes. *)
Definition mutable_new_scan_request (r : ScanRequestPB) : NewScanRequestPB :=
  default empty_new_scan (new_scan_request r).
Definition get_scanner_id (r : ScanRequestPB) : string := default "" (scanner_id r).
Definition has_data (r : ScanResponsePB) : bool := bool_decide (is_Some (data r)).
Definition has_error (r : ScanResponsePB) : bool := bool_decide (is_Some (error r)).

(** The tablet server, as its proxy shows it: the answer to a request. *)
Definition TabletServer := ScanRequestPB -> Status * ScanResponsePB.

Record t := mk {
  open_ : bool;
  data_in_open_ : bool;
  tablet_id_ : string;                 (* [table_->tablet_id_] *)
  projection_ : list string;
  next_req_ : ScanRequestPB;
  last_response_ : ScanResponsePB;
}.

Definition set_open (b : bool) (s : t) : t :=
  mk b (data_in_open_ s) (tablet_id_ s) (projection_ s) (next_req_ s) (last_response_ s).
Definition set_data_in_open (b : bool) (s : t) : t :=
  mk (open_ s) b (tablet_id_ s) (projection_ s) (next_req_ s) (last_response_ s).
Definition set_projection (p : list string) (s : t) : t :=
  mk (open_ s) (data_in_open_ s) (tablet_id_ s) p (next_req_ s) (last_response_ s).
Definition set_next_req (r : ScanRequestPB) (s : t) : t :=
  mk (open_ s) (data_in_open_ s) (tablet_id_ s) (projection_ s) r (last_response_ s).
Definition set_last_response (r : ScanResponsePB) (s : t) : t :=
  mk (open_ s) (data_in_open_ s) (tablet_id_ s) (projection_ s) (next_req_ s) r.

(** The calls a scanner sends to the tablet server. *)
Inductive ScanEvent :=
  | EvScan (req : ScanRequestPB)            (* blocking [Scan] *)
  | EvScanAsync (req : ScanRequestPB).      (* [ScanAsync], not awaited *)

Abbreviation M := (Prog t ScanEvent).

(** The constructor, for a table whose tablet is [tablet]. *)
Definition new (tablet : string) : t :=
  mk false false tablet [] empty_request empty_response.

Definition with_new_scan (f : NewScanRequestPB -> NewScanRequestPB) (r : ScanRequestPB)
    : ScanRequestPB :=
  mkScanRequest (Some (f (mutable_new_scan_request r))) (scanner_id r)
                (batch_size_bytes r) (close_scanner r).

(** Modelled from the spec: [SchemaToColumnPBs] ([common/wire_protocol.h]
    is not part of the sources); the schema is opaque, its columns are
    added to the request. *)
Definition SchemaToColumnPBs (projection : list string) (n : NewScanRequestPB)
    : NewScanRequestPB :=
  mkNewScan (tablet_id n) (projected_columns n ++ projection) (range_predicates n).

Definition SetProjection (projection : list string) : M Status :=
  s ← get;
  CHECK (negb (open_ s)) "CHECK(!open_) Scanner already open" ;;
  modify (set_projection projection) ;;
  modify (fun s => set_next_req (with_new_scan (SchemaToColumnPBs projection) (next_req_ s)) s) ;;
  ret St.OK.

Definition SetBatchSizeBytes (batch_size : Z) : M Status :=
  modify (fun s =>
    set_next_req (mkScanRequest (new_scan_request (next_req_ s)) (scanner_id (next_req_ s))
                    (Some batch_size) (close_scanner (next_req_ s))) s) ;;
  ret St.OK.

Definition AddConjunctPredicate (pb : string) : M Status :=
  s ← get;
  CHECK (negb (open_ s)) "CHECK(!open_) Scanner already open" ;;
  modify (fun s =>
    set_next_req
      (with_new_scan (fun n => mkNewScan (tablet_id n) (projected_columns n)
                                          (range_predicates n ++ [pb]))
                     (next_req_ s)) s) ;;
  ret St.OK.

(** The blocking [Scan] through the table's proxy: the answer lands in
    [last_response_]. *)
Definition Scan (server : TabletServer) : M Status :=
  s ← get;
  let '(st, resp) := server (next_req_ s) in
  emit (EvScan (next_req_ s)) ;;
  modify (set_last_response resp) ;;
  ret st.

Definition CheckForErrors : M Status :=
  s ← get;
  match error (last_response_ s) with
  | None => ret St.OK
  | Some e => ret e
  end.

(** The request [Open] sends: the pending new-scan request, with the
    table's tablet id put in. *)
Definition open_request (s : t) : ScanRequestPB :=
  with_new_scan (fun n => mkNewScan (Some (tablet_id_ s)) (projected_columns n)
                                     (range_predicates n))
                (next_req_ s).

Definition Open (server : TabletServer) : M Status :=
  s ← get;
  CHECK (negb (open_ s)) "CHECK(!open_) Scanner already open" ;;
  modify (fun s => set_next_req (open_request s) s) ;;
  st ← Scan server;
  if negb (St.ok st) then ret st else
  st ← CheckForErrors;
  if negb (St.ok st) then ret st else
  modify (fun s => set_data_in_open (has_data (last_response_ s)) s) ;;
  modify (fun s =>
    set_next_req (mkScanRequest None (scanner_id (next_req_ s))
                    (batch_size_bytes (next_req_ s)) (close_scanner (next_req_ s))) s) ;;
  modify (fun s =>
    if has_more_results (last_response_ s) then
      set_next_req
        (mkScanRequest (new_scan_request (next_req_ s))
           (Some (default "" (resp_scanner_id (last_response_ s))))
           (batch_size_bytes (next_req_ s)) (close_scanner (next_req_ s))) s
    else s) ;;
  modify (set_open true) ;;
  ret St.OK.

Definition Close : M unit :=
  s ← get;
  if negb (open_ s) then ret tt
  else if bool_decide (get_scanner_id (next_req_ s) = "") then
    modify (set_open false)
  else
    let req := mkScanRequest (new_scan_request (next_req_ s)) (scanner_id (next_req_ s))
                 (Some 0) (Some true) in
    modify (set_next_req req) ;;
    emit (EvScanAsync req) ;;
    modify (set_next_req empty_request) ;;
    modify (set_open false).

Definition HasMoreRows : M bool :=
  s ← get;
  CHECK (open_ s) "CHECK(open_)" ;;
  ret (data_in_open_ s || has_more_results (last_response_ s)).

(** Modelled from the spec: [ExtractRowsFromRowBlockPB]
    ([common/wire_protocol.h] is not part of the sources); the rows of the
    block are handed out after those already in [rows]. *)
Definition ExtractRowsFromRowBlockPB (block : option (list string)) (rows : list string)
    : Status * list string :=
  (St.OK, rows ++ default [] block).

Definition NextBatch (server : TabletServer) (rows : list string)
    : M (Status * list string) :=
  s ← get;
  CHECK (open_ s) "CHECK(open_)" ;;
  if negb (data_in_open_ s) then
    st ← Scan server;
    if negb (St.ok st) then ret (st, []) else
    st ← CheckForErrors;
    if negb (St.ok st) then ret (st, []) else
    s ← get;
    ret (ExtractRowsFromRowBlockPB (data (last_response_ s)) [])
  else
    modify (set_data_in_open false) ;;
    s ← get;
    ret (ExtractRowsFromRowBlockPB (data (last_response_ s)) rows).

(** One call on a scanner that returns. *)
Inductive step : t -> t -> Prop :=
  | step_SetProjection p s a s' tr :
      SetProjection p s = Returns a s' tr -> step s s'
  | step_SetBatchSizeBytes n s a s' tr :
      SetBatchSizeBytes n s = Returns a s' tr -> step s s'
  | step_AddConjunctPredicate pb s a s' tr :
      AddConjunctPredicate pb s = Returns a s' tr -> step s s'
  | step_Open server s a s' tr :
      Open server s = Returns a s' tr -> step s s'
  | step_NextBatch server rows s a s' tr :
      NextBatch server rows s = Returns a s' tr -> step s s'
  | step_HasMoreRows s a s' tr :
      HasMoreRows s = Returns a s' tr -> step s s'
  | step_Close s a s' tr :
      Close s = Returns a s' tr -> step s s'.

(** The scanners a program can hold: a constructed one, after any number
    of calls. *)
Inductive reachable : t -> Prop :=
  | reachable_new tablet : reachable (new tablet)
  | reachable_step s s' : reachable s -> step s s' -> reachable s'.

(** A scanner that is not open holds no scanner id. *)
Definition closed_has_no_id (s : t) : Prop :=
  open_ s = false -> get_scanner_id (next_req_ s) = "".

(** A tablet server that finds no row: no data, no more results, no id. *)
Definition no_rows_server : TabletServer :=
  fun _ => (St.OK, empty_response).

End KuduScanner.

(** ** The resettable heartbeater and its test. *)

(** Modelled from the spec: the ResettableHeartbeater
    ([kudu/util/resettable_heartbeater.h] is not part of the sources; only
    its test is).  A worker repeatedly waits up to [period]; when the wait
    elapses without a reset the user callback fires and the worker at once
    begins the next wait; a [Reset] received during a wait makes the wait
    restart from zero.  Time is counted in milliseconds. *)
Module ResettableHeartbeater.

Record t := mk {
  period_ : nat;         (* milliseconds *)
  started_ : bool;
  waited_ : nat;         (* milliseconds spent in the current wait *)
  callbacks_ : nat;      (* how often the user callback has fired *)
}.

Definition new (period : nat) : t := mk period false 0 0.

Definition Start (h : t) : Status * t :=
  if started_ h then (St.IllegalState "The heartbeater is already started", h)
  else (St.OK, mk (period_ h) true 0 (callbacks_ h)).

Definition Stop (h : t) : Status * t :=
  (St.OK, mk (period_ h) false 0 (callbacks_ h)).

Definition Reset (h : t) : t :=
  mk (period_ h) (started_ h) 0 (callbacks_ h).

(** One millisecond passes. *)
Definition tick (h : t) : t :=
  if started_ h then
    if period_ h <=? S (waited_ h)
    then mk (period_ h) true 0 (S (callbacks_ h))
    else mk (period_ h) true (S (waited_ h)) (callbacks_ h)
  else h.

(** [ms] milliseconds pass. *)
Fixpoint sleep (ms : nat) (h : t) : t :=
  match ms with
  | O => h
  | S ms' => sleep ms' (tick h)
  end.

(** [n] rounds of: [gap] milliseconds pass, then [Reset] is called. *)
Fixpoint reset_rounds (gap n : nat) (h : t) : t :=
  match n with
  | O => h
  | S n' => reset_rounds gap n' (Reset (sleep gap h))
  end.

End ResettableHeartbeater.

(** [ResettableHeartbeaterTest], from the test file: the callback counts a
    latch down from [kNumPeriodsToWait]. *)
Module ResettableHeartbeaterTest.

Import ResettableHeartbeater.

Definition kSleepPeriodMsecs : nat := 100.
Definition kNumPeriodsToWait : nat := 3.
Definition kMaxWaitMsecs : nat := kSleepPeriodMsecs * kNumPeriodsToWait * 20.

(** [latch_.count()]: the latch starts at [kNumPeriodsToWait] and
    [HeartbeatFunction] counts it down, not below zero. *)
Definition latch_count (h : t) : nat := kNumPeriodsToWait - callbacks_ h.

(** [WaitForCountDown]: does the latch reach zero within [kMaxWaitMsecs]?
    On success the heartbeater is returned as it is when the latch opens. *)
Fixpoint wait_for (budget : nat) (h : t) : option t :=
  if latch_count h =? 0 then Some h
  else match budget with
       | O => None
       | S budget' => wait_for budget' (tick h)
       end.

Definition WaitForCountDown (h : t) : option t := wait_for kMaxWaitMsecs h.

(** The loop of [TestResetHeartbeats]: [usleep(kSleepPeriodMsecs / 4 * 1000)],
    [Reset()], [ASSERT_EQ(kNumPeriodsToWait, latch_.count())]; [None] when
    the assertion fails. *)
Fixpoint reset_loop (i : nat) (h : t) : option t :=
  match i with
  | O => Some h
  | S i' =>
    let h1 := sleep (kSleepPeriodMsecs / 4 * 1000 / 1000) h in
    let h2 := Reset h1 in
    if latch_count h2 =? kNumPeriodsToWait then reset_loop i' h2 else None
  end.

(** [TEST_F(ResettableHeartbeaterTest, TestResetHeartbeats)]: [true] when
    every assertion holds. *)
Definition TestResetHeartbeats : bool :=
  let '(st, h) := Start (new kSleepPeriodMsecs) in
  if negb (St.ok st) then false else
  match reset_loop 10 h with
  | None => false
  | Some h' =>
    match WaitForCountDown h' with
    | None => false
    | Some h'' => St.ok (fst (Stop h''))
    end
  end.

(** [TEST_F(ResettableHeartbeaterTest, TestRegularHeartbeats)]. *)
Definition TestRegularHeartbeats : bool :=
  let '(st, h) := Start (new kSleepPeriodMsecs) in
  if negb (St.ok st) then false else
  match WaitForCountDown h with
  | None => false
  | Some h' => St.ok (fst (Stop h'))
  end.

End ResettableHeartbeaterTest.

(** ** Assumptions about the outside world, and a simulated one. *)

(** The clock is monotonic: [time w] is the true time in world [w], in
    nanoseconds; a reading lies between the time before and after it, and
    [usleep] does not return early. *)
Class WorldLaws {W : Type} `{World W} (time : W -> Z) : Prop := {
  Now_between : forall w t w',
    MonoTime_Now w = (t, w') -> (time w <= t /\ t <= time w')%Z;
  usleep_sleeps : forall n w,
    (0 <= n)%Z -> (time w + 1000 * n <= time (usleep n w))%Z;
}.

(** Time does not run backwards while the retried function runs. *)
Definition monotone_body {W : Type} (time : W -> Z) (func : RetryBody W) : Prop :=
  forall d flag w s r w' rpcs,
    func d flag w = (s, r, w', rpcs) -> (time w <= time w')%Z.



(** A simulated world: a clock in nanoseconds, a master that answers every
    call after [rpc_cost] nanoseconds and reports an alter as done from
    time [alter_done_at] on. *)
Module Sim.

Local Open Scope Z_scope.

Record world := mk {
  clock : Z;
  rpc_cost : Z;
  alter_done_at : Z;
}.

Definition advance (d : Z) (w : world) : world :=
  mk (clock w + Z.max 0 d) (rpc_cost w) (alter_done_at w).

#[global] Instance sim_World : World world := {|
  MonoTime_Now w := (clock w, w);
  usleep n w := advance (1000 * n) w;
  master_AlterTable _ _ w :=
    (St.OK, mkAlterTableResponsePB None, advance (rpc_cost w) w);
  master_IsAlterTableDone _ _ w :=
    (St.OK, mkIsAlterTableDoneResponsePB None (alter_done_at w <=? clock w),
     advance (rpc_cost w) w);
|}.

(** A retried function that takes no time and always asks to be retried. *)
Definition busy : RetryBody world :=
  fun _ _ w => (St.IllegalState "busy", true, w, []).

(** A retried function that reports success at once. *)
Definition ready : RetryBody world :=
  fun _ _ w => (St.OK, false, w, []).

(** A builder that only renames the table to [new], and what altering
    table [old] with it does when the master answers in 1000 ns and reports
    the alter done at once. *)
Definition renamed : AlterTableBuilder.t :=
  snd (AlterTableBuilder.RenameTable "new" AlterTableBuilder.new).

Definition renamed_trace : list Event :=
  [EvRpc (RpcAlterTable (mkAlterTableRequestPB (Some "old") [] (Some "new")) 5000000000);
   EvRpc (RpcIsAlterTableDone (mkIsAlterTableDoneRequestPB "new") 59999999000);
   EvCall St.OK false].

End Sim.

(* ===================================================================== *)
(** * Part I, continued: more of the client                                *)
(* ===================================================================== *)

From Stdlib Require Import DecimalString.

(** ** Reading the trace of a run of [RetryFunc]. *)

Module Trace.

Local Open Scope Z_scope.

(** The sleeps of a run, in order, in microseconds. *)
Fixpoint sleeps (tr : list Event) : list Z :=
  match tr with
  | [] => []
  | EvSleep n :: rest => n :: sleeps rest
  | _ :: rest => sleeps rest
  end.

(** What the retried function returned at each call, in order. *)
Fixpoint calls (tr : list Event) : list (Status * bool) :=
  match tr with
  | [] => []
  | EvCall s r :: rest => (s, r) :: calls rest
  | _ :: rest => calls rest
  end.

(** A back-off that starts from [wait]: every sleep lasts at least one
    microsecond and at most 5/4 of the one before. *)
Fixpoint backoff (wait : Z) (l : list Z) : Prop :=
  match l with
  | [] => True
  | n :: l' => (1 <= n <= wait * 5 / 4) /\ backoff n l'
  end.

(** [usleep] takes a [useconds_t], 32 bits without sign: what the
    [int64_t] [wait_time] becomes when [RetryFunc] passes it. *)
Definition useconds_t (n : Z) : Z := n mod 2 ^ 32.

End Trace.

(** ** [RetryFunc] with the argument of [usleep] as the machine passes it.

    [usleep(wait_time)] converts the [int64_t] to [useconds_t]; the local
    [wait_time] itself keeps its value.  Apart from that conversion, in the
    world and in the recorded sleep, the loop is that of [Retry.RetryLoop]. *)

Module Retry32.
Section WithWorld.
Context {W : Type} `{World W}.

Local Open Scope Z_scope.

Fixpoint RetryLoop (fuel : nat) (deadline : MonoTime) (timeout_msg : string)
    (func : RetryBody W) (now : MonoTime) (wait_time : Z) (w : W)
    : option (Status * W * list Event) :=
  match fuel with
  | O => None
  | S fuel' =>
    let stime := now in
    let '(s, retry, w1, rpcs) := func deadline true w in
    let called := (EvRpc <$> rpcs) ++ [EvCall s retry] in
    if negb retry then Some (s, w1, called)
    else
      let '(now1, w2) := MonoTime_Now w1 in
      if negb (Mono.ComesBefore now1 deadline)
      then Some (St.TimedOut timeout_msg, w2, called)
      else
        let timeout_usec :=
          wrap64 (Mono.ToNanoseconds (Mono.GetDeltaSince deadline now1) -
                  Mono.ToNanoseconds (Mono.GetDeltaSince now1 stime)) in
        if 0 <? timeout_usec then
          let wait_time' := Z.min (wrap64 (wait_time * 5) ÷ 4) timeout_usec in
          let slept := Trace.useconds_t wait_time' in
          let w3 := usleep slept w2 in
          let '(now2, w4) := MonoTime_Now w3 in
          match RetryLoop fuel' deadline timeout_msg func now2 wait_time' w4 with
          | Some (r, w', tr) => Some (r, w', called ++ EvSleep slept :: tr)
          | None => None
          end
        else
          match RetryLoop fuel' deadline timeout_msg func now1 wait_time w2 with
          | Some (r, w', tr) => Some (r, w', called ++ tr)
          | None => None
          end
  end.

Definition RetryFunc (fuel : nat) (deadline : MonoTime)
    (retry_msg timeout_msg : string) (func : RetryBody W) (w : W)
    : option (Status * W * list Event) :=
  let '(now, w0) := MonoTime_Now w in
  if negb (Mono.ComesBefore now deadline)
  then Some (St.TimedOut timeout_msg, w0, [])
  else RetryLoop fuel deadline timeout_msg func now 1000 w0.

End WithWorld.
End Retry32.

(** ** A sequence of calls on an [AlterTableBuilder]. *)

Module BuilderCalls.

Inductive call :=
  | RenameTable (new_name : string)
  | AddColumn (name : string) (type : Z) (default_value : option Z)
  | AddNullableColumn (name : string) (type : Z)
  | DropColumn (name : string)
  | RenameColumn (old_name new_name : string).

Definition apply (c : call) (b : AlterTableBuilder.t) : Status * AlterTableBuilder.t :=
  match c with
  | RenameTable n => AlterTableBuilder.RenameTable n b
  | AddColumn n t d => AlterTableBuilder.AddColumn n t d b
  | AddNullableColumn n t => AlterTableBuilder.AddNullableColumn n t b
  | DropColumn n => AlterTableBuilder.DropColumn n b
  | RenameColumn o n => AlterTableBuilder.RenameColumn o n b
  end.

(** The calls in turn, whatever their statuses. *)
Fixpoint run (cs : list call) (b : AlterTableBuilder.t) : AlterTableBuilder.t :=
  match cs with
  | [] => b
  | c :: cs' => run cs' (snd (apply c b))
  end.

(** The step a call stands for; none for a table rename and for an
    [AddColumn] without default value. *)
Definition step_of (c : call) : option StepPB :=
  match c with
  | RenameTable _ => None
  | AddColumn n t (Some d) => Some (ADD_COLUMN (mkColumnSchemaPB n t false (Some d)))
  | AddColumn _ _ None => None
  | AddNullableColumn n t => Some (ADD_COLUMN (mkColumnSchemaPB n t true None))
  | DropColumn n => Some (DROP_COLUMN n)
  | RenameColumn o n => Some (RENAME_COLUMN o n)
  end.

Definition rename_of (c : call) : option string :=
  match c with
  | RenameTable n => Some n
  | _ => None
  end.

End BuilderCalls.

(** ** [KuduTable::Open]: waiting for the table's tablet. *)

Module KuduTable.

Local Open Scope Z_scope.

Record TabletLocationsPB := mkLocation {
  tablet_id : string;
  start_key : string;
  end_key : string;
}.

Record GetTableLocationsRequestPB := mkLocationsRequest {
  loc_table_name : string;
}.

Record GetTableLocationsResponsePB := mkLocationsResponse {
  loc_error : option Status;
  tablet_locations : list TabletLocationsPB;
}.

(** The master's answer to [GetTableLocations], beside the world of the
    admin calls. *)
Class Locations (W : Type) := {
  master_GetTableLocations :
    GetTableLocationsRequestPB -> W -> Status * GetTableLocationsResponsePB * W;
}.

Record t := mk {
  name_ : string;
  tablet_id_ : string;
}.

(** The constructor leaves [tablet_id_] empty. *)
Definition new (name : string) : t := mk name "".

(** What [Open] does, in order: a call with the master's answer, or a
    sleep. *)
Inductive TableEvent :=
  | EvGetTableLocations (req : GetTableLocationsRequestPB)
                        (st : Status) (resp : GetTableLocationsResponsePB)
  | EvTableSleep (usec : Z).

Section WithWorld.
Context {W : Type} `{World W} `{Locations W}.

(** The [do ... while (1)] of [Open], then what follows it.  [debug] tells
    whether the [DCHECK]s are compiled in; [fuel] bounds the number of
    polls, and [None] means the loop was still going round. *)
Fixpoint Open (fuel : nat) (debug : bool) (tbl : t) (w : W)
    : option (Outcome (t * W) TableEvent Status) :=
  match fuel with
  | O => None
  | S fuel' =>
    let req := mkLocationsRequest (name_ tbl) in
    let '(st, resp, w1) := master_GetTableLocations req w in
    let polled := EvGetTableLocations req st resp in
    if negb (St.ok st) then Some (Returns st (tbl, w1) [polled])
    else
      match loc_error resp with
      | Some e => Some (Returns e (tbl, w1) [polled])
      | None =>
        if (0 <? Z.of_nat (length (tablet_locations resp))) then
          if debug && negb (Z.of_nat (length (tablet_locations resp)) =? 1)
          then Some (Aborts "DCHECK_EQ(1, resp.tablet_locations_size())")
          else
            let id := default "" (tablet_id <$> head (tablet_locations resp)) in
            Some (Returns St.OK (mk (name_ tbl) id, w1) [polled])
        else
          let w2 := usleep 100000 w1 in
          match Open fuel' debug tbl w2 with
          | Some (Returns s r tr) =>
            Some (Returns s r (polled :: EvTableSleep 100000 :: tr))
          | other => other
          end
      end
  end.

End WithWorld.

(** An answer that neither fails nor names a tablet: [Open] polls again. *)
Definition not_yet (a : Status * GetTableLocationsResponsePB) : Prop :=
  St.ok (fst a) = true /\ loc_error (snd a) = None /\ tablet_locations (snd a) = [].


End KuduTable.

(** ** [KuduClient::CreateTable] and its options. *)

Module CreateTable.

Local Open Scope Z_scope.

(** [CreateTableOptions]. *)
Record CreateTableOptions := mkCreateOptions {
  split_keys_ : list string;
  wait_assignment_ : bool;
}.

(** The constructor: no split key, and wait for the assignment. *)
Definition default_options : CreateTableOptions := mkCreateOptions [] true.

Definition WithSplitKeys (keys : list string) (o : CreateTableOptions) : CreateTableOptions :=
  mkCreateOptions keys (wait_assignment_ o).

Definition WaitAssignment (wait_assignment : bool) (o : CreateTableOptions)
    : CreateTableOptions :=
  mkCreateOptions (split_keys_ o) wait_assignment.

Record CreateTableResponsePB := mkCreateResponse {
  create_error : option Status;
}.

Record IsCreateTableDoneResponsePB := mkCreateDoneResponse {
  create_done_error : option Status;
  create_done : bool;
}.

(** What is missing from the sources, taken as given: the schema types,
    [SchemaToPB] of [common/wire_protocol.h], the status a
    [RETURN_NOT_OK_PREPEND] returns, and the master's create calls. *)
Class Create (W : Type) := {
  Schema : Type;
  SchemaPB : Type;
  SchemaToPB : Schema -> Status * SchemaPB;
  prepend : string -> Status -> Status;
  master_CreateTable :
    string -> SchemaPB -> list string -> MonoDelta -> W -> Status * CreateTableResponsePB * W;
  master_IsCreateTableDone :
    string -> MonoDelta -> W -> Status * IsCreateTableDoneResponsePB * W;
}.

Section WithWorld.
Context {W : Type} `{World W} `{Create W}.

(** What [CreateTable] does, in order: its call to the master, with the
    table name, the split keys and the timeout of the request, and then
    the events of the completion polling; a call of the probe, [EvCall], is
    one [IsCreateTableDone] call to the master. *)
Inductive CreateEvent :=
  | EvCreateTable (name : string) (pre_split_keys : list string) (timeout : MonoDelta)
  | EvPoll (e : Event).

(** [IsCreateTableInProgress(table_name, deadline, create_in_progress)]. *)
Definition IsCreateTableInProgress (table_name : string) : RetryBody W :=
  fun deadline create_in_progress w =>
    let '(now, w1) := MonoTime_Now w in
    let timeout := Mono.GetDeltaSince deadline now in
    let '(st, resp, w2) := master_IsCreateTableDone table_name timeout w1 in
    if negb (St.ok st) then (st, create_in_progress, w2, [])
    else
      match create_done_error resp with
      | Some e => (e, create_in_progress, w2, [])
      | None => (St.OK, negb (create_done resp), w2, [])
      end.

(** [CreateTable(table_name, schema, opts)]. *)
Definition CreateTable (fuel : nat) (options_ : KuduClient.KuduClientOptions)
    (table_name : string) (schema : Schema) (opts : CreateTableOptions) (w : W)
    : option (Status * W * list CreateEvent) :=
  let '(now, w1) := MonoTime_Now w in
  let deadline := Mono.AddDelta now (Mono.FromMilliseconds (15 * 1000)) in
  let timeout := KuduClient.default_admin_operation_timeout options_ in
  let '(st_schema, schema_pb) := SchemaToPB schema in
  if negb (St.ok st_schema) then Some (prepend "Invalid schema" st_schema, w1, [])
  else
    let keys := split_keys_ opts in
    let '(st, resp, w2) := master_CreateTable table_name schema_pb keys timeout w1 in
    let sent := [EvCreateTable table_name keys timeout] in
    if negb (St.ok st) then Some (st, w2, sent)
    else
      match create_error resp with
      | Some e => Some (e, w2, sent)
      | None =>
        if wait_assignment_ opts then
          match Retry.RetryFunc fuel deadline
                  "Waiting on Create Table to be completed"
                  "Timeout out waiting for Table Creation"
                  (IsCreateTableInProgress table_name) w2 with
          | None => None
          | Some (s, w3, tr) =>
            if negb (St.ok s) then Some (s, w3, sent ++ (EvPoll <$> tr))
            else Some (St.OK, w3, sent ++ (EvPoll <$> tr))
          end
        else Some (St.OK, w2, sent)
      end.

(** [CreateTable(table_name, schema)]: with the default options. *)
Definition CreateTable2 (fuel : nat) (options_ : KuduClient.KuduClientOptions)
    (table_name : string) (schema : Schema) (w : W)
    : option (Status * W * list CreateEvent) :=
  CreateTable fuel options_ table_name schema default_options w.

End WithWorld.
End CreateTable.

(** ** [CreateTableStressTest::CreateBigTable], from the integration test. *)

Module CreateTableStressTest.

Definition kNumTablets : nat := 100.

(** [StringPrintf("k_%05d", i)] for [i >= 0]: the decimal digits, padded
    with zeros on the left to five. *)
Definition key (i : nat) : string :=
  let digits := NilEmpty.string_of_uint (Nat.to_uint i) in
  ("k_" ++ String.concat "" (replicate (5 - String.length digits) "0"%string) ++ digits)%string.

(** The loop [for (int i = num_splits; i >= 0; i--) keys.push_back(...)],
    from [i] down. *)
Fixpoint keys_from (i : nat) : list string :=
  key i ::
  match i with
  | O => []
  | S i' => keys_from i'
  end.

(** The options [CreateBigTable] passes to [CreateTable], for a table of
    [num_tablets >= 1] tablets; the test has [kNumTablets]. *)
Definition big_table_options (num_tablets : nat) : CreateTable.CreateTableOptions :=
  let num_splits := (num_tablets - 1)%nat in
  CreateTable.WaitAssignment false
    (CreateTable.WithSplitKeys (keys_from num_splits) CreateTable.default_options).

End CreateTableStressTest.

(** ** The scanner after a successful [Open]. *)

Module ScannerRun.

Import KuduScanner.

(** The scanner once [Open] has succeeded with answer [resp]: open, the
    new-scan part of the request dropped, the scanner id of the answer kept
    when more results are advertised. *)
Definition opened (resp : ScanResponsePB) (sc : KuduScanner.t) : KuduScanner.t :=
  KuduScanner.mk true (has_data resp) (tablet_id_ sc) (projection_ sc)
    (mkScanRequest None
       (if has_more_results resp then Some (default "" (resp_scanner_id resp))
        else scanner_id (next_req_ sc))
       (batch_size_bytes (next_req_ sc)) (close_scanner (next_req_ sc)))
    resp.

(** Any number of [NextBatch] calls that return, one after the other, with
    whatever tablet server answers and whatever [rows] are passed. *)
Inductive batches : KuduScanner.t -> KuduScanner.t -> Prop :=
  | batches_none s : batches s s
  | batches_next s s1 s2 server rows out tr :
      batches s s1 -> NextBatch server rows s1 = Returns out s2 tr -> batches s s2.

End ScannerRun.

(** ** [KuduScanner::Open] with the proxy it gets from its table. *)

Module TableProxy.

Import KuduScanner.

(** The meta cache ([client/meta_cache.h] is not part of the sources), as
    [GetTabletProxy] reads it: for a tablet, the status its awaited
    [Refresh] ends with and its first replica, if any; for a replica's
    server, the status its awaited [RefreshProxy] ends with and its
    proxy. *)
Record RemoteTabletServer := mkRemoteServer {
  RefreshProxy : Status;
  ts_proxy : TabletServer;
}.

Record RemoteTablet := mkRemoteTablet {
  Refresh : Status;
  replica_tserver_0 : option RemoteTabletServer;
}.

(** [LookupTabletByID]. *)
Definition MetaCache := string -> RemoteTablet.

(** [KuduClient::GetTabletProxy(tablet_id, &proxy)]: its status, and the
    proxy it has stored through its second argument, which it does only
    on its last line. *)
Definition GetTabletProxy (meta_cache_ : MetaCache) (tablet_id : string)
    : Status * option TabletServer :=
  let remote_tablet := meta_cache_ tablet_id in
  if negb (St.ok (Refresh remote_tablet)) then (Refresh remote_tablet, None)
  else
    match replica_tserver_0 remote_tablet with
    | None => (St.NotFound ("No replicas for tablet " ++ tablet_id), None)
    | Some ts =>
      if negb (St.ok (RefreshProxy ts)) then (RefreshProxy ts, None)
      else (St.OK, Some (ts_proxy ts))
    end.

(** What a scanner uses of its [KuduTable]: the cached [proxy_], null
    until [proxy()] has fetched it, and the client's meta cache. *)
Record table := mkTable {
  proxy_ : option TabletServer;
  meta_cache_ : MetaCache;
}.

(** [KuduTable::proxy()], for the table whose tablet is [tablet_id_]: the
    cached proxy, or the one [GetTabletProxy] stores; its [CHECK_OK]
    aborts when [GetTabletProxy] fails. *)
Definition proxy (tablet_id_ : string) (tbl : table)
    : Outcome table ScanEvent (option TabletServer) :=
  match proxy_ tbl with
  | Some p => Returns (Some p) tbl []
  | None =>
    let '(st, stored) := GetTabletProxy (meta_cache_ tbl) tablet_id_ in
    if negb (St.ok st)
    then Aborts "CHECK_OK(client_->GetTabletProxy(tablet_id_, &proxy_))"
    else Returns stored (mkTable stored (meta_cache_ tbl)) []
  end.

(** [KuduScanner::Open()] as it runs: its check, then [table_->proxy()],
    then the rest of [Open] through that proxy, which is [KuduScanner.Open].
    (The tablet id is put into the request before [proxy()] is called; an
    abort loses it either way.)  A null proxy would be dereferenced. *)
Definition Open (tbl : table) (s : KuduScanner.t)
    : Outcome (KuduScanner.t * table) ScanEvent Status :=
  if open_ s then Aborts "CHECK(!open_) Scanner already open"
  else
    match proxy (tablet_id_ s) tbl with
    | Returns (Some server) tbl' _ =>
      match KuduScanner.Open server s with
      | Returns st s' tr => Returns st (s', tbl') tr
      | Aborts check => Aborts check
      | Hangs => Hangs
      end
    | Returns None _ _ => Aborts "null proxy_ dereferenced"
    | Aborts check => Aborts check
    | Hangs => Hangs
    end.

End TableProxy.

(** ** More of the simulated world. *)

Module SimMore.

Local Open Scope Z_scope.

(** A master that never finds a tablet for the table. *)
Definition never_assigned : KuduTable.Locations Sim.world := {|
  KuduTable.master_GetTableLocations _ w :=
    (St.OK, KuduTable.mkLocationsResponse None [], Sim.advance (Sim.rpc_cost w) w);
|}.


(** Schemas are lists of column names, the empty one being invalid; the
    master creates every table and reports it done from time
    [alter_done_at] on. *)
Definition sim_Create : CreateTable.Create Sim.world := {|
  CreateTable.Schema := list string;
  CreateTable.SchemaPB := list string;
  CreateTable.SchemaToPB s :=
    match s with
    | [] => (St.InvalidArgument "no column", [])
    | _ => (St.OK, s)
    end;
  CreateTable.prepend m s := mkStatus (code s) (m ++ ": " ++ message s) (detail s);
  CreateTable.master_CreateTable _ _ _ _ w :=
    (St.OK, CreateTable.mkCreateResponse None, Sim.advance (Sim.rpc_cost w) w);
  CreateTable.master_IsCreateTableDone _ _ w :=
    (St.OK, CreateTable.mkCreateDoneResponse None (Sim.alter_done_at w <=? Sim.clock w),
     Sim.advance (Sim.rpc_cost w) w);
|}.

(** A tablet server that answers every scan with two rows, more to come,
    under scanner id [scanner-7]; and one that cannot be reached. *)
Definition rows_response : KuduScanner.ScanResponsePB :=
  KuduScanner.mkScanResponse None (Some "scanner-7") true (Some ["row1"; "row2"]).

Definition rows_server : KuduScanner.TabletServer :=
  fun _ => (St.OK, rows_response).

Definition unreachable_server : KuduScanner.TabletServer :=
  fun _ => (mkStatus kNetworkError "connection refused" "", KuduScanner.empty_response).

(** A table that has not fetched its proxy yet, of a client whose meta
    cache finds no replica for any tablet. *)
Definition no_replica_table : TableProxy.table :=
  TableProxy.mkTable None (fun _ => TableProxy.mkRemoteTablet St.OK None).

(** A scanner on [tablet-1] whose projection was set to two columns. *)
Definition projected_scanner : KuduScanner.t :=
  KuduScanner.mk false false "tablet-1" ["key"; "v1"]
    (KuduScanner.mkScanRequest
       (Some (KuduScanner.mkNewScan None ["key"; "v1"] [])) None None None)
    KuduScanner.empty_response.

End SimMore.

(** ** Runs of a session. *)

Module SessionRun.

Import KuduSession Prog.

(** One call on a session that returns: a call of its user, or the end of
    a batcher's flush. *)
Inductive step : KuduSession.t -> KuduSession.t -> Prop :=
  | step_SetFlushMode m s a s' tr :
      SetFlushMode m s = Returns a s' tr -> step s s'
  | step_SetTimeoutMillis ms s a s' tr :
      SetTimeoutMillis ms s = Returns a s' tr -> step s s'
  | step_Apply insert completion s a s' tr :
      Apply insert completion s = Returns a s' tr -> step s s'
  | step_Flush completion s a s' tr :
      Flush completion s = Returns a s' tr -> step s s'
  | step_FlushAsync cb s a s' tr :
      FlushAsync cb s = Returns a s' tr -> step s s'
  | step_BatcherCompletes b st s a s' tr :
      BatcherCompletes b st s = Returns a s' tr -> step s s'
  | step_FlushFinished b s a s' tr :
      FlushFinished b s = Returns a s' tr -> step s s'
  | step_HasPendingOperations s a s' tr :
      HasPendingOperations s = Returns a s' tr -> step s s'
  | step_CountBufferedOperations s a s' tr :
      CountBufferedOperations s = Returns a s' tr -> step s s'.

(** The sessions a program can hold: the one [NewSession] hands out, after
    any number of calls. *)
Inductive reachable : KuduSession.t -> Prop :=
  | reachable_new s tr : NewSession = Returns tt s tr -> reachable s
  | reachable_step s s' : reachable s -> step s s' -> reachable s'.

(** [Apply] for each mutation of a list in turn, the statuses dropped. *)
Fixpoint apply_all (l : list Insert) : KuduSession.M unit :=
  match l with
  | [] => ret tt
  | i :: l' => Apply i St.OK ;; apply_all l'
  end.

(** A batcher after [Add] of each mutation of a list in turn. *)
Definition added (l : list Insert) (o : Batcher.t) : Batcher.t :=
  fold_left (fun o i => Batcher.Add i o) l o.

(** The spec's ordering scenario: some mutations, a flush, more mutations. *)
Definition apply_flush_apply (first : list Insert) (cb : StatusCallback)
    (second : list Insert) : KuduSession.M unit :=
  apply_all first ;; FlushAsync cb ;; apply_all second.

(** The mutations a batcher object holds, in the order they were added. *)
Definition ops_at (s : KuduSession.t) (b : nat) : option (list Insert) :=
  Batcher.ops_ <$> batchers s !! b.

Definition timeout_at (s : KuduSession.t) (b : nat) : option Z :=
  Batcher.timeout_ms <$> batchers s !! b.

End SessionRun.

(* ===================================================================== *)
(** * Part II: the facts                                                   *)
(* ===================================================================== *)

(** ** The retry driver. *)

Section RetryFacts.
Context {W : Type} `{World W}.

Local Open Scope Z_scope.

Lemma wrap64_small z : - 2 ^ 63 <= z < 2 ^ 63 -> wrap64 z = z.
Proof.
  intros Hz. unfold wrap64.
  rewrite Z.mod_small; lia.
Qed.



(** Unfolding one iteration of the loop. *)
Lemma RetryLoop_S fuel deadline msg (func : RetryBody W) now wait w :
  Retry.RetryLoop (S fuel) deadline msg func now wait w =
    let '(s, retry, w1, rpcs) := func deadline true w in
    let called := (EvRpc <$> rpcs) ++ [EvCall s retry] in
    if negb retry then Some (s, w1, called)
    else
      let '(now1, w2) := MonoTime_Now w1 in
      if negb (Mono.ComesBefore now1 deadline)
      then Some (St.TimedOut msg, w2, called)
      else
        let timeout_usec := wrap64 ((deadline - now1) - (now1 - now)) in
        if 0 <? timeout_usec then
          let wait' := Z.min (wrap64 (wait * 5) ÷ 4) timeout_usec in
          let w3 := usleep wait' w2 in
          let '(now2, w4) := MonoTime_Now w3 in
          match Retry.RetryLoop fuel deadline msg func now2 wait' w4 with
          | Some (r, w', tr) => Some (r, w', called ++ EvSleep wait' :: tr)
          | None => None
          end
        else
          match Retry.RetryLoop fuel deadline msg func now1 wait w2 with
          | Some (r, w', tr) => Some (r, w', called ++ tr)
          | None => None
          end.
Proof. reflexivity. Qed.



(** More fuel does not change the result of a run that ended. *)
Lemma RetryLoop_more_fuel fuel deadline msg (func : RetryBody W) :
  forall now wait w r fuel',
    Retry.RetryLoop fuel deadline msg func now wait w = Some r ->
    (fuel <= fuel')%nat ->
    Retry.RetryLoop fuel' deadline msg func now wait w = Some r.
Proof.
  induction fuel as [|fuel IH]; intros now wait w r fuel' Hrun Hle; [discriminate|].
  destruct fuel' as [|fuel']; [lia|].
  rewrite RetryLoop_S in *.
  destruct (func deadline true w) as [[[s retry] w1] rpcs].
  destruct retry; simpl in *; [|exact Hrun].
  destruct (MonoTime_Now w1) as [now1 w2].
  destruct (negb (Mono.ComesBefore now1 deadline)); [exact Hrun|].
  destruct (0 <? _).
  - destruct (MonoTime_Now (usleep _ w2)) as [now2 w4].
    destruct (Retry.RetryLoop fuel _ _ _ now2 _ w4) as [[[r0 w''] tr']|] eqn:Hrec;
      [|discriminate].
    rewrite (IH _ _ _ _ fuel' Hrec) by lia. exact Hrun.
  - destruct (Retry.RetryLoop fuel _ _ _ now1 _ w2) as [[[r0 w''] tr']|] eqn:Hrec;
      [|discriminate].
    rewrite (IH _ _ _ _ fuel' Hrec) by lia. exact Hrun.
Qed.

End RetryFacts.

Section RetryProgress.
Context {W : Type} `{World W} (time : W -> Z) `{!WorldLaws time}.

Local Open Scope Z_scope.

Lemma next_wait_bounds wait timeout_usec :
  1 <= wait <= 2 ^ 60 -> 1 <= timeout_usec <= 2 ^ 60 ->
  1 <= Z.min (wrap64 (wait * 5) ÷ 4) timeout_usec <= 2 ^ 60.
Proof.
  intros Hw Ht.
  rewrite wrap64_small by lia.
  rewrite Z.quot_div_nonneg by lia.
  assert (1 <= wait * 5 / 4) by (apply Z.div_le_lower_bound; lia).
  lia.
Qed.

(** With a monotonic clock every iteration that goes round moves the local
    [now] forward, so the loop ends: [deadline - now] iterations (and one)
    are enough. *)
Lemma RetryLoop_terminates deadline msg (func : RetryBody W) :
  monotone_body time func ->
  forall fuel now wait w,
    Z.max 0 (deadline - now) < Z.of_nat fuel ->
    now <= time w -> 1 <= wait <= 2 ^ 60 -> deadline - now <= 2 ^ 60 ->
    exists r, Retry.RetryLoop fuel deadline msg func now wait w = Some r.
Proof.
  intros Hmono.
  induction fuel as [|fuel IH]; intros now wait w Hfuel Hnow Hwait Hbound; [lia|].
  rewrite RetryLoop_S.
  destruct (func deadline true w) as [[[s retry] w1] rpcs] eqn:Hf.
  apply Hmono in Hf.
  destruct retry; simpl; [|eauto].
  destruct (MonoTime_Now w1) as [now1 w2] eqn:Hn1.
  apply Now_between in Hn1 as [Hn1 Hn1'].
  unfold Mono.ComesBefore.
  destruct (Z.ltb_spec now1 deadline) as [Hlt|Hge]; simpl; [|eauto].
  rewrite (wrap64_small (deadline - now1 - (now1 - now))) by lia.
  destruct (Z.ltb_spec 0 (deadline - now1 - (now1 - now))) as [Hpos|Hnpos].
  - pose proof (next_wait_bounds wait (deadline - now1 - (now1 - now))
                  Hwait ltac:(lia)) as Hw'.
    set (wait' := Z.min _ _) in *.
    pose proof (usleep_sleeps wait' w2 ltac:(lia)) as Hsl.
    destruct (MonoTime_Now (usleep wait' w2)) as [now2 w4] eqn:Hn2.
    apply Now_between in Hn2 as [Hn2 Hn2'].
    destruct (IH now2 wait' w4) as [[[r w'] tr] Hr]; try lia.
    rewrite Hr. eauto.
  - destruct (IH now1 wait w2) as [[[r w'] tr] Hr]; try lia.
    rewrite Hr. eauto.
Qed.

(** [RetryFunc] returns, whatever the retried function answers. *)
Lemma RetryFunc_terminates deadline retry_msg timeout_msg (func : RetryBody W) w :
  monotone_body time func ->
  deadline - time w <= 2 ^ 60 ->
  exists fuel r,
    Retry.RetryFunc fuel deadline retry_msg timeout_msg func w = Some r.
Proof.
  intros Hmono Hbound. unfold Retry.RetryFunc.
  destruct (MonoTime_Now w) as [now w0] eqn:Hn.
  apply Now_between in Hn as [Hn Hn'].
  destruct (negb (Mono.ComesBefore now deadline)).
  { exists O. eauto. }
  exists (S (Z.to_nat (Z.max 0 (deadline - now)))).
  apply RetryLoop_terminates; auto; lia.
Qed.


End RetryProgress.

(** The simulated world obeys the clock laws. *)
#[global] Instance sim_laws : WorldLaws Sim.clock.
Proof.
  split.
  - intros w t w' [= <- <-]. lia.
  - intros n w Hn. simpl. lia.
Qed.


Lemma busy_monotone : monotone_body Sim.clock Sim.busy.
Proof. intros d flag w s r w' rpcs [= _ _ <- _]. lia. Qed.


(** C3. With 500 microseconds (500000 ns) left and an attempt that took no
    time, the driver sleeps [min(1000 * 5 / 4, 500000) = 1250]
    microseconds: the second operand of the [min] is the remaining time in
    nanoseconds, the sleep is in microseconds.  The run ends 750
    microseconds after the deadline. *)
Theorem RetryFunc_min_mixes_units :
  Retry.RetryFunc 3 500000%Z "retry" "timed out" Sim.busy (Sim.mk 0 0 0)
  = Some (St.TimedOut "timed out", Sim.mk 1250000 0 0,
          [EvCall (St.IllegalState "busy") true; EvSleep 1250;
           EvCall (St.IllegalState "busy") true]).
Proof. vm_compute. reflexivity. Qed.

(** ** The alter-table builder and [AlterTable]. *)

(** C10. [Reset] clears the schema-mutation steps and nothing else: the new
    table name and the table stay as they were; so after [RenameTable]
    followed by [Reset], [has_changes] still answers true. *)
Theorem Reset_keeps_new_table_name (b : AlterTableBuilder.t) :
  alter_schema_steps (AlterTableBuilder.alter_steps_ (AlterTableBuilder.Reset b)) = []
  /\ new_table_name (AlterTableBuilder.alter_steps_ (AlterTableBuilder.Reset b))
     = new_table_name (AlterTableBuilder.alter_steps_ b)
  /\ table (AlterTableBuilder.alter_steps_ (AlterTableBuilder.Reset b))
     = table (AlterTableBuilder.alter_steps_ b)
  /\ forall name,
       AlterTableBuilder.has_changes
         (AlterTableBuilder.Reset (snd (AlterTableBuilder.RenameTable name b))) = true.
Proof. repeat split. Qed.

Lemma has_changes_iff (b : AlterTableBuilder.t) :
  AlterTableBuilder.has_changes b = true <->
  is_Some (new_table_name (AlterTableBuilder.alter_steps_ b))
  \/ 0 < length (alter_schema_steps (AlterTableBuilder.alter_steps_ b)).
Proof.
  unfold AlterTableBuilder.has_changes, AlterTableBuilder.has_new_table_name,
    AlterTableBuilder.alter_schema_steps_size.
  rewrite orb_true_iff, bool_decide_eq_true, Z.ltb_lt.
  change 0%Z with (Z.of_nat 0). rewrite <- Nat2Z.inj_lt. tauto.
Qed.

Section AlterFacts.
Context {W : Type} `{World W}.

(** Every master call in a run of [RetryFunc] is one the retried function
    made. *)
Lemma RetryLoop_rpcs (P : MasterRpc -> Prop) fuel deadline msg (func : RetryBody W) :
  (forall d flag w s r w' rpcs, func d flag w = (s, r, w', rpcs) -> Forall P rpcs) ->
  forall now wait w st w' tr,
    Retry.RetryLoop fuel deadline msg func now wait w = Some (st, w', tr) ->
    forall r, EvRpc r ∈ tr -> P r.
Proof.
  intros Hfunc.
  induction fuel as [|fuel IH]; intros now wait w st w' tr Hrun r Hin; [discriminate|].
  rewrite RetryLoop_S in Hrun.
  destruct (func deadline true w) as [[[s retry] w1] rpcs] eqn:Hf.
  apply Hfunc in Hf. rewrite Forall_forall in Hf.
  assert (Hcalled : forall rest,
             EvRpc r ∈ ((EvRpc <$> rpcs) ++ [EvCall s retry]) ++ rest ->
             P r \/ EvRpc r ∈ rest).
  { intros rest. rewrite !elem_of_app, list_elem_of_fmap, list_elem_of_singleton.
    intros [[(r' & [= ->] & Hr)|?]|?]; [left; auto | discriminate | right; auto]. }
  destruct retry; simpl in Hrun.
  - destruct (MonoTime_Now w1) as [now1 w2].
    destruct (negb (Mono.ComesBefore now1 deadline)).
    { inversion Hrun; subst. rewrite <- (app_nil_r (_ ++ _)) in Hin.
      destruct (Hcalled _ Hin) as [?|Hnil]; [auto|]. inversion Hnil. }
    destruct (0 <? _)%Z.
    + destruct (MonoTime_Now (usleep _ w2)) as [now2 w4].
      destruct (Retry.RetryLoop fuel _ _ _ now2 _ w4) as [[[r0 w''] tr']|] eqn:Hrec;
        [|discriminate].
      inversion Hrun; subst.
      destruct (Hcalled _ Hin) as [?|Hrest]; [auto|].
      apply elem_of_cons in Hrest as [?|Hrest]; [discriminate|].
      eapply IH; eauto.
    + destruct (Retry.RetryLoop fuel _ _ _ now1 _ w2) as [[[r0 w''] tr']|] eqn:Hrec;
        [|discriminate].
      inversion Hrun; subst.
      destruct (Hcalled _ Hin) as [?|Hrest]; [auto|].
      eapply IH; eauto.
  - inversion Hrun; subst. rewrite <- (app_nil_r (_ ++ _)) in Hin.
    destruct (Hcalled _ Hin) as [?|Hnil]; [auto|]. inversion Hnil.
Qed.

Lemma IsAlterTableInProgress_rpcs (name : string) d flag (w : W) s r w' rpcs :
  KuduClient.IsAlterTableInProgress name d flag w = (s, r, w', rpcs) ->
  Forall (fun rpc => forall req t, rpc = RpcIsAlterTableDone req t ->
                                   done_table_name req = name) rpcs.
Proof.
  unfold KuduClient.IsAlterTableInProgress.
  destruct (MonoTime_Now w) as [now w1].
  destruct (master_IsAlterTableDone _ _ w1) as [[st resp] w2].
  intros Hres.
  assert (rpcs = [RpcIsAlterTableDone (mkIsAlterTableDoneRequestPB name)
                    (Mono.GetDeltaSince d now)]) as ->.
  { destruct (negb (St.ok st)); [|destruct (done_error resp)]; congruence. }
  constructor; [|constructor]. intros req t [= <- _]. reflexivity.
Qed.

(** The first thing a run of the loop records is the first call of the
    retried function, after the master calls it made. *)
Lemma RetryLoop_first_call fuel deadline msg (func : RetryBody W) now wait w
    st w' tr s r w1 rpcs :
  Retry.RetryLoop fuel deadline msg func now wait w = Some (st, w', tr) ->
  func deadline true w = (s, r, w1, rpcs) ->
  exists rest, tr = (EvRpc <$> rpcs) ++ EvCall s r :: rest.
Proof.
  destruct fuel as [|fuel]; [discriminate|].
  rewrite RetryLoop_S. intros Hrun Hf. rewrite Hf in Hrun.
  destruct r; simpl in Hrun.
  - destruct (MonoTime_Now w1) as [now1 w2].
    destruct (negb (Mono.ComesBefore now1 deadline)).
    { inversion Hrun; subst. exists []. reflexivity. }
    destruct (0 <? _)%Z.
    + destruct (MonoTime_Now (usleep _ w2)) as [now2 w4].
      destruct (Retry.RetryLoop fuel _ _ _ now2 _ w4) as [[[r0 w''] tr']|];
        [|discriminate].
      inversion Hrun; subst. eexists. rewrite <- app_assoc. reflexivity.
    + destruct (Retry.RetryLoop fuel _ _ _ now1 _ w2) as [[[r0 w''] tr']|];
        [|discriminate].
      inversion Hrun; subst. eexists. rewrite <- app_assoc. reflexivity.
  - inversion Hrun; subst. exists []. reflexivity.
Qed.

(** The probe takes no time away when the master's call takes none away. *)
Lemma IsAlterTableInProgress_monotone (time : W -> Z) `{!WorldLaws time}
    (name : string) :
  (forall req t w0 st0 resp0 w0',
     master_IsAlterTableDone req t w0 = (st0, resp0, w0') -> (time w0 <= time w0')%Z) ->
  monotone_body time (KuduClient.IsAlterTableInProgress name).
Proof.
  intros Hmaster d flag w s r w' rpcs.
  unfold KuduClient.IsAlterTableInProgress.
  destruct (MonoTime_Now w) as [now w1] eqn:Hn.
  apply Now_between in Hn as [Hn Hn'].
  destruct (master_IsAlterTableDone _ _ w1) as [[st resp] w2] eqn:Hm.
  apply Hmaster in Hm. intros Hres.
  assert (w' = w2) as ->
    by (destruct (negb (St.ok st)); [|destruct (done_error resp)]; congruence).
  lia.
Qed.

(** C7. [has_changes] is true exactly when the new table name is set or
    there is at least one step; without changes [AlterTable] returns
    [InvalidArgument] and does nothing else (no event, the world
    untouched); and every completion poll of a run asks about the new
    table name when the builder holds one (a table rename), otherwise about
    the table's own name.  The probe does poll: when the master has
    accepted the request and the deadline of 60 s has not passed, the
    second event of the run is an [IsAlterTableDone] call under that name,
    with what is left until the deadline as its timeout; and on a
    monotonic clock [AlterTable] returns. *)

Theorem AlterTable_requires_changes fuel options_ table_name
    (alter : AlterTableBuilder.t) (w : W) :
  (AlterTableBuilder.has_changes alter = true <->
   is_Some (new_table_name (AlterTableBuilder.alter_steps_ alter))
   \/ 0 < length (alter_schema_steps (AlterTableBuilder.alter_steps_ alter)))
  /\ (AlterTableBuilder.has_changes alter = false ->
      KuduClient.AlterTable fuel options_ table_name alter w
      = Some (St.InvalidArgument "No alter steps provided", w, []))
  /\ (forall st w' tr req t,
        KuduClient.AlterTable fuel options_ table_name alter w = Some (st, w', tr) ->
        EvRpc (RpcIsAlterTableDone req t) ∈ tr ->
        done_table_name req
        = match new_table_name (AlterTableBuilder.alter_steps_ alter) with
          | Some new_name => new_name
          | None => table_name
          end)
  /\ (forall now w1 st1 resp w2 now2 w3 now3 w4 st w' tr,
        AlterTableBuilder.has_changes alter = true ->
        MonoTime_Now w = (now, w1) ->
        master_AlterTable
          (mkAlterTableRequestPB (Some table_name)
             (alter_schema_steps (AlterTableBuilder.alter_steps_ alter))
             (new_table_name (AlterTableBuilder.alter_steps_ alter)))
          (KuduClient.default_admin_operation_timeout options_) w1
        = (st1, resp, w2) ->
        St.ok st1 = true -> alter_error resp = None ->
        MonoTime_Now w2 = (now2, w3) ->
        Mono.ComesBefore now2 (Mono.AddDelta now (Mono.FromMilliseconds (60 * 1000)))
        = true ->
        MonoTime_Now w3 = (now3, w4) ->
        KuduClient.AlterTable fuel options_ table_name alter w = Some (st, w', tr) ->
        exists rest,
          tr = EvRpc (RpcAlterTable
                        (mkAlterTableRequestPB (Some table_name)
                           (alter_schema_steps (AlterTableBuilder.alter_steps_ alter))
                           (new_table_name (AlterTableBuilder.alter_steps_ alter)))
                        (KuduClient.default_admin_operation_timeout options_))
               :: EvRpc (RpcIsAlterTableDone
                           (mkIsAlterTableDoneRequestPB
                              match new_table_name (AlterTableBuilder.alter_steps_ alter) with
                              | Some new_name => new_name
                              | None => table_name
                              end)
                           (Mono.GetDeltaSince
                              (Mono.AddDelta now (Mono.FromMilliseconds (60 * 1000)))
                              now3))
               :: rest)
  /\ (forall (time : W -> Z), WorldLaws time ->
        (forall req t w0 st0 resp0 w0',
           master_AlterTable req t w0 = (st0, resp0, w0') -> (time w0 <= time w0')%Z) ->
        (forall req t w0 st0 resp0 w0',
           master_IsAlterTableDone req t w0 = (st0, resp0, w0') ->
           (time w0 <= time w0')%Z) ->
        exists fuel' r,
          KuduClient.AlterTable fuel' options_ table_name alter w = Some r).
Proof.
  split; [apply has_changes_iff|split; [|split; [|split]]].
  - intros Hno. unfold KuduClient.AlterTable. rewrite Hno. reflexivity.
  - intros st w' tr req t Hrun Hin. unfold KuduClient.AlterTable in Hrun.
    destruct (negb (AlterTableBuilder.has_changes alter)).
    { inversion Hrun; subst. inversion Hin. }
    destruct (MonoTime_Now w) as [now w1].
    destruct (master_AlterTable _ _ w1) as [[st1 resp] w2].
    assert (Hsent : forall l, EvRpc (RpcIsAlterTableDone req t) ∈
                       [EvRpc (RpcAlterTable
                                 (mkAlterTableRequestPB (Some table_name)
                                    (alter_schema_steps (AlterTableBuilder.alter_steps_ alter))
                                    (new_table_name (AlterTableBuilder.alter_steps_ alter)))
                                 (KuduClient.default_admin_operation_timeout options_))] ++ l ->
                     EvRpc (RpcIsAlterTableDone req t) ∈ l).
    { intros l Hl. apply elem_of_cons in Hl as [?|?]; [discriminate|auto]. }
    destruct (negb (St.ok st1)).
    { inversion Hrun; subst. apply (Hsent []) in Hin. inversion Hin. }
    destruct (alter_error resp).
    { inversion Hrun; subst. apply (Hsent []) in Hin. inversion Hin. }
    match type of Hrun with
    | context [Retry.RetryFunc _ _ _ _ (KuduClient.IsAlterTableInProgress ?n) _] =>
      set (alter_name := n) in *
    end.
    assert (Hname : alter_name
                    = match new_table_name (AlterTableBuilder.alter_steps_ alter) with
                      | Some new_name => new_name
                      | None => table_name
                      end).
    { subst alter_name. unfold AlterTableBuilder.has_new_table_name. simpl.
      destruct (new_table_name (AlterTableBuilder.alter_steps_ alter)); reflexivity. }
    rewrite <- Hname.
    destruct (Retry.RetryFunc _ _ _ _ _ w2) as [[[s w3] tr0]|] eqn:Hretry; [|discriminate].
    assert (Hin0 : EvRpc (RpcIsAlterTableDone req t) ∈ tr0).
    { destruct (negb (St.ok s)); inversion Hrun; subst; apply Hsent; exact Hin. }
    unfold Retry.RetryFunc in Hretry.
    destruct (MonoTime_Now w2) as [now2 w2'].
    destruct (negb (Mono.ComesBefore _ _)).
    { inversion Hretry; subst. inversion Hin0. }
    eapply (RetryLoop_rpcs
              (fun rpc => forall req t, rpc = RpcIsAlterTableDone req t ->
                                        done_table_name req = alter_name));
      [|exact Hretry|exact Hin0|reflexivity].
    intros. eapply IsAlterTableInProgress_rpcs; eauto.
  - intros now w1 st1 resp w2 now2 w3 now3 w4 st w' tr
      Hch Hn Hm Hok Herr Hn2 Hbefore Hn3 Hrun.
    unfold KuduClient.AlterTable in Hrun.
    rewrite Hch, Hn in Hrun. cbv beta iota zeta in Hrun. simpl negb in Hrun.
    cbv iota in Hrun. rewrite Hm in Hrun. cbv beta iota zeta in Hrun.
    rewrite Hok, Herr in Hrun. simpl negb in Hrun. cbv iota in Hrun.
    match type of Hrun with
    | context [Retry.RetryFunc _ _ _ _ (KuduClient.IsAlterTableInProgress ?n) _] =>
      set (alter_name := n) in *
    end.
    assert (Hname : alter_name
                    = match new_table_name (AlterTableBuilder.alter_steps_ alter) with
                      | Some new_name => new_name
                      | None => table_name
                      end).
    { subst alter_name. unfold AlterTableBuilder.has_new_table_name. simpl.
      destruct (new_table_name (AlterTableBuilder.alter_steps_ alter)); reflexivity. }
    rewrite <- Hname.
    destruct (Retry.RetryFunc _ _ _ _ _ w2) as [[[s w5] tr0]|] eqn:Hretry; [|discriminate].
    assert (Htr : tr = [EvRpc (RpcAlterTable
                                 (mkAlterTableRequestPB (Some table_name)
                                    (alter_schema_steps (AlterTableBuilder.alter_steps_ alter))
                                    (new_table_name (AlterTableBuilder.alter_steps_ alter)))
                                 (KuduClient.default_admin_operation_timeout options_))]
                       ++ tr0)
      by (destruct (negb (St.ok s)); congruence).
    unfold Retry.RetryFunc in Hretry. rewrite Hn2, Hbefore in Hretry.
    simpl negb in Hretry. cbv iota in Hretry.
    destruct (KuduClient.IsAlterTableInProgress alter_name
                (Mono.AddDelta now (Mono.FromMilliseconds (60 * 1000))) true w3)
      as [[[s0 r0] w6] rpcs] eqn:Hf.
    destruct (RetryLoop_first_call _ _ _ _ _ _ _ _ _ _ _ _ _ _ Hretry Hf) as (rest & ->).
    assert (Hrpcs : rpcs = [RpcIsAlterTableDone (mkIsAlterTableDoneRequestPB alter_name)
                              (Mono.GetDeltaSince
                                 (Mono.AddDelta now (Mono.FromMilliseconds (60 * 1000)))
                                 now3)]).
    { unfold KuduClient.IsAlterTableInProgress in Hf. rewrite Hn3 in Hf.
      destruct (master_IsAlterTableDone _ _ w4) as [[st2 resp2] w7].
      destruct (negb (St.ok st2)); [|destruct (done_error resp2)]; congruence. }
    subst rpcs tr. eexists. reflexivity.
  - intros time Hlaws Hmaster Hprobe.
    unfold KuduClient.AlterTable.
    destruct (negb (AlterTableBuilder.has_changes alter)); [exists O; eauto|].
    destruct (MonoTime_Now w) as [now w1] eqn:Hn.
    apply Now_between in Hn as [Hn Hn'].
    destruct (master_AlterTable _ _ w1) as [[st1 resp] w2] eqn:Hm.
    apply Hmaster in Hm.
    destruct (negb (St.ok st1)); [exists O; eauto|].
    destruct (alter_error resp); [exists O; eauto|].
    match goal with
    | |- context [Retry.RetryFunc _ ?d ?m1 ?m2 ?f w2] =>
      destruct (RetryFunc_terminates time d m1 m2 f w2) as (fuel' & [[s w3] tr] & Hrun)
    end.
    + apply IsAlterTableInProgress_monotone; assumption.
    + unfold Mono.AddDelta, Mono.FromMilliseconds. lia.
    + exists fuel'. rewrite Hrun. destruct (negb (St.ok s)); eauto.
Qed.

End AlterFacts.

Lemma AlterTable_requires_changes_witness :
  KuduClient.AlterTable 5 KuduClient.default_options "old" AlterTableBuilder.new
    (Sim.mk 0 1000 0)
  = Some (St.InvalidArgument "No alter steps provided", Sim.mk 0 1000 0, [])
  /\ done_table_name (mkIsAlterTableDoneRequestPB "new") = "new"
  /\ (KuduClient.AlterTable 5 KuduClient.default_options "old" Sim.renamed
        (Sim.mk 0 1000 0)
      = Some (St.OK, Sim.mk 2000 1000 0, Sim.renamed_trace))
  /\ exists rest,
       Sim.renamed_trace
       = EvRpc (RpcAlterTable (mkAlterTableRequestPB (Some "old") [] (Some "new"))
                  5000000000%Z)
         :: EvRpc (RpcIsAlterTableDone (mkIsAlterTableDoneRequestPB "new")
                     59999999000%Z)
         :: rest.
Proof.
  assert (Hrun : KuduClient.AlterTable 5 KuduClient.default_options "old" Sim.renamed
                   (Sim.mk 0 1000 0)
                 = Some (St.OK, Sim.mk 2000 1000 0, Sim.renamed_trace))
    by (vm_compute; reflexivity).
  split; [|split; [|split; [exact Hrun|]]].
  - apply (AlterTable_requires_changes 5 KuduClient.default_options "old"
             AlterTableBuilder.new (Sim.mk 0 1000 0)).
    reflexivity.
  - destruct (AlterTable_requires_changes 5 KuduClient.default_options "old"
                Sim.renamed (Sim.mk 0 1000 0)) as (_ & _ & Hpoll & _).
    apply (Hpoll St.OK (Sim.mk 2000 1000 0) Sim.renamed_trace _ 59999999000%Z).
    + exact Hrun.
    + unfold Sim.renamed_trace. apply elem_of_cons. right.
      apply elem_of_cons. left. reflexivity.
  - destruct (AlterTable_requires_changes 5 KuduClient.default_options "old"
                Sim.renamed (Sim.mk 0 1000 0)) as (_ & _ & _ & Hfirst & _).
    apply (Hfirst 0%Z (Sim.mk 0 1000 0) St.OK (mkAlterTableResponsePB None)
             (Sim.mk 1000 1000 0) 1000%Z (Sim.mk 1000 1000 0) 1000%Z
             (Sim.mk 1000 1000 0) St.OK (Sim.mk 2000 1000 0) Sim.renamed_trace);
      first [exact Hrun | reflexivity].
Defined.

(** ** The write session. *)

Section SessionFacts.
Import KuduSession Prog.
Local Open Scope Z_scope.

Ltac prog_unfold :=
  cbv [mbind Prog_bind Prog.bind Prog.get Prog.modify Prog.emit Prog.CHECK
       Prog.ret Prog.abort Prog.hang].

Lemma unlock_lock s : lock_ s = false -> set_lock false (set_lock true s) = s.
Proof. destruct s; simpl; intros ->; reflexivity. Qed.

Lemma lock_guard_returns {A} (body : M A) s a s1 tr :
  lock_ s = false ->
  body (set_lock true s) = Returns a s1 tr ->
  lock_guard body s = Returns a (set_lock false s1) (EvLock :: tr ++ [EvUnlock]).
Proof.
  intros Hl Hbody. unfold lock_guard. prog_unfold.
  rewrite Hl, Hbody. reflexivity.
Qed.

Lemma NewBatcher_returns s :
  lock_ s = true ->
  NewBatcher s = Returns (batcher_ s) (rotated s) [EvRotate (fresh_batcher s) (batcher_ s)].
Proof.
  intros Hl. unfold NewBatcher, rotated, fresh_batcher. prog_unfold.
  rewrite Hl. reflexivity.
Qed.

Lemma fresh_batcher_None (s : t) : batchers s !! fresh_batcher s = None.
Proof. unfold fresh_batcher. apply not_elem_of_dom, is_fresh. Qed.

(** [NewSession] builds [fresh_session], which is well formed. *)
Lemma NewSession_returns :
  NewSession = Returns tt fresh_session [EvLock; EvRotate 0%nat None; EvUnlock].
Proof. vm_compute. reflexivity. Qed.

Lemma fresh_session_wf : wf fresh_session.
Proof.
  split; [reflexivity|]. exists 0%nat. repeat split.
  - exists Batcher.new. reflexivity.
  - simpl. set_solver.
  - simpl. set_solver.
Qed.

Lemma IsKeySet_false r i :
  (i < num_key_columns r)%nat -> isset r !! i <> Some true -> IsKeySet r = false.
Proof.
  intros Hi Hunset. unfold IsKeySet.
  apply not_true_is_false. rewrite forallb_forall. intros Hall.
  specialize (Hall i). rewrite bool_decide_eq_true in Hall.
  apply Hunset, Hall. apply in_seq. lia.
Qed.

(** C8. [Apply] on a mutation one of whose key columns is not set returns
    the status [IllegalState("Key not specified", ...)]; the session is as
    before and nothing was handed to the batcher. *)
Theorem Apply_unset_key_IllegalState insert completion s i :
  (i < num_key_columns (row insert))%nat ->
  isset (row insert) !! i <> Some true ->
  Apply insert completion s
  = Returns (mkStatus kIllegalState "Key not specified" (ToString insert)) s [].
Proof.
  intros Hi Hunset. unfold Apply.
  rewrite (IsKeySet_false _ i Hi Hunset). reflexivity.
Qed.

Lemma Apply_unset_key_IllegalState_witness :
  Apply keyless_insert St.OK fresh_session
  = Returns (mkStatus kIllegalState "Key not specified" "INSERT t") fresh_session [].
Proof.
  apply (Apply_unset_key_IllegalState keyless_insert St.OK fresh_session 0).
  - simpl. lia.
  - simpl. discriminate.
Defined.

(** [Apply] in a mode other than [AUTO_FLUSH_SYNC]: the mutation joins the
    current batcher and the status is OK. *)
Lemma Apply_returns_OK insert completion s b o :
  IsKeySet (row insert) = true ->
  flush_mode_ s <> AUTO_FLUSH_SYNC ->
  batcher_ s = Some b -> batchers s !! b = Some o ->
  Apply insert completion s
  = Returns St.OK (set_batchers (<[b := Batcher.Add insert o]> (batchers s)) s)
      [EvBatcherAdd b insert].
Proof.
  intros Hkey Hmode Hb Ho. unfold Apply. rewrite Hkey. simpl.
  unfold update_batcher, deref. prog_unfold. rewrite Hb, Ho. simpl.
  destruct (Z.eqb_spec (flush_mode_ s) AUTO_FLUSH_SYNC); [contradiction|].
  reflexivity.
Qed.

(** C1. In [AUTO_FLUSH_SYNC] mode, [Apply] of a mutation whose key is set
    reaches [Flush], hence [FlushAsync], whose
    [CHECK_EQ(flush_mode_, MANUAL_FLUSH)] fails: the process aborts and no
    status is returned. *)
Theorem Apply_AutoFlushSync_aborts insert completion s :
  wf s -> flush_mode_ s = AUTO_FLUSH_SYNC -> IsKeySet (row insert) = true ->
  Apply insert completion s = Aborts "CHECK_EQ(flush_mode_, MANUAL_FLUSH)".
Proof.
  intros (Hl & b & Hb & [o Ho] & _) Hmode Hkey.
  unfold Apply. rewrite Hkey. simpl.
  unfold Flush, FlushAsync, update_batcher, deref. prog_unfold.
  rewrite Hb, Ho, Hmode. simpl. rewrite Hmode. reflexivity.
Qed.

Lemma Apply_AutoFlushSync_aborts_witness :
  Apply keyed_insert St.OK fresh_session = Aborts "CHECK_EQ(flush_mode_, MANUAL_FLUSH)".
Proof.
  apply (Apply_AutoFlushSync_aborts keyed_insert St.OK fresh_session).
  - exact fresh_session_wf.
  - reflexivity.
  - reflexivity.
Defined.

Lemma SetFlushMode_returns m s b o :
  batcher_ s = Some b -> batchers s !! b = Some o ->
  SetFlushMode m s =
    if Batcher.HasPendingOperations o then
      Returns (St.IllegalState "Cannot change flush mode when writes are buffered") s []
    else if tight_enum_test m then Returns St.OK (set_flush_mode m s) []
    else Returns (St.InvalidArgument "Bad flush mode") s [].
Proof.
  intros Hb Ho. unfold SetFlushMode, deref. prog_unfold. rewrite Hb, Ho. simpl.
  destruct (Batcher.HasPendingOperations o); [reflexivity|].
  destruct (tight_enum_test m); reflexivity.
Qed.

Lemma Add_HasPendingOperations insert o :
  Batcher.HasPendingOperations (Batcher.Add insert o) = true.
Proof.
  unfold Batcher.HasPendingOperations, Batcher.Add. simpl.
  rewrite bool_decide_eq_false_2; [reflexivity|].
  destruct (Batcher.ops_ o); discriminate.
Qed.

(** C6, as the code has it.  [SetFlushMode(m)] first asks the current
    batcher whether operations are pending: if so it fails with
    [IllegalState] whatever [m] is, also when [m] is the mode already set;
    otherwise it fails with [InvalidArgument] when [m] is outside
    [AUTO_FLUSH_SYNC .. MANUAL_FLUSH], and else sets the mode.  After one
    [Apply] in [MANUAL_FLUSH], [SetFlushMode] fails with [IllegalState] for
    every mode. *)
Theorem SetFlushMode_guard m s b o insert completion :
  batcher_ s = Some b -> batchers s !! b = Some o ->
  SetFlushMode m s =
    (if Batcher.HasPendingOperations o then
       Returns (mkStatus kIllegalState "Cannot change flush mode when writes are buffered" "")
               s []
     else if (AUTO_FLUSH_SYNC <=? m) && (m <=? MANUAL_FLUSH) then
       Returns St.OK (set_flush_mode m s) []
     else Returns (mkStatus kInvalidArgument "Bad flush mode" "") s [])
  /\ (flush_mode_ s = MANUAL_FLUSH -> IsKeySet (row insert) = true ->
      exists s1,
        Apply insert completion s = Returns St.OK s1 [EvBatcherAdd b insert]
        /\ forall m',
             SetFlushMode m' s1
             = Returns (mkStatus kIllegalState
                          "Cannot change flush mode when writes are buffered" "") s1 []).
Proof.
  intros Hb Ho. split.
  - apply (SetFlushMode_returns m s b o); assumption.
  - intros Hmode Hkey.
    eexists. split.
    + apply Apply_returns_OK; eauto. rewrite Hmode. discriminate.
    + intros m'.
      rewrite (SetFlushMode_returns m' _ b (Batcher.Add insert o));
        [| exact Hb | apply lookup_insert_eq ].
      rewrite Add_HasPendingOperations. reflexivity.
Qed.

Lemma SetFlushMode_guard_witness :
  SetFlushMode MANUAL_FLUSH fresh_session
  = Returns St.OK (set_flush_mode MANUAL_FLUSH fresh_session) []
  /\ exists s1,
       Apply keyed_insert St.OK (set_flush_mode MANUAL_FLUSH fresh_session)
       = Returns St.OK s1 [EvBatcherAdd 0%nat keyed_insert]
       /\ SetFlushMode MANUAL_FLUSH s1
          = Returns (mkStatus kIllegalState
                       "Cannot change flush mode when writes are buffered" "") s1 [].
Proof.
  split.
  - apply (SetFlushMode_guard MANUAL_FLUSH fresh_session 0%nat Batcher.new
             keyed_insert St.OK); reflexivity.
  - destruct (SetFlushMode_guard MANUAL_FLUSH (set_flush_mode MANUAL_FLUSH fresh_session)
                0%nat Batcher.new keyed_insert St.OK) as [_ Hscenario].
    + reflexivity.
    + reflexivity.
    + destruct (Hscenario eq_refl eq_refl) as (s1 & Happly & Hset).
      exists s1. split; [exact Happly | apply Hset].
Defined.

(** C6, the claim as stated fails: after one [Apply] in [MANUAL_FLUSH],
    setting [MANUAL_FLUSH] again does not succeed; it fails with
    [IllegalState], as setting [AUTO_FLUSH_SYNC] does. *)
Lemma SetFlushMode_same_mode_fails :
  exists s tr,
    flush_mode_scenario KuduSession.new
    = Returns (St.OK, St.OK,
               mkStatus kIllegalState "Cannot change flush mode when writes are buffered" "",
               mkStatus kIllegalState "Cannot change flush mode when writes are buffered" "")
              s tr
    /\ St.ok (mkStatus kIllegalState
                "Cannot change flush mode when writes are buffered" "") = false.
Proof. eexists _, _. split; vm_compute; reflexivity. Qed.

Lemma FlushAsync_returns cb s old o :
  wf s -> flush_mode_ s = MANUAL_FLUSH ->
  batcher_ s = Some old -> batchers s !! old = Some o ->
  FlushAsync cb s =
    Returns tt (flushed_state cb old o s)
      [EvLock; EvRotate (fresh_batcher s) (Some old);
       EvInFlightInsert old; EvUnlock; EvBatcherFlushAsync old cb].
Proof.
  intros (Hl & b & Hb & _ & Hnf & Hfl) Hm Hold Ho.
  rewrite Hb in Hold. injection Hold as ->.
  pose proof (fresh_batcher_None s) as Hfresh.
  assert (Hne : fresh_batcher s <> old) by congruence.
  unfold FlushAsync. prog_unfold. rewrite Hm. simpl.
  erewrite lock_guard_returns; [| exact Hl |].
  2:{ prog_unfold. rewrite NewBatcher_returns by reflexivity.
      simpl. rewrite Hb. unfold InsertOrDie. prog_unfold. simpl.
      rewrite bool_decide_eq_true_2 by exact Hnf. simpl. reflexivity. }
  simpl. unfold update_batcher, deref. prog_unfold. simpl.
  rewrite lookup_insert_ne by exact Hne. rewrite Ho. simpl.
  reflexivity.
Qed.

(** [FlushAsync] leaves a well-formed session. *)
Lemma flushed_state_wf cb s old o :
  wf s -> batcher_ s = Some old -> batchers s !! old = Some o ->
  wf (flushed_state cb old o s).
Proof.
  intros (Hl & b & Hb & _ & Hnf & Hfl) Hold Ho.
  rewrite Hb in Hold. injection Hold as ->.
  pose proof (fresh_batcher_None s) as Hfresh.
  assert (Hne : fresh_batcher s <> old) by congruence.
  split; [reflexivity|]. exists (fresh_batcher s). simpl. repeat split.
  - rewrite lookup_insert_ne by congruence. rewrite lookup_insert_eq. eauto.
  - intros [Hin|Hin]%elem_of_union.
    + apply elem_of_singleton in Hin. congruence.
    + apply Hfl in Hin as [x Hx]. congruence.
  - intros f [Hin|Hin]%elem_of_union.
    + apply elem_of_singleton in Hin as ->. rewrite lookup_insert_eq. eauto.
    + destruct (decide (old = f)) as [->|]; [rewrite lookup_insert_eq; eauto|].
      rewrite lookup_insert_ne by assumption.
      destruct (decide (fresh_batcher s = f)) as [<-|]; [rewrite lookup_insert_eq; eauto|].
      rewrite lookup_insert_ne by assumption. auto.
Qed.

Lemma CountBufferedOperations_returns s b o :
  lock_ s = false -> flush_mode_ s = MANUAL_FLUSH ->
  batcher_ s = Some b -> batchers s !! b = Some o ->
  CountBufferedOperations s
  = Returns (Batcher.CountBufferedOperations o) s [EvLock; EvUnlock].
Proof.
  intros Hl Hm Hb Ho. unfold CountBufferedOperations.
  erewrite lock_guard_returns; [| exact Hl |].
  2:{ unfold deref. prog_unfold. simpl. rewrite Hm. simpl. rewrite Hb. simpl.
      rewrite Ho. reflexivity. }
  rewrite unlock_lock by exact Hl. reflexivity.
Qed.

Lemma any_pending_returns l s :
  (forall b, b ∈ l -> is_Some (batchers s !! b)) ->
  any_pending l s = Returns (existsb (pending_at s) l) s [].
Proof.
  induction l as [|b l IH]; intros Hall; [reflexivity|].
  destruct (Hall b) as [o Ho]; [left|].
  simpl. unfold deref, pending_at. prog_unfold. rewrite Ho. simpl.
  destruct (Batcher.HasPendingOperations o) eqn:Hp; [reflexivity|].
  rewrite IH by (intros b' Hb'; apply Hall; right; exact Hb').
  reflexivity.
Qed.

(** [HasPendingOperations] looks at the current batcher and at every
    in-flight one. *)
Lemma HasPendingOperations_returns s b :
  wf s -> batcher_ s = Some b ->
  HasPendingOperations s
  = Returns (pending_at s b || existsb (pending_at s) (elements (flushed_batchers_ s)))
            s [EvLock; EvUnlock].
Proof.
  intros (Hl & b' & Hb' & [o Ho] & Hnf & Hfl) Hb.
  rewrite Hb' in Hb. injection Hb as ->.
  unfold HasPendingOperations.
  rewrite (lock_guard_returns _ s
             (pending_at s b || existsb (pending_at s) (elements (flushed_batchers_ s)))
             (set_lock true s) []); [| exact Hl |].
  - rewrite unlock_lock by exact Hl. reflexivity.
  - unfold deref. prog_unfold. simpl. rewrite Hb'. simpl. rewrite Ho. simpl.
    unfold pending_at at 1. rewrite Ho.
    destruct (Batcher.HasPendingOperations o) eqn:Hp; [reflexivity|].
    rewrite any_pending_returns.
    + reflexivity.
    + intros f Hf. apply Hfl. apply elem_of_elements. exact Hf.
Qed.

Lemma HasPendingOperations_in_flight s f :
  wf s -> f ∈ flushed_batchers_ s -> pending_at s f = true ->
  HasPendingOperations s = Returns true s [EvLock; EvUnlock].
Proof.
  intros Hwf Hin Hp.
  destruct Hwf as (Hl & b & Hb & Hrest).
  rewrite (HasPendingOperations_returns s b) by (repeat split; eauto).
  replace (existsb (pending_at s) (elements (flushed_batchers_ s))) with true.
  - rewrite orb_true_r. reflexivity.
  - symmetry. apply existsb_exists. exists f. split; [|exact Hp].
    apply list_elem_of_In, elem_of_elements. exact Hin.
Qed.

Lemma FlushFinished_returns s b :
  lock_ s = false -> b ∈ flushed_batchers_ s ->
  FlushFinished b s
  = Returns tt (set_flushed (flushed_batchers_ s ∖ {[b]}) s)
      [EvLock; EvInFlightErase b; EvUnlock].
Proof.
  intros Hl Hin. unfold FlushFinished.
  erewrite lock_guard_returns; [| exact Hl |].
  2:{ prog_unfold. simpl. rewrite bool_decide_eq_true_2 by exact Hin. reflexivity. }
  f_equal. destruct s; simpl in *; subst; reflexivity.
Qed.

(** C5, as the code has it: in [MANUAL_FLUSH] mode.  [FlushAsync] takes the
    lock, installs a fresh batcher as current, inserts the previous one
    into the in-flight set, releases the lock and only then calls the
    previous batcher's [FlushAsync].  Right afterwards
    [CountBufferedOperations] is 0; [HasPendingOperations] is true in every
    state in which the previous batcher is in flight with operations
    pending; and [FlushFinished] for it removes it from the in-flight set,
    which is then what it was before the flush (empty if it was empty). *)
Theorem FlushAsync_rotates cb s old o :
  wf s -> flush_mode_ s = MANUAL_FLUSH ->
  batcher_ s = Some old -> batchers s !! old = Some o ->
  let s' := flushed_state cb old o s in
  FlushAsync cb s
  = Returns tt s'
      [EvLock; EvRotate (fresh_batcher s) (Some old); EvInFlightInsert old; EvUnlock;
       EvBatcherFlushAsync old cb]
  /\ batcher_ s' = Some (fresh_batcher s)
  /\ batchers s !! fresh_batcher s = None
  /\ CountBufferedOperations s' = Returns 0 s' [EvLock; EvUnlock]
  /\ flushed_batchers_ s' = {[old]} ∪ flushed_batchers_ s
  /\ (Batcher.HasPendingOperations o = true ->
      HasPendingOperations s' = Returns true s' [EvLock; EvUnlock])
  /\ (forall s2, wf s2 -> old ∈ flushed_batchers_ s2 -> pending_at s2 old = true ->
        HasPendingOperations s2 = Returns true s2 [EvLock; EvUnlock])
  /\ (exists s'',
        (FlushFinished old s' = Returns tt s'' [EvLock; EvInFlightErase old; EvUnlock])
        /\ (old ∉ flushed_batchers_ s'')
        /\ (flushed_batchers_ s'' = flushed_batchers_ s)).
Proof.
  intros Hwf Hm Hold Ho s'.
  pose proof (flushed_state_wf cb s old o Hwf Hold Ho) as Hwf'.
  pose proof (fresh_batcher_None s) as Hfresh.
  assert (Hin : old ∈ flushed_batchers_ s') by (simpl; set_solver).
  assert (Hnf : old ∉ flushed_batchers_ s).
  { destruct Hwf as (_ & b & Hb & _ & Hnf & _). congruence. }
  repeat split.
  - apply FlushAsync_returns; assumption.
  - exact Hfresh.
  - rewrite (CountBufferedOperations_returns s' (fresh_batcher s)
               (Batcher.SetTimeoutMillis (timeout_ms_ s) Batcher.new));
      [reflexivity | reflexivity | exact Hm | reflexivity |].
    simpl. rewrite lookup_insert_ne by congruence. apply lookup_insert_eq.
  - intros Hp. apply (HasPendingOperations_in_flight s' old Hwf' Hin).
    unfold pending_at. simpl. rewrite lookup_insert_eq. exact Hp.
  - intros s2 Hwf2 Hin2 Hp2. exact (HasPendingOperations_in_flight s2 old Hwf2 Hin2 Hp2).
  - eexists. split; [|split].
    + apply FlushFinished_returns; [reflexivity | exact Hin].
    + simpl. intros [_ Hn]%elem_of_difference.
      apply Hn, elem_of_singleton. reflexivity.
    + simpl. apply set_eq. intros x.
      rewrite elem_of_difference, elem_of_union, elem_of_singleton.
      split; [intros [[->|Hx] Hn]; [contradiction|exact Hx]|].
      intros Hx. split; [right; exact Hx|]. intros ->. contradiction.
Qed.

(** The other calls keep a session well formed too. *)
Lemma Apply_keeps_wf insert completion s a s' tr :
  flush_mode_ s <> AUTO_FLUSH_SYNC -> wf s ->
  Apply insert completion s = Returns a s' tr -> wf s'.
Proof.
  intros Hmode Hwf Hcall.
  destruct (IsKeySet (row insert)) eqn:Hkey.
  - destruct Hwf as (Hl & b & Hb & [o Ho] & Hnf & Hfl).
    rewrite (Apply_returns_OK insert completion s b o Hkey Hmode Hb Ho) in Hcall.
    injection Hcall as <- <- <-.
    split; [exact Hl|]. exists b. simpl. repeat split; try assumption.
    + rewrite lookup_insert_eq. eauto.
    + intros f Hf. destruct (decide (b = f)) as [->|Hne].
      * rewrite lookup_insert_eq. eauto.
      * rewrite lookup_insert_ne by exact Hne. auto.
  - unfold Apply in Hcall. rewrite Hkey in Hcall.
    injection Hcall as <- <- <-. exact Hwf.
Qed.

Lemma SetFlushMode_keeps_wf m s a s' tr :
  wf s -> SetFlushMode m s = Returns a s' tr -> wf s'.
Proof.
  intros Hwf Hcall.
  pose proof Hwf as (Hl & b & Hb & [o Ho] & Hnf & Hfl).
  rewrite (SetFlushMode_returns m s b o Hb Ho) in Hcall.
  destruct (Batcher.HasPendingOperations o); [|destruct (tight_enum_test m)];
    injection Hcall as <- <- <-; try exact Hwf.
Qed.

Lemma FlushFinished_keeps_wf b s a s' tr :
  wf s -> FlushFinished b s = Returns a s' tr -> wf s'.
Proof.
  intros (Hl & c & Hc & Ho & Hnf & Hfl) Hcall.
  destruct (decide (b ∈ flushed_batchers_ s)) as [Hin|Hnin].
  - rewrite (FlushFinished_returns s b Hl Hin) in Hcall.
    injection Hcall as <- <- <-.
    split; [exact Hl|]. exists c. simpl. repeat split; try assumption.
    + intros [Hc' _]%elem_of_difference. contradiction.
    + intros f [Hf _]%elem_of_difference. auto.
  - unfold FlushFinished, lock_guard in Hcall.
    cbv [mbind Prog_bind Prog.bind Prog.get Prog.modify Prog.emit Prog.CHECK
         Prog.ret Prog.abort Prog.hang] in Hcall.
    rewrite Hl in Hcall. simpl in Hcall.
    rewrite bool_decide_eq_false_2 in Hcall by exact Hnin.
    discriminate.
Qed.

Lemma manual_session_wf : wf manual_session.
Proof.
  split; [reflexivity|]. exists 0%nat. repeat split.
  - eexists. reflexivity.
  - simpl. apply not_elem_of_empty.
  - simpl. intros f Hf. apply not_elem_of_empty in Hf. contradiction.
Qed.

Lemma FlushAsync_rotates_witness :
  let s' := flushed_state (UserCb 7) 0%nat (Batcher.Add keyed_insert Batcher.new)
              manual_session in
  FlushAsync (UserCb 7) manual_session
  = Returns tt s'
      [EvLock; EvRotate (fresh_batcher manual_session) (Some 0%nat);
       EvInFlightInsert 0%nat; EvUnlock; EvBatcherFlushAsync 0%nat (UserCb 7)]
  /\ CountBufferedOperations s' = Returns 0 s' [EvLock; EvUnlock]
  /\ HasPendingOperations s' = Returns true s' [EvLock; EvUnlock].
Proof.
  intros s'.
  destruct (FlushAsync_rotates (UserCb 7) manual_session 0%nat
              (Batcher.Add keyed_insert Batcher.new))
    as (Hflush & _ & _ & Hcount & _ & Hpending & _).
  - exact manual_session_wf.
  - reflexivity.
  - reflexivity.
  - reflexivity.
  - split; [exact Hflush|]. split; [exact Hcount|].
    apply Hpending. reflexivity.
Defined.

(** C5, the claim as stated fails: the session [NewSession] hands out is in
    [AUTO_FLUSH_SYNC] mode, and there [FlushAsync] installs nothing; its
    [CHECK_EQ(flush_mode_, MANUAL_FLUSH)] aborts the process, as that of
    [CountBufferedOperations] does. *)
Lemma FlushAsync_default_mode_aborts :
  NewSession = Returns tt fresh_session [EvLock; EvRotate 0%nat None; EvUnlock]
  /\ FlushAsync (UserCb 7) fresh_session = Aborts "CHECK_EQ(flush_mode_, MANUAL_FLUSH)"
  /\ CountBufferedOperations fresh_session = Aborts "CHECK_EQ(flush_mode_, MANUAL_FLUSH)".
Proof. repeat split. Qed.

End SessionFacts.

(** ** The scanner. *)

Section ScannerFacts.
Import KuduScanner Prog.

Ltac scan_unfold :=
  cbv [mbind Prog_bind Prog.bind Prog.get Prog.modify Prog.emit Prog.CHECK
       Prog.ret Prog.abort Prog.hang].
Ltac scan_unfold_in H :=
  cbv [mbind Prog_bind Prog.bind Prog.get Prog.modify Prog.emit Prog.CHECK
       Prog.ret Prog.abort Prog.hang] in H.

Lemma step_keeps_closed_has_no_id s s' :
  step s s' -> closed_has_no_id s -> closed_has_no_id s'.
Proof.
  unfold closed_has_no_id.
  intros Hstep Hinv. destruct Hstep as
    [p s a s' tr Hcall | n s a s' tr Hcall | pb s a s' tr Hcall
    | server s a s' tr Hcall | server rows s a s' tr Hcall
    | s a s' tr Hcall | s a s' tr Hcall].
  - unfold SetProjection in Hcall. scan_unfold_in Hcall.
    destruct (open_ s) eqn:Ho; simpl in Hcall; [discriminate|].
    injection Hcall as <- <- <-. simpl. auto.
  - unfold SetBatchSizeBytes in Hcall. scan_unfold_in Hcall.
    injection Hcall as <- <- <-. simpl. auto.
  - unfold AddConjunctPredicate in Hcall. scan_unfold_in Hcall.
    destruct (open_ s) eqn:Ho; simpl in Hcall; [discriminate|].
    injection Hcall as <- <- <-. simpl. auto.
  - unfold Open, Scan, CheckForErrors in Hcall. scan_unfold_in Hcall.
    destruct (open_ s) eqn:Ho; simpl in Hcall; [discriminate|].
    destruct (server (open_request s)) as [st resp]. simpl in Hcall.
    destruct (St.ok st); simpl in Hcall.
    + destruct (error resp) as [e|]; simpl in Hcall.
      * destruct (St.ok e); simpl in Hcall.
        -- destruct (has_more_results resp);
             injection Hcall as <- <- <-; simpl; discriminate.
        -- injection Hcall as <- <- <-. simpl. auto.
      * destruct (has_more_results resp);
          injection Hcall as <- <- <-; simpl; discriminate.
    + injection Hcall as <- <- <-. simpl. auto.
  - unfold NextBatch, Scan, CheckForErrors in Hcall. scan_unfold_in Hcall.
    destruct (open_ s) eqn:Ho; simpl in Hcall; [|discriminate].
    destruct (data_in_open_ s); simpl in Hcall.
    + injection Hcall as <- <- <-. simpl. congruence.
    + destruct (server (next_req_ s)) as [st resp]. simpl in Hcall.
      destruct (St.ok st); simpl in Hcall.
      * destruct (error resp) as [e|]; simpl in Hcall.
        -- destruct (St.ok e); simpl in Hcall;
             injection Hcall as <- <- <-; simpl; congruence.
        -- injection Hcall as <- <- <-. simpl. congruence.
      * injection Hcall as <- <- <-. simpl. congruence.
  - unfold HasMoreRows in Hcall. scan_unfold_in Hcall.
    destruct (open_ s) eqn:Ho; simpl in Hcall; [|discriminate].
    injection Hcall as <- <- <-. congruence.
  - unfold Close in Hcall. scan_unfold_in Hcall.
    destruct (open_ s) eqn:Ho; simpl in Hcall.
    + destruct (bool_decide (get_scanner_id (next_req_ s) = "")) eqn:Hid;
        simpl in Hcall; injection Hcall as <- <- <-; simpl.
      * intros _. apply bool_decide_eq_true in Hid. exact Hid.
      * reflexivity.
    + injection Hcall as <- <- <-. auto.
Qed.

(** No program can hold a scanner that is not open and has a scanner id. *)
Lemma reachable_closed_has_no_id s : reachable s -> closed_has_no_id s.
Proof.
  induction 1 as [tablet | s s' _ IH Hstep].
  - intros _. reflexivity.
  - eapply step_keeps_closed_has_no_id; eauto.
Qed.

(** C4. A scanner whose [Open] succeeds with a response that carries no
    data and advertises no more results is open, with no scanner id;
    [HasMoreRows] then answers false and [Close] sends nothing to the
    server, it only marks the scanner as not open.  [Close] on a scanner
    that is not open does nothing at all. *)
Theorem Open_without_rows_needs_no_close sc server st resp :
  reachable sc -> open_ sc = false ->
  server (open_request sc) = (st, resp) ->
  St.ok st = true -> error resp = None ->
  data resp = None -> has_more_results resp = false ->
  (exists sc',
     (Open server sc = Returns St.OK sc' [EvScan (open_request sc)])
     /\ (open_ sc' = true)
     /\ (get_scanner_id (next_req_ sc') = "")
     /\ (HasMoreRows sc' = Returns false sc' [])
     /\ (Close sc' = Returns tt (set_open false sc') []))
  /\ (forall sc0, open_ sc0 = false -> Close sc0 = Returns tt sc0 []).
Proof.
  intros Hreach Hclosed Hserver Hok Herr Hdata Hmore. split.
  - pose proof (reachable_closed_has_no_id sc Hreach Hclosed) as Hid.
    eexists. split; [|split; [|split; [|split]]].
    + unfold Open, Scan, CheckForErrors. scan_unfold.
      rewrite Hclosed. simpl. rewrite Hserver. simpl. rewrite Hok. simpl.
      rewrite Herr. simpl. rewrite Hmore. reflexivity.
    + reflexivity.
    + exact Hid.
    + unfold HasMoreRows. scan_unfold. simpl.
      unfold has_data. rewrite Hdata, Hmore.
      rewrite bool_decide_eq_false_2 by (intros [x Hx]; discriminate).
      reflexivity.
    + unfold Close. scan_unfold. simpl.
      change (get_scanner_id _) with (get_scanner_id (next_req_ sc)).
      rewrite Hid. reflexivity.
  - intros sc0 Hc. unfold Close. scan_unfold. rewrite Hc. reflexivity.
Qed.

Lemma Open_without_rows_needs_no_close_witness :
  exists sc',
    Open no_rows_server (KuduScanner.new "tablet-1")
    = Returns St.OK sc' [EvScan (open_request (KuduScanner.new "tablet-1"))]
    /\ HasMoreRows sc' = Returns false sc' []
    /\ Close sc' = Returns tt (set_open false sc') [].
Proof.
  destruct (Open_without_rows_needs_no_close (KuduScanner.new "tablet-1")
              no_rows_server St.OK empty_response) as [(sc' & Hopen & _ & _ & Hmore & Hclose) _].
  - apply reachable_new.
  - reflexivity.
  - reflexivity.
  - reflexivity.
  - reflexivity.
  - reflexivity.
  - reflexivity.
  - exists sc'. split; [exact Hopen|]. split; [exact Hmore | exact Hclose].
Defined.

End ScannerFacts.

(** ** The resettable heartbeater. *)

Section HeartbeaterFacts.
Import ResettableHeartbeater.

(** Where a started heartbeater is after [ms] milliseconds without reset. *)
Lemma sleep_started ms : forall h,
  started_ h = true -> 0 < period_ h -> waited_ h < period_ h ->
  sleep ms h = mk (period_ h) true ((waited_ h + ms) mod period_ h)
                 (callbacks_ h + (waited_ h + ms) / period_ h).
Proof.
  induction ms as [|ms IH]; intros [P st w c]; simpl; intros -> HP Hw.
  - rewrite !Nat.add_0_r, Nat.mod_small, Nat.div_small by exact Hw.
    rewrite Nat.add_0_r. reflexivity.
  - unfold tick. simpl.
    destruct (Nat.leb_spec P (S w)) as [Hfire|Hwait].
    + rewrite IH by (simpl; auto; lia). simpl.
      replace (w + S ms) with (ms + 1 * P) by lia.
      rewrite Nat.Div0.mod_add, Nat.div_add by lia.
      f_equal. lia.
    + rewrite IH by (simpl; auto; lia). simpl.
      replace (w + S ms) with (S (w + ms)) by lia. reflexivity.
Qed.

(** A reset before the period is over brings a started heartbeater back to
    the start of a wait, with no callback fired. *)
Lemma reset_round_quiet gap h :
  started_ h = true -> waited_ h = 0 -> gap < period_ h ->
  Reset (sleep gap h) = h.
Proof.
  intros Hs Hw Hgap.
  rewrite sleep_started; [| exact Hs | lia | lia]. rewrite Hw. simpl.
  rewrite Nat.div_small by exact Hgap.
  destruct h as [P st w c]. simpl in *. subst. unfold Reset. simpl.
  f_equal. lia.
Qed.

Lemma reset_rounds_quiet gap n h :
  started_ h = true -> waited_ h = 0 -> gap < period_ h ->
  reset_rounds gap n h = h.
Proof.
  intros Hs Hw Hgap. induction n as [|n IH]; [reflexivity|].
  simpl. rewrite reset_round_quiet by assumption. exact IH.
Qed.

(** C9. A started heartbeater at the start of a wait, with period [P],
    whose [Reset] is called every [P / 4] milliseconds: no callback fires,
    neither at a reset nor between two resets; after the last reset the
    next callback comes no sooner than [P] later, and from then on there
    is one callback every [P] milliseconds. *)
Theorem Reset_suppresses_heartbeats h n :
  started_ h = true -> waited_ h = 0 -> 0 < period_ h ->
  let P := period_ h in
  let h' := reset_rounds (P / 4) n h in
  callbacks_ h' = callbacks_ h
  /\ (forall i t, i <= n -> t <= P / 4 ->
        callbacks_ (sleep t (reset_rounds (P / 4) i h)) = callbacks_ h)
  /\ (forall t, t < P -> callbacks_ (sleep t h') = callbacks_ h)
  /\ (forall t, callbacks_ (sleep t h') = callbacks_ h + t / P).
Proof.
  intros Hs Hw HP P h'.
  assert (Hgap : P / 4 < P) by (apply Nat.div_lt; lia).
  assert (Hrounds : forall i, reset_rounds (P / 4) i h = h)
    by (intros i; apply reset_rounds_quiet; assumption).
  assert (Hsleep : forall t, callbacks_ (sleep t h) = callbacks_ h + t / P).
  { intros t. rewrite sleep_started; [| exact Hs | lia | lia].
    rewrite Hw. reflexivity. }
  subst h'. rewrite Hrounds. repeat split.
  - intros i t _ Ht. rewrite Hrounds, Hsleep.
    rewrite Nat.div_small by lia. lia.
  - intros t Ht. rewrite Hsleep, Nat.div_small by exact Ht. lia.
  - exact Hsleep.
Qed.

Lemma Reset_suppresses_heartbeats_witness :
  let h := snd (Start (new 100)) in
  callbacks_ (reset_rounds (100 / 4) 10 h) = 0
  /\ callbacks_ (sleep 99 (reset_rounds (100 / 4) 10 h)) = 0
  /\ callbacks_ (sleep 300 (reset_rounds (100 / 4) 10 h)) = 3.
Proof.
  intros h.
  destruct (Reset_suppresses_heartbeats h 10) as (Hquiet & _ & Hnext & Hcadence).
  - reflexivity.
  - reflexivity.
  - simpl. lia.
  - split; [exact Hquiet|]. split.
    + apply (Hnext 99). simpl. lia.
    + exact (Hcadence 300).
Defined.

(** The test of the sources passes on this heartbeater: the latch stays at
    [kNumPeriodsToWait] through the ten resets, and opens well within
    [kMaxWaitMsecs] once they stop. *)
Lemma TestResetHeartbeats_passes :
  ResettableHeartbeaterTest.TestResetHeartbeats = true.
Proof. vm_compute. reflexivity. Qed.

Lemma TestRegularHeartbeats_passes :
  ResettableHeartbeaterTest.TestRegularHeartbeats = true.
Proof. vm_compute. reflexivity. Qed.

End HeartbeaterFacts.

(* ===================================================================== *)
(** * Part III: more facts                                                 *)
(* ===================================================================== *)

(** ** More on the retry driver. *)

Section RetryMore.
Context {W : Type} `{World W} (time : W -> Z) `{!WorldLaws time}.

Local Open Scope Z_scope.

Lemma sleeps_called rpcs s r rest :
  Trace.sleeps (((EvRpc <$> rpcs) ++ [EvCall s r]) ++ rest) = Trace.sleeps rest.
Proof. induction rpcs as [|x rpcs IH]; simpl; [reflexivity | exact IH]. Qed.

Lemma calls_called rpcs s r rest :
  Trace.calls (((EvRpc <$> rpcs) ++ [EvCall s r]) ++ rest) = (s, r) :: Trace.calls rest.
Proof. induction rpcs as [|x rpcs IH]; simpl; [reflexivity | exact IH]. Qed.

Lemma elem_of_called e rpcs s r rest :
  e ∈ ((EvRpc <$> rpcs) ++ [EvCall s r]) ++ rest <->
  (exists x, e = EvRpc x /\ x ∈ rpcs) \/ e = EvCall s r \/ e ∈ rest.
Proof.
  rewrite !elem_of_app, list_elem_of_fmap, list_elem_of_singleton. tauto.
Qed.

(** A run in which no call cleared the retry flag ended because the
    deadline was reached. *)
Lemma RetryLoop_gave_up fuel deadline msg (func : RetryBody W) :
  forall now wait w st w' tr,
    Retry.RetryLoop fuel deadline msg func now wait w = Some (st, w', tr) ->
    (forall s, EvCall s false ∉ tr) ->
    st = St.TimedOut msg /\ deadline <= time w'.
Proof.
  induction fuel as [|fuel IH]; intros now wait w st w' tr Hrun Hnone; [discriminate|].
  rewrite RetryLoop_S in Hrun.
  destruct (func deadline true w) as [[[s retry] w1] rpcs].
  destruct retry; simpl in Hrun.
  - destruct (MonoTime_Now w1) as [now1 w2] eqn:Hn1.
    apply Now_between in Hn1 as [_ Hn1].
    unfold Mono.ComesBefore in Hrun.
    destruct (Z.ltb_spec now1 deadline) as [Hlt|Hge]; simpl in Hrun.
    + destruct (0 <? _).
      * destruct (MonoTime_Now (usleep _ w2)) as [now2 w4].
        destruct (Retry.RetryLoop fuel _ _ _ now2 _ w4) as [[[r w''] tr']|] eqn:Hrec;
          [|discriminate].
        inversion Hrun; subst. eapply IH; [exact Hrec|].
        intros s0 Hin. apply (Hnone s0). apply elem_of_called. right. right.
        right. exact Hin.
      * destruct (Retry.RetryLoop fuel _ _ _ now1 _ w2) as [[[r w''] tr']|] eqn:Hrec;
          [|discriminate].
        inversion Hrun; subst. eapply IH; [exact Hrec|].
        intros s0 Hin. apply (Hnone s0). apply elem_of_called. right. right.
        exact Hin.
    + inversion Hrun; subst. split; [reflexivity | lia].
  - inversion Hrun; subst. exfalso. apply (Hnone st).
    rewrite <- (app_nil_r (_ ++ _)). apply elem_of_called. right. left. reflexivity.
Qed.

(** X1. [RetryFunc] does not give up early: a run in which no call of [f]
    reported [retry = false] returns [TimedOut(timeout_msg)], and by then
    the clock has reached the deadline. *)
Theorem RetryFunc_gives_up_only_at_deadline fuel deadline retry_msg timeout_msg
    (func : RetryBody W) w st w' tr :
  Retry.RetryFunc fuel deadline retry_msg timeout_msg func w = Some (st, w', tr) ->
  (forall s, EvCall s false ∉ tr) ->
  st = St.TimedOut timeout_msg /\ deadline <= time w'.
Proof.
  unfold Retry.RetryFunc. intros Hrun Hnone.
  destruct (MonoTime_Now w) as [now w0] eqn:Hn.
  apply Now_between in Hn as [_ Hn].
  unfold Mono.ComesBefore in Hrun.
  destruct (Z.ltb_spec now deadline) as [Hlt|Hge]; simpl in Hrun.
  - eapply RetryLoop_gave_up; eauto.
  - inversion Hrun; subst. split; [reflexivity | lia].
Qed.

(** The sleeps of the loop back off from its current [wait_time]. *)
Lemma RetryLoop_backoff deadline msg (func : RetryBody W) :
  monotone_body time func ->
  forall fuel now wait w st w' tr,
    now <= time w -> 1 <= wait <= 2 ^ 60 -> deadline - now <= 2 ^ 60 ->
    Retry.RetryLoop fuel deadline msg func now wait w = Some (st, w', tr) ->
    Trace.backoff wait (Trace.sleeps tr).
Proof.
  intros Hmono.
  induction fuel as [|fuel IH]; intros now wait w st w' tr Hnow Hwait Hbound Hrun;
    [discriminate|].
  rewrite RetryLoop_S in Hrun.
  destruct (func deadline true w) as [[[s retry] w1] rpcs] eqn:Hf.
  apply Hmono in Hf.
  destruct retry; simpl in Hrun.
  2:{ inversion Hrun; subst. rewrite <- (app_nil_r (_ ++ _)), sleeps_called. exact I. }
  destruct (MonoTime_Now w1) as [now1 w2] eqn:Hn1.
  apply Now_between in Hn1 as [Hn1 Hn1'].
  unfold Mono.ComesBefore in Hrun.
  destruct (Z.ltb_spec now1 deadline) as [Hlt|Hge]; simpl in Hrun.
  2:{ inversion Hrun; subst. rewrite <- (app_nil_r (_ ++ _)), sleeps_called. exact I. }
  rewrite (wrap64_small (deadline - now1 - (now1 - now))) in Hrun by lia.
  destruct (Z.ltb_spec 0 (deadline - now1 - (now1 - now))) as [Hpos|Hnpos].
  - pose proof (next_wait_bounds wait (deadline - now1 - (now1 - now))
                  Hwait ltac:(lia)) as Hw'.
    assert (Hle : Z.min (wrap64 (wait * 5) ÷ 4) (deadline - now1 - (now1 - now))
                  <= wait * 5 / 4).
    { rewrite wrap64_small by lia. rewrite Z.quot_div_nonneg by lia. lia. }
    set (wait' := Z.min _ _) in *.
    pose proof (usleep_sleeps wait' w2 ltac:(lia)) as Hsl.
    destruct (MonoTime_Now (usleep wait' w2)) as [now2 w4] eqn:Hn2.
    apply Now_between in Hn2 as [Hn2 Hn2'].
    destruct (Retry.RetryLoop fuel _ _ _ now2 _ w4) as [[[r w''] tr']|] eqn:Hrec;
      [|discriminate].
    inversion Hrun; subst. rewrite sleeps_called. simpl.
    split; [lia|]. eapply (IH now2 wait' w4); [| | |exact Hrec]; lia.
  - destruct (Retry.RetryLoop fuel _ _ _ now1 _ w2) as [[[r w''] tr']|] eqn:Hrec;
      [|discriminate].
    inversion Hrun; subst. rewrite sleeps_called.
    eapply (IH now1 wait w2); [| | |exact Hrec]; lia.
Qed.

(** With the deadline at most an hour after [start], the loop's
    [wait_time] stays far below [2 ^ 32]: it grows by a quarter at most per
    sleep, and each sleep lasts as long as it says, so that
    [4000 * (wait_time - 1000)] never exceeds the nanoseconds gone by.  The
    conversion to [useconds_t] then changes nothing, and the loop with the
    conversion runs as the loop without it. *)
Lemma RetryLoop_useconds deadline msg (func : RetryBody W) start :
  monotone_body time func ->
  deadline - start <= 3600 * 10 ^ 9 ->
  forall fuel now wait w,
    start <= now -> now <= time w ->
    1 <= wait -> 4000 * (wait - 1000) <= now - start ->
    Retry32.RetryLoop fuel deadline msg func now wait w
    = Retry.RetryLoop fuel deadline msg func now wait w
    /\ forall st w' tr,
         Retry.RetryLoop fuel deadline msg func now wait w = Some (st, w', tr) ->
         Forall (fun n => 0 <= n < 2 ^ 32) (Trace.sleeps tr).
Proof.
  intros Hmono Hhour.
  induction fuel as [|fuel IH]; intros now wait w Hstart Hnow Hwait Hinv;
    [split; [reflexivity | discriminate]|].
  rewrite RetryLoop_S.
  change (Retry32.RetryLoop (S fuel) deadline msg func now wait w) with
    (let '(s, retry, w1, rpcs) := func deadline true w in
     let called := (EvRpc <$> rpcs) ++ [EvCall s retry] in
     if negb retry then Some (s, w1, called)
     else
       let '(now1, w2) := MonoTime_Now w1 in
       if negb (Mono.ComesBefore now1 deadline)
       then Some (St.TimedOut msg, w2, called)
       else
         let timeout_usec := wrap64 ((deadline - now1) - (now1 - now)) in
         if 0 <? timeout_usec then
           let wait' := Z.min (wrap64 (wait * 5) ÷ 4) timeout_usec in
           let slept := Trace.useconds_t wait' in
           let w3 := usleep slept w2 in
           let '(now2, w4) := MonoTime_Now w3 in
           match Retry32.RetryLoop fuel deadline msg func now2 wait' w4 with
           | Some (r, w', tr) => Some (r, w', called ++ EvSleep slept :: tr)
           | None => None
           end
         else
           match Retry32.RetryLoop fuel deadline msg func now1 wait w2 with
           | Some (r, w', tr) => Some (r, w', called ++ tr)
           | None => None
           end).
  destruct (func deadline true w) as [[[s retry] w1] rpcs] eqn:Hf.
  apply Hmono in Hf.
  destruct retry; cbv beta iota zeta; simpl negb; cbv iota.
  2:{ split; [reflexivity|]. intros st w' tr [= <- <- <-].
      rewrite <- (app_nil_r (_ ++ _)), sleeps_called. constructor. }
  destruct (MonoTime_Now w1) as [now1 w2] eqn:Hn1.
  apply Now_between in Hn1 as [Hn1 Hn1'].
  unfold Mono.ComesBefore.
  destruct (Z.ltb_spec now1 deadline) as [Hlt|Hge]; simpl negb; cbv iota.
  2:{ split; [reflexivity|]. intros st w' tr [= <- <- <-].
      rewrite <- (app_nil_r (_ ++ _)), sleeps_called. constructor. }
  rewrite (wrap64_small (deadline - now1 - (now1 - now))) by lia.
  destruct (Z.ltb_spec 0 (deadline - now1 - (now1 - now))) as [Hpos|Hnpos].
  - rewrite (wrap64_small (wait * 5)) by lia.
    rewrite Z.quot_div_nonneg by lia.
    assert (Hq : 1 <= wait * 5 / 4 /\ 4 * (wait * 5 / 4) <= 5 * wait).
    { split; [apply Z.div_le_lower_bound; lia|].
      pose proof (Z.mul_div_le (wait * 5) 4 ltac:(lia)). lia. }
    set (wait' := Z.min _ _).
    assert (Hw' : 1 <= wait' /\ 4 * wait' <= 5 * wait) by (subst wait'; lia).
    assert (Hfit : 0 <= wait' < 2 ^ 32) by lia.
    assert (Hsame : Trace.useconds_t wait' = wait')
      by (unfold Trace.useconds_t; apply Z.mod_small; exact Hfit).
    rewrite Hsame.
    pose proof (usleep_sleeps wait' w2 ltac:(lia)) as Hsl.
    destruct (MonoTime_Now (usleep wait' w2)) as [now2 w4] eqn:Hn2.
    apply Now_between in Hn2 as [Hn2 Hn2'].
    destruct (IH now2 wait' w4) as [Heq Hfits]; [lia..|].
    rewrite Heq. split; [reflexivity|].
    intros st w' tr Hrun.
    destruct (Retry.RetryLoop fuel _ _ _ now2 _ w4) as [[[r w''] tr']|]; [|discriminate].
    injection Hrun as <- <- <-. rewrite sleeps_called. simpl.
    constructor; [exact Hfit | eapply Hfits; reflexivity].
  - destruct (IH now1 wait w2) as [Heq Hfits]; [lia..|].
    rewrite Heq. split; [reflexivity|].
    intros st w' tr Hrun.
    destruct (Retry.RetryLoop fuel _ _ _ now1 _ w2) as [[[r w''] tr']|]; [|discriminate].
    injection Hrun as <- <- <-. rewrite sleeps_called.
    eapply Hfits; reflexivity.
Qed.

(** X2. With the deadline at most an hour ahead, on a monotonic clock, the
    sleeps of [RetryFunc] back off: the first lasts at most 1250
    microseconds, each later one at most 5/4 of the one before, and none is
    shorter than one microsecond.  Every [wait_time] handed to [usleep] is
    below [2 ^ 32] there, so the conversion to the 32-bit [useconds_t]
    leaves it as it is, and the run with the conversion is the run without
    it. *)
Theorem RetryFunc_backs_off fuel deadline retry_msg timeout_msg
    (func : RetryBody W) w st w' tr :
  monotone_body time func -> deadline - time w <= 3600 * 10 ^ 9 ->
  Retry32.RetryFunc fuel deadline retry_msg timeout_msg func w = Some (st, w', tr) ->
  Trace.backoff 1000 (Trace.sleeps tr)
  /\ Forall (fun n => 0 <= n < 2 ^ 32) (Trace.sleeps tr)
  /\ Retry.RetryFunc fuel deadline retry_msg timeout_msg func w = Some (st, w', tr).
Proof.
  unfold Retry32.RetryFunc, Retry.RetryFunc. intros Hmono Hbound Hrun.
  destruct (MonoTime_Now w) as [now w0] eqn:Hn.
  apply Now_between in Hn as [Hn Hn'].
  destruct (negb (Mono.ComesBefore now deadline)).
  - inversion Hrun; subst. split; [exact I|]. split; [constructor | reflexivity].
  - destruct (RetryLoop_useconds deadline timeout_msg func (time w) Hmono Hbound
                fuel now 1000 w0) as [Heq Hfits]; [lia..|].
    rewrite Heq in Hrun. split; [|split; [eapply Hfits; exact Hrun | exact Hrun]].
    eapply (RetryLoop_backoff deadline timeout_msg func Hmono fuel now 1000 w0);
      [| | |exact Hrun]; lia.
Qed.

End RetryMore.


Lemma RetryFunc_gives_up_only_at_deadline_witness :
  Retry.RetryFunc 3 500000%Z "retry" "timed out" Sim.busy (Sim.mk 0 0 0)
  = Some (St.TimedOut "timed out", Sim.mk 1250000 0 0,
          [EvCall (St.IllegalState "busy") true; EvSleep 1250;
           EvCall (St.IllegalState "busy") true])
  /\ (St.TimedOut "timed out" = St.TimedOut "timed out"
      /\ (500000 <= Sim.clock (Sim.mk 1250000 0 0))%Z).
Proof.
  assert (Hrun : Retry.RetryFunc 3 500000%Z "retry" "timed out" Sim.busy (Sim.mk 0 0 0)
                 = Some (St.TimedOut "timed out", Sim.mk 1250000 0 0,
                         [EvCall (St.IllegalState "busy") true; EvSleep 1250;
                          EvCall (St.IllegalState "busy") true]))
    by (vm_compute; reflexivity).
  split; [exact Hrun|].
  apply (RetryFunc_gives_up_only_at_deadline Sim.clock 3 500000%Z "retry" "timed out"
           Sim.busy (Sim.mk 0 0 0) _ _ _ Hrun).
  intros s Hin. rewrite !elem_of_cons, elem_of_nil in Hin.
  destruct Hin as [Hin|[Hin|[Hin|[]]]]; discriminate.
Defined.

Lemma RetryFunc_backs_off_witness :
  Retry32.RetryFunc 5 3000000%Z "retry" "timed out" Sim.busy (Sim.mk 0 0 0)
  = Some (St.TimedOut "timed out", Sim.mk 4764000 0 0,
          [EvCall (St.IllegalState "busy") true; EvSleep 1250;
           EvCall (St.IllegalState "busy") true; EvSleep 1562;
           EvCall (St.IllegalState "busy") true; EvSleep 1952;
           EvCall (St.IllegalState "busy") true])
  /\ Trace.backoff 1000 [1250; 1562; 1952]%Z
  /\ Forall (fun n => 0 <= n < 2 ^ 32)%Z [1250; 1562; 1952]%Z
  /\ Retry.RetryFunc 5 3000000%Z "retry" "timed out" Sim.busy (Sim.mk 0 0 0)
     = Some (St.TimedOut "timed out", Sim.mk 4764000 0 0,
             [EvCall (St.IllegalState "busy") true; EvSleep 1250;
              EvCall (St.IllegalState "busy") true; EvSleep 1562;
              EvCall (St.IllegalState "busy") true; EvSleep 1952;
              EvCall (St.IllegalState "busy") true]).
Proof.
  assert (Hrun : Retry32.RetryFunc 5 3000000%Z "retry" "timed out" Sim.busy (Sim.mk 0 0 0)
                 = Some (St.TimedOut "timed out", Sim.mk 4764000 0 0,
                         [EvCall (St.IllegalState "busy") true; EvSleep 1250;
                          EvCall (St.IllegalState "busy") true; EvSleep 1562;
                          EvCall (St.IllegalState "busy") true; EvSleep 1952;
                          EvCall (St.IllegalState "busy") true]))
    by (vm_compute; reflexivity).
  split; [exact Hrun|].
  apply (RetryFunc_backs_off Sim.clock 5 3000000%Z "retry" "timed out" Sim.busy
           (Sim.mk 0 0 0) _ _ _ busy_monotone ltac:(simpl; lia) Hrun).
Defined.

Section RetryShape.
Context {W : Type} `{World W}.

Lemma RetryLoop_shape fuel deadline msg (func : RetryBody W) :
  forall now wait w st w' tr,
    Retry.RetryLoop fuel deadline msg func now wait w = Some (st, w', tr) ->
    (exists tr' s r, tr = tr' ++ [EvCall s r])
    /\ (length (Trace.sleeps tr) < length (Trace.calls tr))%nat.
Proof.
  induction fuel as [|fuel IH]; intros now wait w st w' tr Hrun; [discriminate|].
  rewrite RetryLoop_S in Hrun.
  destruct (func deadline true w) as [[[s retry] w1] rpcs].
  assert (Hend : (exists tr' s0 r, (EvRpc <$> rpcs) ++ [EvCall s retry] = tr' ++ [EvCall s0 r])
                 /\ (length (Trace.sleeps ((EvRpc <$> rpcs) ++ [EvCall s retry]))
                     < length (Trace.calls ((EvRpc <$> rpcs) ++ [EvCall s retry])))%nat).
  { split; [eauto|].
    rewrite <- (app_nil_r (_ ++ _)), sleeps_called, calls_called. simpl. lia. }
  destruct retry; simpl in Hrun; [|inversion Hrun; subst; exact Hend].
  destruct (MonoTime_Now w1) as [now1 w2].
  destruct (negb (Mono.ComesBefore now1 deadline)); [inversion Hrun; subst; exact Hend|].
  destruct (0 <? _)%Z.
  - destruct (MonoTime_Now (usleep _ w2)) as [now2 w4].
    destruct (Retry.RetryLoop fuel _ _ _ now2 _ w4) as [[[r w''] tr']|] eqn:Hrec;
      [|discriminate].
    inversion Hrun; subst.
    destruct (IH _ _ _ _ _ _ Hrec) as [(pre & s0 & r0 & ->) Hlen]. split.
    + eexists _, s0, r0. rewrite app_comm_cons, app_assoc. reflexivity.
    + rewrite sleeps_called, calls_called. simpl. lia.
  - destruct (Retry.RetryLoop fuel _ _ _ now1 _ w2) as [[[r w''] tr']|] eqn:Hrec;
      [|discriminate].
    inversion Hrun; subst.
    destruct (IH _ _ _ _ _ _ Hrec) as [(pre & s0 & r0 & ->) Hlen]. split.
    + eexists _, s0, r0. rewrite app_assoc. reflexivity.
    + rewrite sleeps_called, calls_called. simpl. lia.
Qed.

End RetryShape.

Section RetryResult.
Context {W : Type} `{World W}.

(** A run of the loop ends with a call; the result is that call's status
    when it cleared the flag, and [TimedOut] otherwise.  Every recorded
    call is an answer of the retried function. *)
Lemma RetryLoop_last_call fuel deadline msg (func : RetryBody W) :
  forall now wait w st w' tr,
    Retry.RetryLoop fuel deadline msg func now wait w = Some (st, w', tr) ->
    exists tr' s r,
      tr = tr' ++ [EvCall s r]
      /\ st = (if r then St.TimedOut msg else s)
      /\ (exists w1 w2 rpcs, func deadline true w1 = (s, r, w2, rpcs)).
Proof.
  induction fuel as [|fuel IH]; intros now wait w st w' tr Hrun; [discriminate|].
  rewrite RetryLoop_S in Hrun.
  destruct (func deadline true w) as [[[s retry] w1] rpcs] eqn:Hf.
  destruct retry; simpl in Hrun.
  - destruct (MonoTime_Now w1) as [now1 w2].
    destruct (negb (Mono.ComesBefore now1 deadline)).
    { inversion Hrun; subst. exists (EvRpc <$> rpcs), s, true. eauto 10. }
    destruct (0 <? _)%Z.
    + destruct (MonoTime_Now (usleep _ w2)) as [now2 w4].
      destruct (Retry.RetryLoop fuel _ _ _ now2 _ w4) as [[[r w''] tr']|] eqn:Hrec;
        [|discriminate].
      inversion Hrun; subst.
      destruct (IH _ _ _ _ _ _ Hrec) as (pre & s0 & r0 & -> & Hst & Hfunc).
      eexists _, s0, r0. split; [|split; assumption].
      rewrite app_comm_cons, app_assoc. reflexivity.
    + destruct (Retry.RetryLoop fuel _ _ _ now1 _ w2) as [[[r w''] tr']|] eqn:Hrec;
        [|discriminate].
      inversion Hrun; subst.
      destruct (IH _ _ _ _ _ _ Hrec) as (pre & s0 & r0 & -> & Hst & Hfunc).
      eexists _, s0, r0. split; [|split; assumption].
      rewrite app_assoc. reflexivity.
  - inversion Hrun; subst. exists (EvRpc <$> rpcs), st, false. eauto 10.
Qed.

(** X3. A run of [RetryFunc] that called [f] at all ends with a call of
    [f], never with a sleep: it has fewer sleeps than calls, and its result
    is the status of the last call when that call reported
    [retry = false], and [TimedOut(timeout_msg)] otherwise. *)
Theorem RetryFunc_ends_with_a_call fuel deadline retry_msg timeout_msg
    (func : RetryBody W) w st w' tr :
  Retry.RetryFunc fuel deadline retry_msg timeout_msg func w = Some (st, w', tr) ->
  tr <> [] ->
  (exists tr' s r,
     tr = tr' ++ [EvCall s r]
     /\ st = (if r then St.TimedOut timeout_msg else s))
  /\ (length (Trace.sleeps tr) < length (Trace.calls tr))%nat.
Proof.
  unfold Retry.RetryFunc. intros Hrun Hne.
  destruct (MonoTime_Now w) as [now w0].
  destruct (negb (Mono.ComesBefore now deadline)).
  - inversion Hrun; subst. contradiction.
  - split.
    + destruct (RetryLoop_last_call _ _ _ _ _ _ _ _ _ _ Hrun)
        as (tr' & s & r & Htr & Hst & _).
      eauto.
    + eapply RetryLoop_shape; eauto.
Qed.

(** The completion probe clears the flag only together with an OK status. *)
Lemma IsAlterTableInProgress_done (name : string) d (w : W) s w' rpcs :
  KuduClient.IsAlterTableInProgress name d true w = (s, false, w', rpcs) -> s = St.OK.
Proof.
  unfold KuduClient.IsAlterTableInProgress.
  destruct (MonoTime_Now w) as [now w1].
  destruct (master_IsAlterTableDone _ _ w1) as [[st resp] w2].
  destruct (negb (St.ok st)); [intros [= _ ?]; discriminate|].
  destruct (done_error resp); [intros [= _ ?]; discriminate|].
  intros [= <- _ _ _]. reflexivity.
Qed.

(** X4. Once [AlterTable] has polled for completion, the status of a poll
    that failed is never its result: the result is OK, after a last poll
    that answered OK and done, or it is
    [TimedOut("Timeout out waiting for AlterTable")]. *)
Theorem AlterTable_never_returns_a_poll_error fuel options_ table_name
    (alter : AlterTableBuilder.t) (w : W) st w' tr :
  KuduClient.AlterTable fuel options_ table_name alter w = Some (st, w', tr) ->
  Trace.calls tr <> [] ->
  exists tr' s r,
    tr = tr' ++ [EvCall s r]
    /\ ((r = false /\ s = St.OK /\ st = St.OK)
        \/ (r = true /\ st = St.TimedOut "Timeout out waiting for AlterTable")).
Proof.
  intros Hrun Hcalls. unfold KuduClient.AlterTable in Hrun.
  destruct (negb (AlterTableBuilder.has_changes alter)).
  { inversion Hrun; subst. contradiction. }
  destruct (MonoTime_Now w) as [now w1].
  destruct (master_AlterTable _ _ w1) as [[st1 resp] w2].
  destruct (negb (St.ok st1)).
  { inversion Hrun; subst. contradiction. }
  destruct (alter_error resp).
  { inversion Hrun; subst. contradiction. }
  destruct (Retry.RetryFunc _ _ _ _ _ w2) as [[[s0 w3] tr0]|] eqn:Hretry; [|discriminate].
  assert (Htr : tr = EvRpc (RpcAlterTable
             (mkAlterTableRequestPB (Some table_name)
                (alter_schema_steps (AlterTableBuilder.alter_steps_ alter))
                (new_table_name (AlterTableBuilder.alter_steps_ alter)))
             (KuduClient.default_admin_operation_timeout options_)) :: tr0).
  { destruct (negb (St.ok s0)); inversion Hrun; reflexivity. }
  subst tr. simpl in Hcalls.
  unfold Retry.RetryFunc in Hretry.
  destruct (MonoTime_Now w2) as [now2 w2'].
  destruct (negb (Mono.ComesBefore now2 _)).
  { inversion Hretry; subst. contradiction. }
  destruct (RetryLoop_last_call _ _ _ _ _ _ _ _ _ _ Hretry)
    as (tr' & s & r & -> & Hst & (wa & wb & rpcs & Hfunc)).
  eexists (_ :: tr'), s, r. split; [reflexivity|].
  destruct r; subst s0; simpl in Hrun.
  - right. inversion Hrun. auto.
  - left. apply IsAlterTableInProgress_done in Hfunc. subst s.
    simpl in Hrun. inversion Hrun. auto.
Qed.

(** X5. An [AlterTable] that has changes to make sends the master exactly
    one [AlterTable] call, before anything else: it names the table, carries
    the builder's steps and new table name, and has the client's admin
    timeout. *)
Theorem AlterTable_sends_one_request fuel options_ table_name
    (alter : AlterTableBuilder.t) (w : W) st w' tr :
  AlterTableBuilder.has_changes alter = true ->
  KuduClient.AlterTable fuel options_ table_name alter w = Some (st, w', tr) ->
  exists rest,
    tr = EvRpc (RpcAlterTable
                  (mkAlterTableRequestPB (Some table_name)
                     (alter_schema_steps (AlterTableBuilder.alter_steps_ alter))
                     (new_table_name (AlterTableBuilder.alter_steps_ alter)))
                  (KuduClient.default_admin_operation_timeout options_)) :: rest
    /\ forall req t, EvRpc (RpcAlterTable req t) ∉ rest.
Proof.
  intros Hch Hrun. unfold KuduClient.AlterTable in Hrun. rewrite Hch in Hrun.
  simpl in Hrun.
  destruct (MonoTime_Now w) as [now w1].
  destruct (master_AlterTable _ _ w1) as [[st1 resp] w2].
  destruct (negb (St.ok st1)).
  { inversion Hrun; subst. eexists. split; [reflexivity|]. intros ? ? Hin. inversion Hin. }
  destruct (alter_error resp).
  { inversion Hrun; subst. eexists. split; [reflexivity|]. intros ? ? Hin. inversion Hin. }
  destruct (Retry.RetryFunc _ _ _ _ _ w2) as [[[s0 w3] tr0]|] eqn:Hretry; [|discriminate].
  exists tr0. split.
  { destruct (negb (St.ok s0)); inversion Hrun; reflexivity. }
  intros req t Hin.
  unfold Retry.RetryFunc in Hretry.
  destruct (MonoTime_Now w2) as [now2 w2'].
  destruct (negb (Mono.ComesBefore now2 _)).
  { inversion Hretry; subst. inversion Hin. }
  refine (RetryLoop_rpcs (fun rpc => forall req t, rpc <> RpcAlterTable req t)
            _ _ _ _ _ _ _ _ _ _ _ Hretry _ Hin req t eq_refl).
  intros d flag w0 s r w0' rpcs Hf.
  unfold KuduClient.IsAlterTableInProgress in Hf.
  destruct (MonoTime_Now w0) as [n0 wa].
  destruct (master_IsAlterTableDone _ _ wa) as [[sa ra] wb].
  assert (rpcs = [RpcIsAlterTableDone (mkIsAlterTableDoneRequestPB
             (if AlterTableBuilder.has_new_table_name
                   (mkAlterTableRequestPB (Some table_name)
                      (alter_schema_steps (AlterTableBuilder.alter_steps_ alter))
                      (new_table_name (AlterTableBuilder.alter_steps_ alter)))
              then default "" (new_table_name (AlterTableBuilder.alter_steps_ alter))
              else table_name))
             (Mono.GetDeltaSince d n0)]) as ->.
  { destruct (negb (St.ok sa)); [|destruct (done_error ra)]; congruence. }
  constructor; [|constructor]. discriminate.
Qed.

End RetryResult.


Lemma RetryFunc_ends_with_a_call_witness :
  Retry.RetryFunc 3 500000%Z "retry" "timed out" Sim.busy (Sim.mk 0 0 0)
  = Some (St.TimedOut "timed out", Sim.mk 1250000 0 0,
          [EvCall (St.IllegalState "busy") true; EvSleep 1250;
           EvCall (St.IllegalState "busy") true])
  /\ (exists tr' s r,
        [EvCall (St.IllegalState "busy") true; EvSleep 1250;
         EvCall (St.IllegalState "busy") true] = tr' ++ [EvCall s r]
        /\ St.TimedOut "timed out" = (if r then St.TimedOut "timed out" else s))
  /\ (1 < 2)%nat.
Proof.
  assert (Hrun : Retry.RetryFunc 3 500000%Z "retry" "timed out" Sim.busy (Sim.mk 0 0 0)
                 = Some (St.TimedOut "timed out", Sim.mk 1250000 0 0,
                         [EvCall (St.IllegalState "busy") true; EvSleep 1250;
                          EvCall (St.IllegalState "busy") true]))
    by (vm_compute; reflexivity).
  split; [exact Hrun|].
  apply (RetryFunc_ends_with_a_call 3 500000%Z "retry" "timed out" Sim.busy
           (Sim.mk 0 0 0) _ _ _ Hrun).
  discriminate.
Defined.

Lemma AlterTable_never_returns_a_poll_error_witness :
  exists w' tr,
    KuduClient.AlterTable 5 (KuduClient.mkOptions 5000000000%Z) "old" Sim.renamed
      (Sim.mk 0 1000 2000000) = Some (St.OK, w', tr)
    /\ Trace.calls tr = [(St.OK, true); (St.OK, true); (St.OK, false)]
    /\ exists tr' s r,
         tr = tr' ++ [EvCall s r]
         /\ ((r = false /\ s = St.OK /\ St.OK = St.OK)
             \/ (r = true /\ St.OK = St.TimedOut "Timeout out waiting for AlterTable")).
Proof.
  eexists _, _. split; [vm_compute; reflexivity|]. split; [reflexivity|].
  eapply (AlterTable_never_returns_a_poll_error 5 (KuduClient.mkOptions 5000000000%Z)
            "old" Sim.renamed (Sim.mk 0 1000 2000000) St.OK);
    [vm_compute; reflexivity | discriminate].
Defined.

Lemma AlterTable_sends_one_request_witness :
  AlterTableBuilder.has_changes Sim.renamed = true
  /\ (KuduClient.AlterTable 3 (KuduClient.mkOptions 5000000000%Z) "old" Sim.renamed
        (Sim.mk 0 1000 0) = Some (St.OK, Sim.mk 2000 1000 0, Sim.renamed_trace))
  /\ exists rest,
       Sim.renamed_trace
       = EvRpc (RpcAlterTable (mkAlterTableRequestPB (Some "old") [] (Some "new"))
                  5000000000%Z) :: rest
       /\ forall req t, EvRpc (RpcAlterTable req t) ∉ rest.
Proof.
  split; [reflexivity|]. split; [vm_compute; reflexivity|].
  apply (AlterTable_sends_one_request 3 (KuduClient.mkOptions 5000000000%Z) "old"
           Sim.renamed (Sim.mk 0 1000 0) St.OK (Sim.mk 2000 1000 0) Sim.renamed_trace);
    [reflexivity | vm_compute; reflexivity].
Defined.

(** ** The alter-table builder. *)

Lemma last_after_rename (l : list string) (n : string) (x : option string) :
  match last l with Some m => Some m | None => Some n end
  = match last (n :: l) with Some m => Some m | None => x end.
Proof.
  destruct l as [|a l]; [reflexivity|].
  change (last (n :: a :: l)) with (last (a :: l)).
  destruct (last (a :: l)) eqn:Hlast; [reflexivity|].
  apply last_None in Hlast. discriminate.
Qed.

(** X6. However the calls on an [AlterTableBuilder] are mixed, its steps
    are the steps it had followed by one step for each call that adds one,
    in call order; an [AddColumn] without default value is refused with
    [InvalidArgument] and adds nothing; the new table name is that of the
    last [RenameTable], if any. *)
Theorem builder_accumulates_in_order (cs : list BuilderCalls.call)
    (b : AlterTableBuilder.t) :
  alter_schema_steps (AlterTableBuilder.alter_steps_ (BuilderCalls.run cs b))
  = alter_schema_steps (AlterTableBuilder.alter_steps_ b)
    ++ omap BuilderCalls.step_of cs
  /\ new_table_name (AlterTableBuilder.alter_steps_ (BuilderCalls.run cs b))
     = match last (omap BuilderCalls.rename_of cs) with
       | Some n => Some n
       | None => new_table_name (AlterTableBuilder.alter_steps_ b)
       end
  /\ (forall n t b', code (fst (BuilderCalls.apply (BuilderCalls.AddColumn n t None) b'))
                     = kInvalidArgument
                     /\ snd (BuilderCalls.apply (BuilderCalls.AddColumn n t None) b') = b')
  /\ (forall c b', BuilderCalls.step_of c <> None \/ BuilderCalls.rename_of c <> None ->
                   fst (BuilderCalls.apply c b') = St.OK).
Proof.
  split; [|split; [|split]].
  - revert b. induction cs as [|c cs IH]; intros b; simpl.
    + rewrite app_nil_r. reflexivity.
    + rewrite IH. destruct c as [n|n t [d|]|n t|n|o n]; simpl;
        rewrite <- ?app_assoc; reflexivity.
  - revert b. induction cs as [|c cs IH]; intros b; [reflexivity|].
    cbn [BuilderCalls.run]. rewrite IH.
    destruct c as [n|n t [d|]|n t|n|o n]; try reflexivity.
    apply last_after_rename.
  - intros n t b'. split; reflexivity.
  - intros c b' Hc.
    destruct c as [n|n t [d|]|n t|n|o n]; simpl in *; try reflexivity.
    destruct Hc as [Hc|Hc]; contradiction.
Qed.

(** ** [KuduTable::Open]. *)

Section TableFacts.
Context {W : Type} `{World W} `{KuduTable.Locations W}.

(** X7. [KuduTable::Open] has no timeout: as long as the master answers
    without error and without a tablet, it polls again; against a master
    that always answers so it never returns. *)
Theorem Table_Open_never_gives_up debug (tbl : KuduTable.t) :
  (forall w, KuduTable.not_yet
               (fst (KuduTable.master_GetTableLocations
                       (KuduTable.mkLocationsRequest (KuduTable.name_ tbl)) w))) ->
  forall fuel w, KuduTable.Open fuel debug tbl w = None.
Proof.
  intros Hnone. induction fuel as [|fuel IH]; intros w; [reflexivity|].
  simpl. specialize (Hnone w).
  destruct (KuduTable.master_GetTableLocations _ w) as [[st resp] w1].
  destruct Hnone as (Hok & Herr & Hloc). simpl in *.
  rewrite Hok, Herr, Hloc. simpl. rewrite IH. reflexivity.
Qed.


End TableFacts.


Lemma Table_Open_never_gives_up_witness :
  (forall w, KuduTable.not_yet
               (fst (@KuduTable.master_GetTableLocations _ SimMore.never_assigned
                       (KuduTable.mkLocationsRequest "t") w)))
  /\ @KuduTable.Open _ _ SimMore.never_assigned 50 false (KuduTable.new "t")
       (Sim.mk 0 1000 0) = None.
Proof.
  assert (Hnot : forall w, KuduTable.not_yet
               (fst (@KuduTable.master_GetTableLocations _ SimMore.never_assigned
                       (KuduTable.mkLocationsRequest "t") w)))
    by (intros w; repeat split).
  split; [exact Hnot|].
  apply (@Table_Open_never_gives_up _ _ SimMore.never_assigned false
           (KuduTable.new "t") Hnot 50 (Sim.mk 0 1000 0)).
Defined.


(** ** [KuduClient::CreateTable]. *)

Section CreateFacts.
Context {W : Type} `{World W} `{CreateTable.Create W}.

Lemma IsCreateTableInProgress_done (name : string) d (w : W) s w' rpcs :
  CreateTable.IsCreateTableInProgress name d true w = (s, false, w', rpcs) -> s = St.OK.
Proof.
  unfold CreateTable.IsCreateTableInProgress.
  destruct (MonoTime_Now w) as [now w1].
  destruct (CreateTable.master_IsCreateTableDone _ _ w1) as [[st resp] w2].
  destruct (negb (St.ok st)); [intros [= _ ?]; discriminate|].
  destruct (CreateTable.create_done_error resp); [intros [= _ ?]; discriminate|].
  intros [= <- _ _ _]. reflexivity.
Qed.

(** X9. [CreateTable] sends the master at most one [CreateTable] call,
    first, with the split keys in the order the options hold them; with a
    schema that does not convert it sends nothing and returns the
    conversion's status with "Invalid schema" put in front.  With
    [WaitAssignment(false)] it never polls nor sleeps, and returns without
    any fuel. *)
Theorem CreateTable_sends_one_request fuel options_ table_name schema opts (w : W) :
  (forall st w' tr,
     CreateTable.CreateTable fuel options_ table_name schema opts w = Some (st, w', tr) ->
     (St.ok (fst (CreateTable.SchemaToPB schema)) = false
      /\ tr = []
      /\ st = CreateTable.prepend "Invalid schema" (fst (CreateTable.SchemaToPB schema)))
     \/ (St.ok (fst (CreateTable.SchemaToPB schema)) = true
         /\ exists polls,
              tr = CreateTable.EvCreateTable table_name (CreateTable.split_keys_ opts)
                     (KuduClient.default_admin_operation_timeout options_)
                   :: (CreateTable.EvPoll <$> polls)
              /\ (CreateTable.wait_assignment_ opts = false -> polls = [])))
  /\ (CreateTable.wait_assignment_ opts = false ->
      exists r, CreateTable.CreateTable 0 options_ table_name schema opts w = Some r).
Proof.
  unfold CreateTable.CreateTable. split.
  - intros st w' tr Hrun.
    destruct (MonoTime_Now w) as [now w1].
    destruct (CreateTable.SchemaToPB schema) as [st_schema pb]. simpl.
    destruct (St.ok st_schema) eqn:Hok; simpl in Hrun.
    2:{ inversion Hrun; subst. left. auto. }
    right. split; [reflexivity|].
    destruct (CreateTable.master_CreateTable _ _ _ _ w1) as [[st1 resp] w2].
    destruct (negb (St.ok st1)).
    { inversion Hrun; subst. exists []. auto. }
    destruct (CreateTable.create_error resp).
    { inversion Hrun; subst. exists []. auto. }
    destruct (CreateTable.wait_assignment_ opts).
    + destruct (Retry.RetryFunc _ _ _ _ _ w2) as [[[s0 w3] tr0]|]; [|discriminate].
      exists tr0. split; [|discriminate].
      destruct (negb (St.ok s0)); inversion Hrun; reflexivity.
    + inversion Hrun; subst. exists []. auto.
  - intros Hnowait. rewrite Hnowait.
    destruct (MonoTime_Now w) as [now w1].
    destruct (CreateTable.SchemaToPB schema) as [st_schema pb].
    destruct (negb (St.ok st_schema)); [eauto|].
    destruct (CreateTable.master_CreateTable _ _ _ _ w1) as [[st1 resp] w2].
    destruct (negb (St.ok st1)); [eauto|].
    destruct (CreateTable.create_error resp); eauto.
Qed.

(** X10. Once [CreateTable] has polled for the assignment, the status of
    a poll that failed is never its result: the result is OK, after a last
    poll that answered OK and done, or it is
    [TimedOut("Timeout out waiting for Table Creation")]. *)
Theorem CreateTable_never_returns_a_poll_error fuel options_ table_name schema opts
    (w : W) st w' tr s0 r0 :
  CreateTable.CreateTable fuel options_ table_name schema opts w = Some (st, w', tr) ->
  CreateTable.EvPoll (EvCall s0 r0) ∈ tr ->
  exists tr' s r,
    tr = tr' ++ [CreateTable.EvPoll (EvCall s r)]
    /\ ((r = false /\ s = St.OK /\ st = St.OK)
        \/ (r = true /\ st = St.TimedOut "Timeout out waiting for Table Creation")).
Proof.
  unfold CreateTable.CreateTable. intros Hrun Hin.
  destruct (MonoTime_Now w) as [now w1].
  destruct (CreateTable.SchemaToPB schema) as [st_schema pb].
  destruct (negb (St.ok st_schema)).
  { inversion Hrun; subst. inversion Hin. }
  destruct (CreateTable.master_CreateTable _ _ _ _ w1) as [[st1 resp] w2].
  assert (Hsingle : forall e, CreateTable.EvPoll (EvCall s0 r0) ∈ [e] ->
                              e = CreateTable.EvPoll (EvCall s0 r0)).
  { intros e He. apply list_elem_of_singleton in He. auto. }
  destruct (negb (St.ok st1)).
  { inversion Hrun; subst. apply Hsingle in Hin. discriminate. }
  destruct (CreateTable.create_error resp).
  { inversion Hrun; subst. apply Hsingle in Hin. discriminate. }
  destruct (CreateTable.wait_assignment_ opts).
  2:{ inversion Hrun; subst. apply Hsingle in Hin. discriminate. }
  destruct (Retry.RetryFunc _ _ _ _ _ w2) as [[[s1 w3] tr0]|] eqn:Hretry; [|discriminate].
  unfold Retry.RetryFunc in Hretry.
  destruct (MonoTime_Now w2) as [now2 w2'].
  destruct (negb (Mono.ComesBefore now2 _)).
  { inversion Hretry; subst. simpl in Hrun. inversion Hrun; subst.
    apply Hsingle in Hin. discriminate. }
  destruct (RetryLoop_last_call _ _ _ _ _ _ _ _ _ _ Hretry)
    as (tr' & s & r & -> & Hst & (wa & wb & rpcs & Hfunc)).
  eexists (_ :: (CreateTable.EvPoll <$> tr')), s, r. split.
  { destruct (negb (St.ok s1)); inversion Hrun; subst;
      rewrite fmap_app; reflexivity. }
  destruct r; subst s1; simpl in Hrun.
  - right. inversion Hrun. auto.
  - left. apply IsCreateTableInProgress_done in Hfunc. subst s.
    simpl in Hrun. inversion Hrun. auto.
Qed.

End CreateFacts.

Lemma CreateTable_sends_one_request_witness :
  (CreateTable.wait_assignment_ (CreateTable.WaitAssignment false CreateTable.default_options)
   = false)
  /\ (@CreateTable.CreateTable _ _ SimMore.sim_Create 0 (KuduClient.mkOptions 5000000000%Z)
        "t" ["key"; "v1"] (CreateTable.WaitAssignment false CreateTable.default_options)
        (Sim.mk 0 1000 2000000)
      = Some (St.OK, Sim.mk 1000 1000 2000000,
              [CreateTable.EvCreateTable "t" [] 5000000000%Z]))
  /\ exists r,
       @CreateTable.CreateTable _ _ SimMore.sim_Create 0 (KuduClient.mkOptions 5000000000%Z)
         "t" ["key"; "v1"] (CreateTable.WaitAssignment false CreateTable.default_options)
         (Sim.mk 0 1000 2000000) = Some r.
Proof.
  split; [reflexivity|]. split; [vm_compute; reflexivity|].
  apply (@CreateTable_sends_one_request _ _ SimMore.sim_Create 0
           (KuduClient.mkOptions 5000000000%Z) "t" ["key"; "v1"]
           (CreateTable.WaitAssignment false CreateTable.default_options)
           (Sim.mk 0 1000 2000000)).
  reflexivity.
Defined.

Lemma CreateTable_never_returns_a_poll_error_witness :
  (@CreateTable.CreateTable _ _ SimMore.sim_Create 5 (KuduClient.mkOptions 5000000000%Z)
     "t" ["key"; "v1"] CreateTable.default_options (Sim.mk 0 1000 2000000)
   = Some (St.OK, Sim.mk 2816000 1000 2000000,
           [CreateTable.EvCreateTable "t" [] 5000000000%Z;
            CreateTable.EvPoll (EvCall St.OK true);
            CreateTable.EvPoll (EvSleep 1250);
            CreateTable.EvPoll (EvCall St.OK true);
            CreateTable.EvPoll (EvSleep 1562);
            CreateTable.EvPoll (EvCall St.OK false)]))
  /\ exists tr' s r,
       [CreateTable.EvCreateTable "t" [] 5000000000%Z;
        CreateTable.EvPoll (EvCall St.OK true);
        CreateTable.EvPoll (EvSleep 1250);
        CreateTable.EvPoll (EvCall St.OK true);
        CreateTable.EvPoll (EvSleep 1562);
        CreateTable.EvPoll (EvCall St.OK false)]
       = tr' ++ [CreateTable.EvPoll (EvCall s r)]
       /\ ((r = false /\ s = St.OK /\ St.OK = St.OK)
           \/ (r = true /\ St.OK = St.TimedOut "Timeout out waiting for Table Creation")).
Proof.
  assert (Hrun :
    @CreateTable.CreateTable _ _ SimMore.sim_Create 5 (KuduClient.mkOptions 5000000000%Z)
      "t" ["key"; "v1"] CreateTable.default_options (Sim.mk 0 1000 2000000)
    = Some (St.OK, Sim.mk 2816000 1000 2000000,
            [CreateTable.EvCreateTable "t" [] 5000000000%Z;
             CreateTable.EvPoll (EvCall St.OK true);
             CreateTable.EvPoll (EvSleep 1250);
             CreateTable.EvPoll (EvCall St.OK true);
             CreateTable.EvPoll (EvSleep 1562);
             CreateTable.EvPoll (EvCall St.OK false)]))
    by (vm_compute; reflexivity).
  split; [exact Hrun|].
  apply (@CreateTable_never_returns_a_poll_error _ _ SimMore.sim_Create 5
           (KuduClient.mkOptions 5000000000%Z) "t" ["key"; "v1"]
           CreateTable.default_options (Sim.mk 0 1000 2000000) _ _ _ St.OK true Hrun).
  apply elem_of_cons. right. apply elem_of_cons. left. reflexivity.
Defined.

(** ** The stress test's big table. *)

Lemma keys_from_length n : length (CreateTableStressTest.keys_from n) = S n.
Proof. induction n as [|n IH]; simpl; [reflexivity | rewrite <- IH; reflexivity]. Qed.

Lemma keys_from_lookup n : forall j,
  j <= n -> CreateTableStressTest.keys_from n !! j = Some (CreateTableStressTest.key (n - j)).
Proof.
  induction n as [|n IH]; intros j Hj.
  - replace j with 0 by lia. reflexivity.
  - destruct j as [|j]; [reflexivity|].
    change (CreateTableStressTest.keys_from (S n) !! S j)
      with (CreateTableStressTest.keys_from n !! j).
    rewrite IH by lia. reflexivity.
Qed.

(** X11. [CreateBigTable] asks for one split key more than
    [num_splits = kNumTablets - 1]: its loop runs from [num_splits] down to
    0 inclusive, so the options hold [kNumTablets] keys, in descending
    order from [k_00099] to [k_00000] for 100 tablets; and it does not wait
    for the assignment. *)
Theorem CreateBigTable_split_keys num_tablets :
  0 < num_tablets ->
  let opts := CreateTableStressTest.big_table_options num_tablets in
  length (CreateTable.split_keys_ opts) = num_tablets
  /\ (forall j, j < num_tablets ->
        CreateTable.split_keys_ opts !! j
        = Some (CreateTableStressTest.key (num_tablets - 1 - j)))
  /\ CreateTable.wait_assignment_ opts = false.
Proof.
  intros Hpos opts. subst opts. unfold CreateTableStressTest.big_table_options. simpl.
  split; [|split].
  - rewrite keys_from_length. lia.
  - intros j Hj. apply keys_from_lookup. lia.
  - reflexivity.
Qed.

Lemma CreateBigTable_split_keys_witness :
  let opts := CreateTableStressTest.big_table_options CreateTableStressTest.kNumTablets in
  length (CreateTable.split_keys_ opts) = 100
  /\ CreateTable.split_keys_ opts !! 0 = Some "k_00099"
  /\ CreateTable.split_keys_ opts !! 99 = Some "k_00000".
Proof.
  intros opts.
  destruct (CreateBigTable_split_keys CreateTableStressTest.kNumTablets)
    as (Hlen & Hkey & _).
  - unfold CreateTableStressTest.kNumTablets. lia.
  - split; [exact Hlen|]. split.
    + apply (Hkey 0). unfold CreateTableStressTest.kNumTablets. lia.
    + apply (Hkey 99). unfold CreateTableStressTest.kNumTablets. lia.
Defined.

(** ** More on the write session. *)

Section SessionMore.
Import KuduSession Prog SessionRun.
Local Open Scope Z_scope.

Ltac prog_unfold :=
  cbv [mbind Prog_bind Prog.bind Prog.get Prog.modify Prog.emit Prog.CHECK
       Prog.ret Prog.abort Prog.hang].
Ltac prog_unfold_in H :=
  cbv [mbind Prog_bind Prog.bind Prog.get Prog.modify Prog.emit Prog.CHECK
       Prog.ret Prog.abort Prog.hang] in H.

(** A sequence of two calls returns when both do. *)
Lemma bind_Returns_inv {S E A B} (m : Prog S E A) (f : A -> Prog S E B) s b s2 tr :
  (m ≫= f) s = Returns b s2 tr ->
  exists a s1 tr1 tr2,
    m s = Returns a s1 tr1 /\ f a s1 = Returns b s2 tr2 /\ tr = tr1 ++ tr2.
Proof.
  unfold mbind, Prog_bind, Prog.bind.
  destruct (m s) as [a s1 tr1| |]; [|discriminate|discriminate].
  destruct (f a s1) as [b' s2' tr2| |] eqn:Hf; [|discriminate|discriminate].
  intros [= <- <- <-]. eauto 10.
Qed.

Lemma lock_guard_Returns_inv {A} (body : KuduSession.M A) s a s' tr :
  lock_guard body s = Returns a s' tr ->
  lock_ s = false /\
  exists s1 tr1, body (set_lock true s) = Returns a s1 tr1
                 /\ s' = set_lock false s1 /\ tr = EvLock :: tr1 ++ [EvUnlock].
Proof.
  unfold lock_guard. prog_unfold.
  destruct (lock_ s); [discriminate|]. simpl.
  destruct (body (set_lock true s)) as [a' s1 tr1| |]; [|discriminate|discriminate].
  intros [= <- <- <-]. eauto 10.
Qed.

(** Changing a batcher object in place keeps the session well formed. *)
Lemma update_keeps_wf s b (o : Batcher.t) :
  wf s -> is_Some (batchers s !! b) -> wf (set_batchers (<[b := o]> (batchers s)) s).
Proof.
  intros (Hl & c & Hc & Ho & Hnf & Hfl) Hb.
  split; [exact Hl|]. exists c. simpl. repeat split; try assumption.
  - destruct (decide (b = c)) as [->|Hne];
      [rewrite lookup_insert_eq; eauto | rewrite lookup_insert_ne by exact Hne; exact Ho].
  - intros f Hf. destruct (decide (b = f)) as [->|Hne];
      [rewrite lookup_insert_eq; eauto | rewrite lookup_insert_ne by exact Hne; auto].
Qed.

Lemma update_batcher_Returns_inv b f s a s' tr :
  update_batcher b f s = Returns a s' tr ->
  exists o, batchers s !! b = Some o
            /\ s' = set_batchers (<[b := f o]> (batchers s)) s /\ tr = [].
Proof.
  unfold update_batcher, deref. prog_unfold.
  destruct (batchers s !! b) as [o|]; [|discriminate]. simpl.
  intros [= <- <- <-]. eauto.
Qed.

Lemma SetTimeoutMillis_keeps_wf ms s a s' tr :
  wf s -> SetTimeoutMillis ms s = Returns a s' tr -> wf s'.
Proof.
  intros Hwf Hcall. unfold SetTimeoutMillis in Hcall. prog_unfold_in Hcall.
  destruct (0 <=? ms); [|discriminate]. simpl in Hcall.
  destruct (batcher_ s) as [p|] eqn:Hp; [|discriminate].
  destruct (update_batcher p (Batcher.SetTimeoutMillis ms) (set_timeout_ms ms s))
    as [u s1 tr1| |] eqn:Hup; [|discriminate|discriminate].
  injection Hcall as <- <- <-.
  apply update_batcher_Returns_inv in Hup as (o & Ho & -> & _).
  apply (update_keeps_wf (set_timeout_ms ms s) p); [|simpl in *; eauto].
  destruct Hwf as (Hl & c & Hc & Hoc & Hnf & Hfl).
  split; [exact Hl|]. exists c. repeat split; assumption.
Qed.

Lemma FlushAsync_keeps_wf cb s a s' tr :
  wf s -> FlushAsync cb s = Returns a s' tr -> wf s'.
Proof.
  intros Hwf Hcall.
  pose proof Hwf as (Hl & b & Hb & [o Ho] & Hnf & Hfl).
  destruct (Z.eqb_spec (flush_mode_ s) MANUAL_FLUSH) as [Hm|Hm].
  - rewrite (FlushAsync_returns cb s b o Hwf Hm Hb Ho) in Hcall.
    injection Hcall as <- <- <-. apply flushed_state_wf; assumption.
  - unfold FlushAsync in Hcall. prog_unfold_in Hcall.
    destruct (Z.eqb_spec (flush_mode_ s) MANUAL_FLUSH); [contradiction|discriminate].
Qed.

Lemma BatcherCompletes_keeps_wf b st s a s' tr :
  wf s -> BatcherCompletes b st s = Returns a s' tr -> wf s'.
Proof.
  intros Hwf Hcall. unfold BatcherCompletes in Hcall.
  apply bind_Returns_inv in Hcall as (o & s0 & tr0 & tr0' & Hderef & Hcall & _).
  assert (s0 = s) as ->.
  { unfold deref in Hderef. prog_unfold_in Hderef.
    destruct (batchers s !! b); [|discriminate]. injection Hderef as _ <- _.
    reflexivity. }
  apply bind_Returns_inv in Hcall as (u & s1 & tr1 & tr1' & Hup & Hcall & _).
  apply update_batcher_Returns_inv in Hup as (o' & Ho' & -> & _).
  apply bind_Returns_inv in Hcall as (u' & s2 & tr2 & tr2' & Hfin & Hcall & _).
  apply FlushFinished_keeps_wf in Hfin; [|apply update_keeps_wf; eauto].
  destruct (Batcher.callback_ o); prog_unfold_in Hcall;
    injection Hcall as _ <- _; exact Hfin.
Qed.

Lemma Flush_keeps_wf completion s a s' tr :
  wf s -> Flush completion s = Returns a s' tr -> wf s'.
Proof.
  intros Hwf Hcall. unfold Flush in Hcall.
  apply bind_Returns_inv in Hcall as (u & s1 & tr1 & tr1' & Hfl & Hcall & _).
  apply FlushAsync_keeps_wf in Hfl; [|exact Hwf].
  unfold Synchronizer_Wait in Hcall.
  apply bind_Returns_inv in Hcall as (s1' & s2 & tr2 & tr2' & Hget & Hcall & _).
  prog_unfold_in Hget. injection Hget as <- <- _.
  destruct (List.filter _ _) as [|b l]; [discriminate|].
  apply bind_Returns_inv in Hcall as (u' & s3 & tr3 & tr3' & Hdone & Hcall & _).
  prog_unfold_in Hcall. injection Hcall as _ <- _.
  eapply BatcherCompletes_keeps_wf; eauto.
Qed.

(** In [AUTO_FLUSH_SYNC] mode a mutation with its key set does not come
    back from [Apply]. *)
Lemma Apply_sync_key_set_aborts insert completion s :
  wf s -> flush_mode_ s = AUTO_FLUSH_SYNC -> IsKeySet (row insert) = true ->
  Apply insert completion s = Aborts "CHECK_EQ(flush_mode_, MANUAL_FLUSH)".
Proof.
  intros (Hl & b & Hb & [o Ho] & _) Hmode Hkey.
  unfold Apply. rewrite Hkey. simpl.
  unfold Flush, FlushAsync, update_batcher, deref. prog_unfold.
  rewrite Hb, Ho, Hmode. simpl. rewrite Hmode. reflexivity.
Qed.

Lemma Apply_keeps_wf_any insert completion s a s' tr :
  wf s -> Apply insert completion s = Returns a s' tr -> wf s'.
Proof.
  intros Hwf Hcall.
  destruct (Z.eqb_spec (flush_mode_ s) AUTO_FLUSH_SYNC) as [Hm|Hm].
  - destruct (IsKeySet (row insert)) eqn:Hkey.
    + rewrite (Apply_sync_key_set_aborts insert completion s Hwf Hm Hkey) in Hcall.
      discriminate.
    + unfold Apply in Hcall. rewrite Hkey in Hcall.
      injection Hcall as <- <- <-. exact Hwf.
  - eapply Apply_keeps_wf; eauto.
Qed.

Lemma HasPendingOperations_keeps_state s a s' tr :
  wf s -> HasPendingOperations s = Returns a s' tr -> s' = s.
Proof.
  intros Hwf Hcall. pose proof Hwf as (_ & b & Hb & _).
  rewrite (HasPendingOperations_returns s b Hwf Hb) in Hcall.
  injection Hcall as _ <- _. reflexivity.
Qed.

Lemma CountBufferedOperations_keeps_state s a s' tr :
  wf s -> CountBufferedOperations s = Returns a s' tr -> s' = s.
Proof.
  intros Hwf Hcall. pose proof Hwf as (Hl & b & Hb & [o Ho] & _).
  destruct (Z.eqb_spec (flush_mode_ s) MANUAL_FLUSH) as [Hm|Hm].
  - rewrite (CountBufferedOperations_returns s b o Hl Hm Hb Ho) in Hcall.
    injection Hcall as _ <- _. reflexivity.
  - apply lock_guard_Returns_inv in Hcall as (_ & s1 & tr1 & Hbody & _).
    prog_unfold_in Hbody. simpl in Hbody.
    destruct (Z.eqb_spec (flush_mode_ s) MANUAL_FLUSH); [contradiction|discriminate].
Qed.

Lemma step_keeps_wf s s' : step s s' -> wf s -> wf s'.
Proof.
  intros Hstep Hwf.
  destruct Hstep as
    [m s a s' tr Hcall | ms s a s' tr Hcall | insert completion s a s' tr Hcall
    | completion s a s' tr Hcall | cb s a s' tr Hcall | b st s a s' tr Hcall
    | b s a s' tr Hcall | s a s' tr Hcall | s a s' tr Hcall].
  - eapply SetFlushMode_keeps_wf; eauto.
  - eapply SetTimeoutMillis_keeps_wf; eauto.
  - eapply Apply_keeps_wf_any; eauto.
  - eapply Flush_keeps_wf; eauto.
  - eapply FlushAsync_keeps_wf; eauto.
  - eapply BatcherCompletes_keeps_wf; eauto.
  - eapply FlushFinished_keeps_wf; eauto.
  - apply HasPendingOperations_keeps_state in Hcall; [subst|]; assumption.
  - apply CountBufferedOperations_keeps_state in Hcall; [subst|]; assumption.
Qed.

(** X12. Every session a program can hold is well formed: between calls
    the lock is free, the current batcher exists and is not in flight, and
    every in-flight batcher exists.  Hence [HasPendingOperations] always
    returns, leaving the session as it is, and in [MANUAL_FLUSH] mode
    [FlushAsync] always returns: its [InsertOrDie] never dies. *)
Theorem reachable_sessions_are_well_formed s :
  reachable s ->
  wf s
  /\ (exists r, HasPendingOperations s = Returns r s [EvLock; EvUnlock])
  /\ (forall cb, flush_mode_ s = MANUAL_FLUSH ->
        exists s' tr, FlushAsync cb s = Returns tt s' tr /\ wf s').
Proof.
  intros Hreach.
  assert (Hwf : wf s).
  { induction Hreach as [s tr Hnew | s s' _ IH Hstep].
    - rewrite NewSession_returns in Hnew. injection Hnew as <- _.
      exact fresh_session_wf.
    - eapply step_keeps_wf; eauto. }
  split; [exact Hwf|]. pose proof Hwf as (Hl & b & Hb & [o Ho] & _). split.
  - rewrite (HasPendingOperations_returns s b Hwf Hb). eauto.
  - intros cb Hm. rewrite (FlushAsync_returns cb s b o Hwf Hm Hb Ho).
    eexists _, _. split; [reflexivity|]. apply flushed_state_wf; assumption.
Qed.

Lemma reachable_sessions_are_well_formed_witness :
  wf manual_session
  /\ exists s' tr, FlushAsync (UserCb 1) manual_session = Returns tt s' tr /\ wf s'.
Proof.
  assert (Hreach : reachable manual_session).
  { apply (reachable_step (set_flush_mode MANUAL_FLUSH fresh_session)).
    - apply (reachable_step fresh_session).
      + apply (reachable_new fresh_session [EvLock; EvRotate 0%nat None; EvUnlock]).
        reflexivity.
      + apply (step_SetFlushMode MANUAL_FLUSH fresh_session St.OK _ []). reflexivity.
    - apply (step_Apply keyed_insert St.OK _ St.OK _ [EvBatcherAdd 0%nat keyed_insert]).
      vm_compute. reflexivity. }
  destruct (reachable_sessions_are_well_formed manual_session Hreach)
    as (Hwf & _ & Hflush).
  split; [exact Hwf|]. apply Hflush. reflexivity.
Defined.

(** X13. [AUTO_FLUSH_BACKGROUND] is a dead end: [SetFlushMode] accepts it
    and [Apply] then adds the mutation to the batcher and returns OK, but
    no call of the session flushes it; [FlushAsync], [Flush] and
    [CountBufferedOperations] abort, and [SetFlushMode] refuses with
    [IllegalState] to leave the mode. *)
Theorem background_mode_cannot_flush s b o insert completion :
  wf s -> batcher_ s = Some b -> batchers s !! b = Some o ->
  Batcher.HasPendingOperations o = false ->
  IsKeySet (row insert) = true ->
  let s1 := set_flush_mode AUTO_FLUSH_BACKGROUND s in
  let s2 := set_batchers (<[b := Batcher.Add insert o]> (batchers s1)) s1 in
  SetFlushMode AUTO_FLUSH_BACKGROUND s = Returns St.OK s1 []
  /\ Apply insert completion s1 = Returns St.OK s2 [EvBatcherAdd b insert]
  /\ (forall cb, FlushAsync cb s2 = Aborts "CHECK_EQ(flush_mode_, MANUAL_FLUSH)")
  /\ Flush completion s2 = Aborts "CHECK_EQ(flush_mode_, MANUAL_FLUSH)"
  /\ CountBufferedOperations s2 = Aborts "CHECK_EQ(flush_mode_, MANUAL_FLUSH)"
  /\ (forall m, SetFlushMode m s2
                = Returns (St.IllegalState
                             "Cannot change flush mode when writes are buffered") s2 []).
Proof.
  intros Hwf Hb Ho Hidle Hkey s1 s2.
  pose proof Hwf as (Hl & _).
  split; [|split; [|split; [|split; [|split]]]].
  - rewrite (SetFlushMode_returns _ s b o Hb Ho), Hidle. reflexivity.
  - apply Apply_returns_OK; auto; discriminate.
  - intros cb. reflexivity.
  - reflexivity.
  - unfold CountBufferedOperations, lock_guard. prog_unfold. simpl.
    rewrite Hl. reflexivity.
  - intros m.
    rewrite (SetFlushMode_returns m s2 b (Batcher.Add insert o));
      [| exact Hb | apply lookup_insert_eq].
    rewrite Add_HasPendingOperations. reflexivity.
Qed.

Lemma background_mode_cannot_flush_witness :
  exists s2,
    Apply keyed_insert St.OK (set_flush_mode AUTO_FLUSH_BACKGROUND fresh_session)
    = Returns St.OK s2 [EvBatcherAdd 0%nat keyed_insert]
    /\ Flush St.OK s2 = Aborts "CHECK_EQ(flush_mode_, MANUAL_FLUSH)"
    /\ SetFlushMode MANUAL_FLUSH s2
       = Returns (St.IllegalState "Cannot change flush mode when writes are buffered") s2 [].
Proof.
  destruct (background_mode_cannot_flush fresh_session 0%nat Batcher.new keyed_insert St.OK)
    as (_ & Happly & _ & Hflush & _ & Hset).
  - exact fresh_session_wf.
  - reflexivity.
  - reflexivity.
  - reflexivity.
  - reflexivity.
  - eexists. split; [exact Happly|]. split; [exact Hflush | apply Hset].
Defined.

Lemma bind_Returns {S E A B} (m : Prog S E A) (f : A -> Prog S E B) s a s1 tr1 b s2 tr2 :
  m s = Returns a s1 tr1 -> f a s1 = Returns b s2 tr2 ->
  (m ≫= f) s = Returns b s2 (tr1 ++ tr2).
Proof.
  intros Hm Hf. unfold mbind, Prog_bind, Prog.bind. rewrite Hm, Hf. reflexivity.
Qed.

Lemma set_batchers_same s : set_batchers (batchers s) s = s.
Proof. destruct s; reflexivity. Qed.

Lemma added_ops l : forall o,
  Batcher.ops_ (added l o) = Batcher.ops_ o ++ l
  /\ Batcher.flushing_ (added l o) = Batcher.flushing_ o
  /\ Batcher.timeout_ms (added l o) = Batcher.timeout_ms o
  /\ Batcher.callback_ (added l o) = Batcher.callback_ o.
Proof.
  induction l as [|i l IH]; intros o; simpl.
  - rewrite app_nil_r. auto.
  - destruct (IH (Batcher.Add i o)) as (-> & -> & -> & ->). simpl.
    rewrite <- app_assoc. auto.
Qed.

(** A run of [Apply]s outside [AUTO_FLUSH_SYNC] adds to the current batcher
    and touches nothing else. *)
Lemma apply_all_returns l : forall s b o,
  Forall (fun i => IsKeySet (row i) = true) l ->
  flush_mode_ s <> AUTO_FLUSH_SYNC ->
  batcher_ s = Some b -> batchers s !! b = Some o ->
  apply_all l s
  = Returns tt (set_batchers (<[b := added l o]> (batchers s)) s) (EvBatcherAdd b <$> l).
Proof.
  induction l as [|i l IH]; intros s b o Hkeys Hmode Hb Ho.
  - simpl. rewrite insert_id by exact Ho. rewrite set_batchers_same. reflexivity.
  - inversion Hkeys as [|? ? Hkey Hkeys']; subst.
    cbn [apply_all added fold_left].
    erewrite bind_Returns;
      [| apply (Apply_returns_OK i St.OK s b o Hkey Hmode Hb Ho)
       | apply (IH (set_batchers (<[b := Batcher.Add i o]> (batchers s)) s) b
                   (Batcher.Add i o) Hkeys' Hmode Hb); apply lookup_insert_eq ].
    simpl. rewrite insert_insert_eq. reflexivity.
Qed.

(** X14. In [MANUAL_FLUSH] mode each batch holds exactly the mutations
    applied before its flush: after some [Apply]s, a [FlushAsync] and more
    [Apply]s, the batcher that was current holds what it held and the
    first mutations, in order, and is in flight; the new current batcher
    holds the later mutations and nothing else; batchers that were in
    flight before are untouched. *)
Theorem batches_hold_what_was_applied_before_the_flush s b o first cb second :
  wf s -> flush_mode_ s = MANUAL_FLUSH ->
  batcher_ s = Some b -> batchers s !! b = Some o ->
  Forall (fun i => IsKeySet (row i) = true) first ->
  Forall (fun i => IsKeySet (row i) = true) second ->
  exists s3 b',
    apply_flush_apply first cb second s
    = Returns tt s3
        ((EvBatcherAdd b <$> first)
         ++ [EvLock; EvRotate b' (Some b); EvInFlightInsert b; EvUnlock;
             EvBatcherFlushAsync b cb]
         ++ (EvBatcherAdd b' <$> second))
    /\ ops_at s3 b = Some (Batcher.ops_ o ++ first)
    /\ b ∈ flushed_batchers_ s3
    /\ batcher_ s3 = Some b' /\ b' <> b
    /\ ops_at s3 b' = Some second
    /\ (forall f, f ∈ flushed_batchers_ s -> batchers s3 !! f = batchers s !! f).
Proof.
  intros Hwf Hmode Hb Ho Hfirst Hsecond.
  assert (Hmode' : flush_mode_ s <> AUTO_FLUSH_SYNC) by (rewrite Hmode; discriminate).
  set (s1 := set_batchers (<[b := added first o]> (batchers s)) s).
  assert (Hwf1 : wf s1) by (apply update_keeps_wf; eauto).
  assert (Ho1 : batchers s1 !! b = Some (added first o)) by apply lookup_insert_eq.
  set (s2 := flushed_state cb b (added first o) s1).
  set (b' := fresh_batcher s1).
  assert (Hfresh : batchers s1 !! b' = None) by apply fresh_batcher_None.
  assert (Hne : b' <> b) by congruence.
  assert (Ho2 : batchers s2 !! b'
                = Some (Batcher.SetTimeoutMillis (timeout_ms_ s1) Batcher.new)).
  { simpl. rewrite lookup_insert_ne by congruence. apply lookup_insert_eq. }
  eexists _, b'. split; [|split; [|split; [|split; [|split; [|split]]]]].
  - unfold apply_flush_apply.
    erewrite bind_Returns;
      [| apply (apply_all_returns first s b o Hfirst Hmode' Hb Ho) |].
    2:{ erewrite bind_Returns;
          [| apply (FlushAsync_returns cb s1 b (added first o) Hwf1 Hmode Hb Ho1)
           | apply (apply_all_returns second s2 b' _ Hsecond Hmode' eq_refl Ho2) ].
        reflexivity. }
    reflexivity.
  - unfold ops_at. simpl. rewrite lookup_insert_ne by congruence.
    rewrite lookup_insert_eq. simpl.
    destruct (added_ops first o) as (-> & _). reflexivity.
  - simpl. apply elem_of_union. left. apply elem_of_singleton. reflexivity.
  - reflexivity.
  - exact Hne.
  - unfold ops_at. simpl. rewrite lookup_insert_eq. simpl.
    match goal with
    | |- context [added second ?x] => destruct (added_ops second x) as (-> & _)
    end.
    reflexivity.
  - intros f Hf. destruct Hwf as (_ & c & Hc & _ & Hnf & Hfl).
    assert (f <> b) by congruence.
    assert (f <> b').
    { intros ->. destruct (Hfl _ Hf) as [x Hx]. unfold s1 in Hfresh. simpl in Hfresh.
      rewrite lookup_insert_ne in Hfresh by congruence. congruence. }
    simpl. change (fresh_batcher s1) with b'.
    rewrite !lookup_insert_ne by congruence. reflexivity.
Qed.

Lemma batches_hold_what_was_applied_before_the_flush_witness :
  exists s3 b',
    apply_flush_apply [keyed_insert; keyed_insert] (UserCb 1) [keyed_insert] manual_session
    = Returns tt s3
        ((EvBatcherAdd 0%nat <$> [keyed_insert; keyed_insert])
         ++ [EvLock; EvRotate b' (Some 0%nat); EvInFlightInsert 0%nat; EvUnlock;
             EvBatcherFlushAsync 0%nat (UserCb 1)]
         ++ (EvBatcherAdd b' <$> [keyed_insert]))
    /\ ops_at s3 0%nat = Some [keyed_insert; keyed_insert; keyed_insert]
    /\ ops_at s3 b' = Some [keyed_insert].
Proof.
  destruct (batches_hold_what_was_applied_before_the_flush manual_session 0%nat
              (Batcher.Add keyed_insert Batcher.new)
              [keyed_insert; keyed_insert] (UserCb 1) [keyed_insert])
    as (s3 & b' & Hrun & Hold & _ & _ & _ & Hnew & _).
  - exact manual_session_wf.
  - reflexivity.
  - reflexivity.
  - reflexivity.
  - repeat constructor.
  - repeat constructor.
  - exists s3, b'. split; [exact Hrun|]. split; [exact Hold | exact Hnew].
Defined.

(** X15. [SetTimeoutMillis] aborts on a negative value.  Otherwise it sets
    the session's timeout and that of the current batcher, and of no other
    batcher; the batcher a later [FlushAsync] installs starts with the
    session's timeout. *)
Theorem SetTimeoutMillis_reaches_current_and_later_batchers s b o ms :
  wf s -> batcher_ s = Some b -> batchers s !! b = Some o ->
  (ms < 0 -> SetTimeoutMillis ms s = Aborts "CHECK_GE(millis, 0)")
  /\ (0 <= ms ->
      exists s1,
        SetTimeoutMillis ms s = Returns tt s1 []
        /\ timeout_ms_ s1 = ms
        /\ timeout_at s1 b = Some ms
        /\ ops_at s1 b = ops_at s b
        /\ (forall f, f <> b -> batchers s1 !! f = batchers s !! f)
        /\ (flush_mode_ s = MANUAL_FLUSH ->
            forall cb, exists s2 b' tr,
              FlushAsync cb s1 = Returns tt s2 tr
              /\ batcher_ s2 = Some b' /\ timeout_at s2 b' = Some ms
              /\ timeout_at s2 b = Some ms)).
Proof.
  intros Hwf Hb Ho. split.
  - intros Hneg. unfold SetTimeoutMillis. prog_unfold.
    destruct (Z.leb_spec 0 ms); [lia|reflexivity].
  - intros Hpos.
    set (s1 := set_batchers (<[b := Batcher.SetTimeoutMillis ms o]> (batchers s))
                 (set_timeout_ms ms s)).
    assert (Hwf1 : wf s1).
    { apply (update_keeps_wf (set_timeout_ms ms s) b); [|simpl; eauto].
      destruct Hwf as (Hl & c & Hc & Hoc & Hnf & Hfl).
      split; [exact Hl|]. exists c. repeat split; assumption. }
    exists s1. split; [|split; [|split; [|split; [|split]]]].
    + unfold SetTimeoutMillis, update_batcher, deref. prog_unfold.
      destruct (Z.leb_spec 0 ms); [|lia]. simpl. rewrite Hb. simpl. rewrite Ho.
      reflexivity.
    + reflexivity.
    + unfold timeout_at. simpl. rewrite lookup_insert_eq. reflexivity.
    + unfold ops_at. simpl. rewrite lookup_insert_eq, Ho. reflexivity.
    + intros f Hf. simpl. rewrite lookup_insert_ne by congruence. reflexivity.
    + intros Hmode cb.
      pose proof (fresh_batcher_None s1) as Hfresh.
      assert (Ho1 : batchers s1 !! b = Some (Batcher.SetTimeoutMillis ms o))
        by apply lookup_insert_eq.
      eexists _, (fresh_batcher s1), _.
      split; [apply (FlushAsync_returns cb s1 b _ Hwf1 Hmode Hb Ho1)|].
      split; [reflexivity|]. unfold timeout_at. simpl. split.
      * rewrite lookup_insert_ne by congruence. rewrite lookup_insert_eq. reflexivity.
      * rewrite lookup_insert_eq. reflexivity.
Qed.

Lemma SetTimeoutMillis_reaches_current_and_later_batchers_witness :
  SetTimeoutMillis (-1) manual_session = Aborts "CHECK_GE(millis, 0)"
  /\ exists s1, SetTimeoutMillis 250 manual_session = Returns tt s1 []
                /\ timeout_at s1 0%nat = Some 250.
Proof.
  destruct (SetTimeoutMillis_reaches_current_and_later_batchers manual_session 0%nat
              (Batcher.Add keyed_insert Batcher.new) (-1)) as [Hneg _];
    [exact manual_session_wf | reflexivity | reflexivity |].
  destruct (SetTimeoutMillis_reaches_current_and_later_batchers manual_session 0%nat
              (Batcher.Add keyed_insert Batcher.new) 250) as [_ Hpos];
    [exact manual_session_wf | reflexivity | reflexivity |].
  split; [apply Hneg; lia|].
  destruct (Hpos ltac:(lia)) as (s1 & Hset & _ & Htimeout & _).
  exists s1. split; [exact Hset | exact Htimeout].
Defined.

(** X16. [HasPendingOperations] answers true exactly when the current
    batcher or some in-flight batcher has pending operations; it leaves the
    session as it is and gives the lock back. *)
Theorem HasPendingOperations_iff_some_batcher_pending s :
  wf s ->
  exists r,
    HasPendingOperations s = Returns r s [EvLock; EvUnlock]
    /\ (r = true <->
        exists b, (batcher_ s = Some b \/ b ∈ flushed_batchers_ s)
                  /\ pending_at s b = true).
Proof.
  intros Hwf. pose proof Hwf as (_ & b & Hb & _).
  eexists. split; [apply (HasPendingOperations_returns s b Hwf Hb)|].
  rewrite orb_true_iff, existsb_exists. split.
  - intros [Hp|(f & Hf & Hp)].
    + exists b. auto.
    + exists f. split; [|exact Hp]. right.
      apply elem_of_elements, list_elem_of_In. exact Hf.
  - intros (f & [Hf|Hf] & Hp).
    + left. congruence.
    + right. exists f. split; [|exact Hp].
      apply list_elem_of_In, elem_of_elements. exact Hf.
Qed.

Lemma HasPendingOperations_iff_some_batcher_pending_witness :
  exists r, HasPendingOperations manual_session = Returns r manual_session [EvLock; EvUnlock]
            /\ r = true.
Proof.
  destruct (HasPendingOperations_iff_some_batcher_pending manual_session manual_session_wf)
    as (r & Hcall & Hiff).
  exists r. split; [exact Hcall|].
  apply Hiff. exists 0%nat. split; [left; reflexivity | reflexivity].
Defined.

(** X17. A batcher may report the end of its flush only once: when
    [FlushFinished] has returned for a batcher, a second [FlushFinished]
    for it aborts; so does one for a batcher that is not in flight. *)
Theorem FlushFinished_twice_aborts b s :
  lock_ s = false ->
  (b ∉ flushed_batchers_ s ->
   FlushFinished b s = Aborts "CHECK_EQ(flushed_batchers_.erase(batcher), 1)")
  /\ (forall a s' tr,
        FlushFinished b s = Returns a s' tr ->
        FlushFinished b s' = Aborts "CHECK_EQ(flushed_batchers_.erase(batcher), 1)").
Proof.
  intros Hl.
  assert (Hout : forall s0, lock_ s0 = false -> b ∉ flushed_batchers_ s0 ->
            FlushFinished b s0 = Aborts "CHECK_EQ(flushed_batchers_.erase(batcher), 1)").
  { intros s0 Hl0 Hnin. unfold FlushFinished, lock_guard. prog_unfold.
    rewrite Hl0. simpl. rewrite bool_decide_eq_false_2 by exact Hnin. reflexivity. }
  split; [apply Hout; exact Hl|].
  intros a s' tr Hcall.
  destruct (decide (b ∈ flushed_batchers_ s)) as [Hin|Hnin].
  - rewrite (FlushFinished_returns s b Hl Hin) in Hcall. injection Hcall as _ <- _.
    apply Hout; [exact Hl|]. simpl.
    intros [_ Hn]%elem_of_difference. apply Hn, elem_of_singleton. reflexivity.
  - rewrite (Hout s Hl Hnin) in Hcall. discriminate.
Qed.

Lemma FlushFinished_twice_aborts_witness :
  let s2 := flushed_state (UserCb 1) 0%nat (Batcher.Add keyed_insert Batcher.new)
              manual_session in
  let s3 := set_flushed (flushed_batchers_ s2 ∖ {[0%nat]}) s2 in
  FlushFinished 0%nat s2 = Returns tt s3 [EvLock; EvInFlightErase 0%nat; EvUnlock]
  /\ FlushFinished 0%nat s3 = Aborts "CHECK_EQ(flushed_batchers_.erase(batcher), 1)".
Proof.
  intros s2 s3.
  assert (Hfirst : FlushFinished 0%nat s2
                   = Returns tt s3 [EvLock; EvInFlightErase 0%nat; EvUnlock]).
  { apply FlushFinished_returns; [reflexivity|].
    simpl. apply elem_of_union. left. apply elem_of_singleton. reflexivity. }
  split; [exact Hfirst|].
  destruct (FlushFinished_twice_aborts 0%nat s2 eq_refl) as [_ Hsecond].
  exact (Hsecond _ _ _ Hfirst).
Defined.

End SessionMore.

(** ** More on the scanner. *)

Section ScannerMore.
Import KuduScanner Prog.
Local Open Scope Z_scope.

Ltac scan_unfold :=
  cbv [mbind Prog_bind Prog.bind Prog.get Prog.modify Prog.emit Prog.CHECK
       Prog.ret Prog.abort Prog.hang].
Ltac scan_unfold_in H :=
  cbv [mbind Prog_bind Prog.bind Prog.get Prog.modify Prog.emit Prog.CHECK
       Prog.ret Prog.abort Prog.hang] in H.

(** [Close] always returns. *)
Lemma Close_returns s : exists s' tr, Close s = Returns tt s' tr.
Proof.
  unfold Close. scan_unfold.
  destruct (open_ s); simpl; [|eauto].
  destruct (bool_decide (get_scanner_id (next_req_ s) = "")); simpl; eauto.
Qed.

(** X18. [Close] never aborts and sends the tablet server at most one
    call: none when the scanner is not open or holds no scanner id, and
    otherwise one [ScanAsync] that carries the scanner id, with
    [close_scanner] set and a batch size of 0, after which the request is
    cleared.  The scanner is then not open, and a second [Close] does
    nothing. *)
Theorem Close_sends_at_most_one_call s :
  exists s' tr,
    (Close s = Returns tt s' tr)
    /\ (open_ s' = false)
    /\ (Close s' = Returns tt s' [])
    /\ ((tr = [] /\ (open_ s = false \/ get_scanner_id (next_req_ s) = ""))
        \/ (open_ s = true /\ get_scanner_id (next_req_ s) <> ""
            /\ tr = [EvScanAsync (mkScanRequest (new_scan_request (next_req_ s))
                                    (scanner_id (next_req_ s)) (Some 0) (Some true))]
            /\ next_req_ s' = empty_request)).
Proof.
  unfold Close. scan_unfold.
  destruct (open_ s) eqn:Ho; simpl.
  - destruct (decide (get_scanner_id (next_req_ s) = "")) as [Hid|Hid].
    + rewrite bool_decide_eq_true_2 by exact Hid.
      eexists _, _. split; [reflexivity|]. simpl. repeat split. left. auto.
    + rewrite bool_decide_eq_false_2 by exact Hid.
      eexists _, _. split; [reflexivity|]. simpl. repeat split. right. auto.
  - eexists _, _. split; [reflexivity|]. rewrite Ho. repeat split. left. auto.
Qed.

(** X19. An [Open] that fails, by the call itself or by an error in the
    answer, returns that failure and leaves the scanner not open: [Close]
    then does nothing, [HasMoreRows] is a contract violation, and [Open]
    may be called again, which sends the same request again. *)
Theorem Open_failure_leaves_scanner_closed sc server st resp :
  open_ sc = false ->
  server (open_request sc) = (st, resp) ->
  (St.ok st = false
   \/ (St.ok st = true /\ exists e, error resp = Some e /\ St.ok e = false)) ->
  exists sc' failure,
    (Open server sc = Returns failure sc' [EvScan (open_request sc)])
    /\ (St.ok failure = false)
    /\ (failure = st \/ error resp = Some failure)
    /\ (open_ sc' = false)
    /\ (open_request sc' = open_request sc)
    /\ (Close sc' = Returns tt sc' [])
    /\ (HasMoreRows sc' = Aborts "CHECK(open_)").
Proof.
  intros Hclosed Hserver Hfail.
  unfold Open, Scan, CheckForErrors. scan_unfold.
  rewrite Hclosed. simpl. rewrite Hserver. simpl.
  destruct Hfail as [Hst | (Hst & e & He & Hbad)]; rewrite Hst; simpl.
  - eexists _, st. split; [reflexivity|]. simpl.
    unfold Close, HasMoreRows. scan_unfold. simpl. rewrite Hclosed. auto 10.
  - rewrite He. simpl. rewrite Hbad. simpl.
    eexists _, e. split; [reflexivity|]. simpl.
    unfold Close, HasMoreRows. scan_unfold. simpl. rewrite Hclosed. auto 10.
Qed.

Lemma Open_failure_leaves_scanner_closed_witness :
  exists sc',
    Open SimMore.unreachable_server (KuduScanner.new "tablet-1")
    = Returns (mkStatus kNetworkError "connection refused" "") sc'
        [EvScan (open_request (KuduScanner.new "tablet-1"))]
    /\ Close sc' = Returns tt sc' [].
Proof.
  destruct (Open_failure_leaves_scanner_closed (KuduScanner.new "tablet-1")
              SimMore.unreachable_server
              (mkStatus kNetworkError "connection refused" "") empty_response)
    as (sc' & failure & Hopen & _ & [Hf|Hf] & _ & _ & Hclose & _).
  - reflexivity.
  - reflexivity.
  - left. reflexivity.
  - subst failure. exists sc'. split; [exact Hopen | exact Hclose].
  - discriminate.
Defined.

(** What a successful [Open] leaves. *)
Lemma Open_succeeds sc server st resp :
  open_ sc = false ->
  server (open_request sc) = (st, resp) ->
  St.ok st = true -> error resp = None ->
  Open server sc = Returns St.OK (ScannerRun.opened resp sc) [EvScan (open_request sc)].
Proof.
  intros Hclosed Hserver Hok Herr.
  unfold Open, Scan, CheckForErrors, ScannerRun.opened. scan_unfold.
  rewrite Hclosed. simpl. rewrite Hserver. simpl. rewrite Hok. simpl.
  rewrite Herr. simpl. destruct (has_more_results resp); reflexivity.
Qed.

(** On an open scanner that holds no rows from [Open], [NextBatch] sends
    one [Scan] with the request the scanner holds, and keeps that
    request. *)
Lemma NextBatch_scans_once server rows s :
  open_ s = true -> data_in_open_ s = false ->
  exists out s', NextBatch server rows s = Returns out s' [EvScan (next_req_ s)]
                 /\ open_ s' = true /\ data_in_open_ s' = false
                 /\ next_req_ s' = next_req_ s.
Proof.
  destruct s as [o d tid p req lr]. simpl. intros -> ->.
  unfold NextBatch, Scan, CheckForErrors. scan_unfold. simpl.
  destruct (server req) as [st2 resp2]. simpl.
  destruct (St.ok st2); simpl; [|eexists _, _; repeat split].
  destruct (error resp2) as [e|]; simpl; [destruct (St.ok e); simpl|];
    eexists _, _; repeat split.
Qed.

Lemma batches_keep_request s0 s :
  ScannerRun.batches s0 s ->
  open_ s0 = true -> data_in_open_ s0 = false ->
  open_ s = true /\ data_in_open_ s = false /\ next_req_ s = next_req_ s0.
Proof.
  induction 1 as [s|s s1 s2 server rows out tr Hb IH Hnext]; intros Ho Hd; [auto|].
  destruct (IH Ho Hd) as (Ho1 & Hd1 & Hreq1).
  destruct (NextBatch_scans_once server rows s1 Ho1 Hd1)
    as (out' & s' & Hrun & Ho2 & Hd2 & Hreq2).
  rewrite Hrun in Hnext. injection Hnext as _ <- _.
  rewrite Hreq2, Hreq1. auto.
Qed.

(** X20. When the answer to [Open] carries rows, [HasMoreRows] is true and
    the first [NextBatch] sends the tablet server nothing: it extracts the
    rows of that answer into its argument, which it has not cleared.
    [HasMoreRows] then tells what the answer to [Open] advertised.  Every
    later [NextBatch], after any number of [NextBatch] calls in between,
    returns and sends exactly one [Scan], with the request the scanner
    kept from [Open]: no new-scan part, and the scanner id of the answer
    when more results were advertised. *)
Theorem NextBatch_serves_the_rows_of_Open sc server st resp block :
  open_ sc = false ->
  server (open_request sc) = (st, resp) ->
  St.ok st = true -> error resp = None -> data resp = Some block ->
  exists sc1,
    (Open server sc = Returns St.OK sc1 [EvScan (open_request sc)])
    /\ (HasMoreRows sc1 = Returns true sc1 [])
    /\ (forall server' rows,
         exists sc2,
           (NextBatch server' rows sc1
            = Returns (ExtractRowsFromRowBlockPB (Some block) rows) sc2 [])
           /\ (HasMoreRows sc2 = Returns (has_more_results resp) sc2 [])
           /\ (new_scan_request (next_req_ sc2) = None)
           /\ (has_more_results resp = true ->
               scanner_id (next_req_ sc2) = Some (default "" (resp_scanner_id resp)))
           /\ (forall s, ScannerRun.batches sc2 s ->
                 forall server'' rows',
                   exists out sc3,
                     NextBatch server'' rows' s
                     = Returns out sc3 [EvScan (next_req_ sc2)])).
Proof.
  intros Hclosed Hserver Hok Herr Hdata.
  assert (Hhas : has_data resp = true).
  { unfold has_data. rewrite Hdata. apply bool_decide_eq_true_2. eauto. }
  exists (ScannerRun.opened resp sc). split; [|split].
  - apply (Open_succeeds sc server st resp); assumption.
  - unfold HasMoreRows. scan_unfold. simpl. rewrite Hhas. reflexivity.
  - intros server' rows.
    exists (set_data_in_open false (ScannerRun.opened resp sc)).
    split; [|split; [|split; [|split]]].
    + unfold NextBatch. scan_unfold. simpl.
      rewrite Hhas. simpl. rewrite Hdata. reflexivity.
    + reflexivity.
    + reflexivity.
    + simpl. intros ->. reflexivity.
    + intros s Hb server'' rows'.
      destruct (batches_keep_request _ _ Hb eq_refl eq_refl) as (Ho & Hd & Hreq).
      destruct (NextBatch_scans_once server'' rows' s Ho Hd)
        as (out & sc3 & Hrun & _).
      exists out, sc3. rewrite Hrun, Hreq. reflexivity.
Qed.

Lemma NextBatch_serves_the_rows_of_Open_witness :
  exists sc1 sc2,
    Open SimMore.rows_server (KuduScanner.new "tablet-1")
    = Returns St.OK sc1 [EvScan (open_request (KuduScanner.new "tablet-1"))]
    /\ NextBatch SimMore.unreachable_server ["row0"] sc1
       = Returns (St.OK, ["row0"; "row1"; "row2"]) sc2 []
    /\ scanner_id (next_req_ sc2) = Some "scanner-7".
Proof.
  destruct (NextBatch_serves_the_rows_of_Open (KuduScanner.new "tablet-1")
              SimMore.rows_server St.OK SimMore.rows_response ["row1"; "row2"])
    as (sc1 & Hopen & _ & Hnext); try reflexivity.
  destruct (Hnext SimMore.unreachable_server ["row0"])
    as (sc2 & Hbatch & _ & _ & Hid & _).
  exists sc1, sc2. split; [exact Hopen|]. split; [exact Hbatch|].
  apply Hid. reflexivity.
Defined.

(** An [Open] that returns OK has dropped the new-scan part of the
    request. *)
Lemma Open_OK_clears_new_scan server sc sc1 tr :
  Open server sc = Returns St.OK sc1 tr ->
  new_scan_request (next_req_ sc1) = None
  /\ open_ sc1 = true
  /\ tablet_id_ sc1 = tablet_id_ sc /\ projection_ sc1 = projection_ sc.
Proof.
  unfold Open, Scan, CheckForErrors. scan_unfold.
  destruct (open_ sc); simpl; [discriminate|].
  destruct (server (open_request sc)) as [st resp]. simpl.
  destruct (St.ok st) eqn:Hok; simpl.
  - destruct (error resp) as [e|]; simpl.
    + destruct (St.ok e) eqn:Hoke; simpl.
      * destruct (has_more_results resp); intros [= <-]; auto.
      * intros [= He]. subst e. discriminate.
    + destruct (has_more_results resp); intros [= <-]; auto.
  - intros [= Hst]. subst st. discriminate.
Qed.

(** X21. The projection and the predicates are sent with the first [Open]
    only: a successful [Open] drops them from the request, so that a
    scanner opened again after [Close] asks the tablet server for the
    tablet alone, with no projected column and no predicate, although its
    [projection_] is still the one that was set. *)
Theorem reopened_scanner_sends_no_projection server sc sc1 tr1 sc2 tr2 :
  Open server sc = Returns St.OK sc1 tr1 ->
  Close sc1 = Returns tt sc2 tr2 ->
  new_scan_request (open_request sc2)
  = Some (mkNewScan (Some (tablet_id_ sc)) [] [])
  /\ projection_ sc2 = projection_ sc
  /\ open_ sc2 = false.
Proof.
  intros Hopen Hclose.
  apply Open_OK_clears_new_scan in Hopen as (Hnone & Ho & Htab & Hproj).
  unfold Close in Hclose. scan_unfold_in Hclose. rewrite Ho in Hclose.
  simpl in Hclose.
  destruct (bool_decide (get_scanner_id (next_req_ sc1) = ""));
    simpl in Hclose; injection Hclose as <- _;
    unfold open_request, with_new_scan, mutable_new_scan_request; simpl;
    rewrite ?Hnone, Htab, Hproj; auto.
Qed.

Lemma reopened_scanner_sends_no_projection_witness :
  SetProjection ["key"; "v1"] (KuduScanner.new "tablet-1")
  = Returns St.OK SimMore.projected_scanner []
  /\ projected_columns (mutable_new_scan_request (open_request SimMore.projected_scanner))
     = ["key"; "v1"]
  /\ exists sc1 sc2 tr1 tr2,
       Open SimMore.rows_server SimMore.projected_scanner = Returns St.OK sc1 tr1
       /\ Close sc1 = Returns tt sc2 tr2
       /\ new_scan_request (open_request sc2) = Some (mkNewScan (Some "tablet-1") [] [])
       /\ projection_ sc2 = ["key"; "v1"].
Proof.
  split; [reflexivity|]. split; [reflexivity|].
  pose proof (Open_succeeds SimMore.projected_scanner SimMore.rows_server St.OK
                SimMore.rows_response eq_refl eq_refl eq_refl eq_refl) as Hopen.
  destruct (Close_returns
              (ScannerRun.opened SimMore.rows_response SimMore.projected_scanner))
    as (sc2 & tr2 & Hclose).
  destruct (reopened_scanner_sends_no_projection _ _ _ _ _ _ Hopen Hclose)
    as (Hreq & Hproj & _).
  eexists _, sc2, _, tr2.
  split; [exact Hopen|]. split; [exact Hclose|]. split; [exact Hreq | exact Hproj].
Defined.

(** Given the proxy, [Open] on a scanner that is not open returns. *)
Lemma Open_returns_given_proxy server s :
  open_ s = false -> exists st s' tr, Open server s = Returns st s' tr.
Proof.
  unfold Open, Scan, CheckForErrors. scan_unfold. intros ->. simpl.
  destruct (server (open_request s)) as [st resp]. simpl.
  destruct (St.ok st); simpl; [|eauto].
  destruct (error resp) as [e|]; simpl; [destruct (St.ok e)|]; simpl; eauto.
Qed.

(** [GetTabletProxy] returns OK only with a proxy stored. *)
Lemma GetTabletProxy_OK cache tablet st stored :
  TableProxy.GetTabletProxy cache tablet = (st, stored) ->
  St.ok st = true -> is_Some stored.
Proof.
  unfold TableProxy.GetTabletProxy.
  destruct (St.ok (TableProxy.Refresh (cache tablet))) eqn:Hr; simpl.
  - destruct (TableProxy.replica_tserver_0 (cache tablet)) as [ts|].
    + destruct (St.ok (TableProxy.RefreshProxy ts)) eqn:Hp; simpl.
      * intros [= <- <-] _. eauto.
      * intros [= <- <-] Hok. congruence.
    + intros [= <- <-] Hok. discriminate.
  - intros [= <- <-] Hok. congruence.
Qed.

(** X22. When the scanner aborts.  [SetProjection] and
    [AddConjunctPredicate] abort exactly on an open scanner; [HasMoreRows]
    and [NextBatch] abort exactly on a scanner that is not open, and
    [NextBatch] on an open one returns; [SetBatchSizeBytes], which has no
    check, sets the batch size on any scanner; [Close] always returns.
    [Open] aborts on its own check exactly on an open scanner.  On a
    scanner that is not open it aborts as well, on the [CHECK_OK] of
    [KuduTable::proxy()], exactly when the table has no proxy yet and
    [GetTabletProxy] fails, as it does with [NotFound] for a tablet
    without replica; in every other case it returns, and the table then
    holds a proxy. *)
Theorem scanner_abort_conditions s tbl server p pb n rows :
  (TableProxy.Open tbl s = Aborts "CHECK(!open_) Scanner already open"
   <-> open_ s = true)
  /\ (TableProxy.Open tbl s
      = Aborts "CHECK_OK(client_->GetTabletProxy(tablet_id_, &proxy_))"
      <-> (open_ s = false /\ TableProxy.proxy_ tbl = None
           /\ St.ok (fst (TableProxy.GetTabletProxy (TableProxy.meta_cache_ tbl)
                            (tablet_id_ s))) = false))
  /\ (open_ s = false ->
      (is_Some (TableProxy.proxy_ tbl)
       \/ St.ok (fst (TableProxy.GetTabletProxy (TableProxy.meta_cache_ tbl)
                        (tablet_id_ s))) = true) ->
      exists st s' tbl' tr,
        TableProxy.Open tbl s = Returns st (s', tbl') tr
        /\ is_Some (TableProxy.proxy_ tbl'))
  /\ (St.ok (TableProxy.Refresh (TableProxy.meta_cache_ tbl (tablet_id_ s))) = true ->
      TableProxy.replica_tserver_0 (TableProxy.meta_cache_ tbl (tablet_id_ s)) = None ->
      fst (TableProxy.GetTabletProxy (TableProxy.meta_cache_ tbl) (tablet_id_ s))
      = St.NotFound ("No replicas for tablet " ++ tablet_id_ s))
  /\ (SetProjection p s = Aborts "CHECK(!open_) Scanner already open" <-> open_ s = true)
  /\ (AddConjunctPredicate pb s = Aborts "CHECK(!open_) Scanner already open"
      <-> open_ s = true)
  /\ (HasMoreRows s = Aborts "CHECK(open_)" <-> open_ s = false)
  /\ (NextBatch server rows s = Aborts "CHECK(open_)" <-> open_ s = false)
  /\ (open_ s = true -> exists out s' tr, NextBatch server rows s = Returns out s' tr)
  /\ (exists s', SetBatchSizeBytes n s = Returns St.OK s' []
                 /\ batch_size_bytes (next_req_ s') = Some n /\ open_ s' = open_ s)
  /\ (exists s' tr, Close s = Returns tt s' tr).
Proof.
  assert (HOpen : forall tbl', open_ s = false ->
            (is_Some (TableProxy.proxy_ tbl')
             \/ St.ok (fst (TableProxy.GetTabletProxy (TableProxy.meta_cache_ tbl')
                              (tablet_id_ s))) = true) ->
            exists st s' tbl'' tr,
              TableProxy.Open tbl' s = Returns st (s', tbl'') tr
              /\ is_Some (TableProxy.proxy_ tbl'')).
  { intros tbl' Ho Hp. unfold TableProxy.Open, TableProxy.proxy. rewrite Ho.
    destruct (TableProxy.proxy_ tbl') as [srv|] eqn:Hc.
    - destruct (Open_returns_given_proxy srv s Ho) as (st & s' & tr & ->).
      exists st, s', tbl', tr. rewrite Hc. eauto.
    - destruct Hp as [[x [=]]|Hp].
      destruct (TableProxy.GetTabletProxy _ _) as [st0 stored] eqn:Hg.
      simpl in Hp. rewrite Hp. simpl.
      destruct (GetTabletProxy_OK _ _ _ _ Hg Hp) as [srv ->].
      destruct (Open_returns_given_proxy srv s Ho) as (st & s' & tr & ->).
      eexists st, s', _, tr. split; [reflexivity|]. simpl. eauto. }
  assert (HNext : exists out s' tr,
             open_ s = true -> NextBatch server rows s = Returns out s' tr).
  { unfold NextBatch, Scan, CheckForErrors. scan_unfold.
    destruct (open_ s); simpl; [|exists (St.OK, []), s, []; discriminate].
    destruct (data_in_open_ s); simpl; [eauto|].
    destruct (server (next_req_ s)) as [st resp]. simpl.
    destruct (St.ok st); simpl; [|eauto].
    destruct (error resp) as [e|]; simpl; [destruct (St.ok e)|]; simpl; eauto. }
  destruct HNext as (out & sn & trn & HNext).
  assert (Hcases : open_ s = false ->
            (TableProxy.proxy_ tbl = None
             /\ St.ok (fst (TableProxy.GetTabletProxy (TableProxy.meta_cache_ tbl)
                              (tablet_id_ s))) = false
             /\ TableProxy.Open tbl s
                = Aborts "CHECK_OK(client_->GetTabletProxy(tablet_id_, &proxy_))")
            \/ ((is_Some (TableProxy.proxy_ tbl)
                 \/ St.ok (fst (TableProxy.GetTabletProxy (TableProxy.meta_cache_ tbl)
                                  (tablet_id_ s))) = true)
                /\ exists st s' tbl' tr, TableProxy.Open tbl s = Returns st (s', tbl') tr)).
  { intros Ho.
    destruct (TableProxy.proxy_ tbl) as [srv|] eqn:Hc.
    - right. split; [eauto|].
      destruct (HOpen tbl Ho) as (st & s' & tbl' & tr & Hrun & _);
        [rewrite Hc; eauto | eauto].
    - destruct (St.ok (fst (TableProxy.GetTabletProxy (TableProxy.meta_cache_ tbl)
                              (tablet_id_ s)))) eqn:Hok.
      + right. split; [auto|].
        destruct (HOpen tbl Ho) as (st & s' & tbl' & tr & Hrun & _); [auto | eauto].
      + left. split; [reflexivity|]. split; [reflexivity|].
        unfold TableProxy.Open, TableProxy.proxy. rewrite Ho, Hc.
        destruct (TableProxy.GetTabletProxy _ _) as [st0 stored].
        simpl in Hok. rewrite Hok. reflexivity. }
  split; [|split; [|split; [|split; [|split; [|split; [|split; [|split;
    [|split; [|split]]]]]]]]].
  - split.
    + intros Hab. destruct (open_ s) eqn:Ho; [reflexivity|].
      destruct (Hcases eq_refl) as [(_ & _ & Hrun)|(_ & st & s' & tbl' & tr & Hrun)];
        rewrite Hrun in Hab; discriminate.
    + intros Ho. unfold TableProxy.Open. rewrite Ho. reflexivity.
  - split.
    + intros Hab. destruct (open_ s) eqn:Ho.
      * unfold TableProxy.Open in Hab. rewrite Ho in Hab. discriminate.
      * destruct (Hcases eq_refl) as [(Hc & Hok & _)|(_ & st & s' & tbl' & tr & Hrun)];
          [auto | rewrite Hrun in Hab; discriminate].
    + intros (Ho & Hc & Hok).
      destruct (Hcases Ho) as [(_ & _ & Hrun)|([[x Hx]|Hok'] & _)];
        [exact Hrun | congruence | congruence].
  - intros Ho Hp. apply HOpen; assumption.
  - intros Hr Hnone. unfold TableProxy.GetTabletProxy. rewrite Hr, Hnone. reflexivity.
  - unfold SetProjection. scan_unfold. destruct (open_ s); simpl; split;
      try reflexivity; try discriminate.
  - unfold AddConjunctPredicate. scan_unfold. destruct (open_ s); simpl; split;
      try reflexivity; try discriminate.
  - unfold HasMoreRows. scan_unfold. destruct (open_ s); simpl; split;
      try reflexivity; try discriminate.
  - split.
    + intros Hab. destruct (open_ s); [|reflexivity].
      rewrite HNext in Hab by reflexivity. discriminate.
    + intros Ho. unfold NextBatch. scan_unfold. rewrite Ho. reflexivity.
  - eauto.
  - unfold SetBatchSizeBytes. scan_unfold. eexists. split; [reflexivity|].
    simpl. auto.
  - apply Close_returns.
Qed.

(** A tablet without replica: the first [Open] of a scanner on it aborts. *)
Lemma scanner_abort_conditions_witness :
  TableProxy.Open SimMore.no_replica_table (KuduScanner.new "tablet-1")
  = Aborts "CHECK_OK(client_->GetTabletProxy(tablet_id_, &proxy_))"
  /\ fst (TableProxy.GetTabletProxy (TableProxy.meta_cache_ SimMore.no_replica_table)
            "tablet-1")
     = St.NotFound "No replicas for tablet tablet-1".
Proof.
  destruct (scanner_abort_conditions (KuduScanner.new "tablet-1")
              SimMore.no_replica_table SimMore.rows_server [] "" 0%Z [])
    as (_ & Habort & _ & Hnotfound & _).
  split.
  - apply Habort. repeat split.
  - apply Hnotfound; reflexivity.
Defined.

End ScannerMore.
